(** * unlock-gemini-cli: the OpenAI adapter and the effective-model probe

    A shallow embedding of
      - packages/core/src/openai/openai-adapter.ts  (OpenAIContentGenerator),
      - packages/core/src/core/modelCheck.ts        (getEffectiveModel),
      - packages/core/src/config/models.ts          (model identifiers),
      - packages/core/src/core/contentGenerator.ts  (configuration, creation),
    followed by the properties of the converters, the response synthesizer,
    the stream accumulator, the model resolver and the configuration.

    Conventions of the embedding:
      - a JavaScript string is a [string]; one [ascii] stands for one code
        unit, so [String.length] is the [.length] of the source;
      - [undefined] and [null] are [None];
      - a thrown exception is the [Throw] branch of [Result];
      - [Math.random] is a stream of draws read through a counter that is
        passed along explicitly;
      - the backend client is a record of functions, and the backend's event
        stream is the finite list of the events it delivers;
      - a callback or a constructor that the code is handed is given by what
        its call does: it returns a value or throws. *)

From Stdlib Require Import String Ascii List Bool Arith ZArith Lia.
From Stdlib Require QArith.
Import ListNotations.

Local Open Scope list_scope.
Local Open Scope string_scope.
Local Open Scope nat_scope.

#[local] Set Warnings "-register-all".

(* ===================================================================== *)
(** ** The JavaScript runtime the code relies on *)
(* ===================================================================== *)

Module Js.

(** Characters that cannot be written inside a literal. *)
Definition dquote : ascii := "034"%char.
Definition backslash : ascii := "092"%char.
Definition newline : string := String "010"%char EmptyString.

(** Truthiness of a string: every string except the empty one. *)
Definition truthy (s : string) : bool :=
  match s with
  | EmptyString => false
  | String _ _ => true
  end.

(** Truthiness of an optional string ([undefined], [null] and the empty
    string are falsy). *)
Definition truthy_opt (o : option string) : bool :=
  match o with
  | Some s => truthy s
  | None => false
  end.

(** Truthiness of an optional object or array: present means truthy. *)
Definition present {A : Type} (o : option A) : bool :=
  match o with
  | Some _ => true
  | None => false
  end.

(** [a || b] on strings. *)
Definition or_else (a b : string) : string :=
  if truthy a then a else b.

(** [Array.prototype.join] on an array of strings. *)
Definition join (sep : string) (l : list string) : string :=
  String.concat sep l.

(** [String.prototype.substr(start, len)]. *)
Definition substr (start len : nat) (s : string) : string :=
  String.substring start len s.

(** [String.prototype.toLowerCase] on code units below 256: the letters
    A to Z and the capital letters of Latin-1 move up by 32, every other
    code unit stays. *)
Definition lower_char (c : ascii) : ascii :=
  let n := nat_of_ascii c in
  if (65 <=? n) && (n <=? 90) then ascii_of_nat (n + 32)
  else if (192 <=? n) && (n <=? 222) && negb (Nat.eqb n 215) then ascii_of_nat (n + 32)
  else c.

Fixpoint toLowerCase (s : string) : string :=
  match s with
  | EmptyString => EmptyString
  | String c r => String (lower_char c) (toLowerCase r)
  end.

(** [Math.ceil(n / 4)] for a non-negative integer [n]. *)
Definition ceil_div4 (n : nat) : nat := (n + 3) / 4.

(** *** JSON values

    A number keeps its decimal literal; the double it denotes is not
    modelled. An object is the list of its members in order. *)
Inductive json : Type :=
| JNull
| JBool (b : bool)
| JNumber (literal : string)
| JString (s : string)
| JArray (items : list json)
| JObject (members : list (string * json)).

(** *** JSON.stringify *)

Definition hex_digit (n : nat) : ascii :=
  if n <? 10 then ascii_of_nat (48 + n) else ascii_of_nat (87 + n).

Definition escape_char (c : ascii) : string :=
  let n := nat_of_ascii c in
  if Nat.eqb n 34 then String backslash (String dquote EmptyString)
  else if Nat.eqb n 92 then String backslash (String backslash EmptyString)
  else if Nat.eqb n 8 then String backslash "b"
  else if Nat.eqb n 12 then String backslash "f"
  else if Nat.eqb n 10 then String backslash "n"
  else if Nat.eqb n 13 then String backslash "r"
  else if Nat.eqb n 9 then String backslash "t"
  else if n <? 32 then
    String backslash
      ("u00" ++ String (hex_digit (n / 16)) (String (hex_digit (n mod 16)) EmptyString))
  else String c EmptyString.

Fixpoint escape (s : string) : string :=
  match s with
  | EmptyString => EmptyString
  | String c r => escape_char c ++ escape r
  end.

Definition quote (s : string) : string :=
  String dquote (escape s ++ String dquote EmptyString).

Fixpoint JSON_stringify (v : json) : string :=
  match v with
  | JNull => "null"
  | JBool true => "true"
  | JBool false => "false"
  | JNumber lit => lit
  | JString s => quote s
  | JArray items =>
      "[" ++ join "," (List.map JSON_stringify items) ++ "]"
  | JObject members =>
      "{" ++ join ","
               (List.map (fun kv => quote (fst kv) ++ ":" ++ JSON_stringify (snd kv))
                         members)
          ++ "}"
  end.

(** *** JSON.parse

    A recursive-descent reader of the JSON grammar: it gives a value for
    exactly the texts of that grammar, and [None], which stands for the
    [SyntaxError] that [JSON.parse] throws, for every other text. The value
    is kept as the text writes it: a number by its literal, the members of an
    object in their order and with their repetitions, and a code unit above
    255, which [ascii] cannot hold, by the six characters of its escape.
    The adapter stores the value without reading it. *)

Definition is_ws (c : ascii) : bool :=
  let n := nat_of_ascii c in
  Nat.eqb n 32 || Nat.eqb n 9 || Nat.eqb n 10 || Nat.eqb n 13.

Fixpoint skip_ws (s : string) : string :=
  match s with
  | String c r => if is_ws c then skip_ws r else s
  | EmptyString => s
  end.

Definition is_digit (c : ascii) : bool :=
  let n := nat_of_ascii c in (48 <=? n) && (n <=? 57).

(** The longest prefix of digits, and what follows it. *)
Fixpoint span_digits (s : string) : string * string :=
  match s with
  | String c r =>
      if is_digit c then
        let (d, rest) := span_digits r in (String c d, rest)
      else (EmptyString, s)
  | EmptyString => (EmptyString, s)
  end.

Fixpoint strip_prefix (p s : string) : option string :=
  match p, s with
  | EmptyString, _ => Some s
  | String a p', String b s' =>
      if Ascii.eqb a b then strip_prefix p' s' else None
  | String _ _, EmptyString => None
  end.

(** int: [0], or a non-zero digit followed by digits. *)
Definition parse_int (s : string) : option (string * string) :=
  match span_digits s with
  | (EmptyString, _) => None
  | (String "0" EmptyString, rest) => Some ("0", rest)
  | (String "0" (String _ _), _) => None
  | (ds, rest) => Some (ds, rest)
  end.

Definition parse_frac (s : string) : option (string * string) :=
  match s with
  | String "." r =>
      match span_digits r with
      | (EmptyString, _) => None
      | (ds, rest) => Some (String "." ds, rest)
      end
  | _ => Some (EmptyString, s)
  end.

Definition parse_exp (s : string) : option (string * string) :=
  let digits (pre r : string) :=
    match span_digits r with
    | (EmptyString, _) => None
    | (ds, rest) => Some (pre ++ ds, rest)
    end in
  match s with
  | String "e" (String "+" r) => digits "e+" r
  | String "e" (String "-" r) => digits "e-" r
  | String "E" (String "+" r) => digits "E+" r
  | String "E" (String "-" r) => digits "E-" r
  | String "e" r => digits "e" r
  | String "E" r => digits "E" r
  | _ => Some (EmptyString, s)
  end.

Definition parse_number (s : string) : option (string * string) :=
  let (sign, s1) :=
    match s with
    | String "-" r => ("-", r)
    | _ => (EmptyString, s)
    end in
  match parse_int s1 with
  | None => None
  | Some (i, s2) =>
      match parse_frac s2 with
      | None => None
      | Some (f, s3) =>
          match parse_exp s3 with
          | None => None
          | Some (e, s4) => Some (sign ++ i ++ f ++ e, s4)
          end
      end
  end.

Definition hex_value (c : ascii) : option nat :=
  let n := nat_of_ascii c in
  if (48 <=? n) && (n <=? 57) then Some (n - 48)
  else if (97 <=? n) && (n <=? 102) then Some (n - 87)
  else if (65 <=? n) && (n <=? 70) then Some (n - 55)
  else None.

Definition hex4 (a b c d : ascii) : option nat :=
  match hex_value a, hex_value b, hex_value c, hex_value d with
  | Some x, Some y, Some z, Some w => Some (((x * 16 + y) * 16 + z) * 16 + w)
  | _, _, _, _ => None
  end.

(** The characters of a string literal, after its opening quote. *)
Fixpoint parse_chars (s : string) : option (string * string) :=
  let cons (c : ascii) (r : option (string * string)) :=
    match r with
    | Some (body, rest) => Some (String c body, rest)
    | None => None
    end in
  match s with
  | EmptyString => None
  | String "034" r => Some (EmptyString, r)
  | String "092" (String "u" (String a (String b (String c (String d r))))) =>
      match hex4 a b c d with
      | Some n =>
          if n <? 256 then cons (ascii_of_nat n) (parse_chars r)
          else cons backslash (cons "u"%char (cons a (cons b (cons c (cons d
                 (parse_chars r))))))
      | None => None
      end
  | String "092" (String e r) =>
      match e with
      | "034"%char => cons dquote (parse_chars r)
      | "092"%char => cons backslash (parse_chars r)
      | "/"%char => cons "/"%char (parse_chars r)
      | "b"%char => cons "008"%char (parse_chars r)
      | "f"%char => cons "012"%char (parse_chars r)
      | "n"%char => cons "010"%char (parse_chars r)
      | "r"%char => cons "013"%char (parse_chars r)
      | "t"%char => cons "009"%char (parse_chars r)
      | _ => None
      end
  | String "092" EmptyString => None
  | String c r =>
      if nat_of_ascii c <? 32 then None else cons c (parse_chars r)
  end.

Fixpoint parse_value (fuel : nat) (s : string) {struct fuel}
  : option (json * string) :=
  match fuel with
  | O => None
  | S fuel' =>
      match skip_ws s with
      | String "{" r =>
          match skip_ws r with
          | String "}" r' => Some (JObject [], r')
          | r1 =>
              match parse_members fuel' r1 with
              | Some (ms, r') => Some (JObject ms, r')
              | None => None
              end
          end
      | String "[" r =>
          match skip_ws r with
          | String "]" r' => Some (JArray [], r')
          | r1 =>
              match parse_elements fuel' r1 with
              | Some (vs, r') => Some (JArray vs, r')
              | None => None
              end
          end
      | String "034" r =>
          match parse_chars r with
          | Some (body, r') => Some (JString body, r')
          | None => None
          end
      | String "t" _ as s1 =>
          option_map (fun r => (JBool true, r)) (strip_prefix "true" s1)
      | String "f" _ as s1 =>
          option_map (fun r => (JBool false, r)) (strip_prefix "false" s1)
      | String "n" _ as s1 =>
          option_map (fun r => (JNull, r)) (strip_prefix "null" s1)
      | s1 =>
          match parse_number s1 with
          | Some (lit, r') => Some (JNumber lit, r')
          | None => None
          end
      end
  end

(** One or more values separated by commas, up to the closing bracket. *)
with parse_elements (fuel : nat) (s : string) {struct fuel}
  : option (list json * string) :=
  match fuel with
  | O => None
  | S fuel' =>
      match parse_value fuel' s with
      | Some (v, r) =>
          match skip_ws r with
          | String "]" r' => Some ([v], r')
          | String "," r' =>
              match parse_elements fuel' r' with
              | Some (vs, r'') => Some (v :: vs, r'')
              | None => None
              end
          | _ => None
          end
      | None => None
      end
  end

(** One or more members separated by commas, up to the closing brace. *)
with parse_members (fuel : nat) (s : string) {struct fuel}
  : option (list (string * json) * string) :=
  match fuel with
  | O => None
  | S fuel' =>
      match skip_ws s with
      | String "034" r =>
          match parse_chars r with
          | Some (key, r1) =>
              match skip_ws r1 with
              | String ":" r2 =>
                  match parse_value fuel' r2 with
                  | Some (v, r3) =>
                      match skip_ws r3 with
                      | String "}" r' => Some ([(key, v)], r')
                      | String "," r' =>
                          match parse_members fuel' r' with
                          | Some (ms, r'') => Some ((key, v) :: ms, r'')
                          | None => None
                          end
                      | _ => None
                      end
                  | None => None
                  end
              | _ => None
              end
          | None => None
          end
      | _ => None
      end
  end.

(** [JSON.parse(text)]: one value, surrounded by white space only. Every
    call of the reader consumes a character or is followed by one that
    does, so twice the length of the text is fuel enough. *)
Definition JSON_parse (text : string) : option json :=
  match parse_value (2 * String.length text + 2) text with
  | Some (v, rest) =>
      match skip_ws rest with
      | EmptyString => Some v
      | String _ _ => None
      end
  | None => None
  end.

End Js.


(** *** Exceptions

    [SyntaxError] is what [JSON.parse] throws, [TypeError] what reading a
    property of [undefined] throws, [BackendError] a rejection coming from
    the backend client, and [ApiError cause] is
    [new Error(`OpenAI API error: ${cause.message}`)]. *)
Inductive JsError : Type :=
| SyntaxError (text : string)
| TypeError (what : string)
| BackendError (message : string)
| ApiError (cause : JsError).

Inductive Result (A : Type) : Type :=
| Ok (a : A)
| Throw (e : JsError).

Arguments Ok {A} a.
Arguments Throw {A} e.

Definition bind {A B : Type} (r : Result A) (f : A -> Result B) : Result B :=
  match r with
  | Ok a => f a
  | Throw e => Throw e
  end.

Notation "x <- r ;; k" := (bind r (fun x => k))
  (at level 61, r at next level, right associativity).

(** [try { body } catch (error) { throw new Error(`OpenAI API error: ...`) }] *)
Definition rethrow_as_api_error {A : Type} (body : Result A) : Result A :=
  match body with
  | Ok a => Ok a
  | Throw e => Throw (ApiError e)
  end.

(* ===================================================================== *)
(** ** packages/core/src/config/models.ts *)
(* ===================================================================== *)

Module Models.

Definition DEFAULT_OPENAI_MODEL : string := "gpt-4o".
Definition DEFAULT_OPENAI_FLASH_MODEL : string := "gpt-4o-mini".
Definition DEFAULT_OPENAI_EMBEDDING_MODEL : string := "text-embedding-3-small".

End Models.

(* ===================================================================== *)
(** ** packages/core/src/core/modelCheck.ts *)
(* ===================================================================== *)

Module ModelCheck.

Import Models.

(** The argument of [fetch]. The abort signal is the one of the
    controller that the 2000 ms timer aborts. *)
Record FetchRequest : Type := {
  endpoint : string;
  method : string;
  headers : list (string * string);
  body : string
}.

(** What awaiting [fetch] gives: a response, of which the code reads the
    status only, or a rejection (a transport failure, or the abort fired by
    the timer). *)
Inductive FetchOutcome : Type :=
| Responded (status : Z)
| Rejected (reason : JsError).

(** What the function finds around it. *)
Record Host : Type := {
  OPENAI_BASE_URL : option string;
  fetch : FetchRequest -> FetchOutcome
}.

(** What the function does to the world, in order. *)
Inductive Effect : Type :=
| SetTimeout (ms : nat)
| Fetch (request : FetchRequest)
| ClearTimeout
| ConsoleLog (line : string).

Definition probe_request (host : Host) (apiKey : string) : FetchRequest :=
  let modelToTest := DEFAULT_OPENAI_MODEL in
  let baseURL :=
    match OPENAI_BASE_URL host with
    | Some u => Js.or_else u "https://api.openai.com/v1"
    | None => "https://api.openai.com/v1"
    end in
  let endpoint := baseURL ++ "/chat/completions" in
  let body :=
    Js.JSON_stringify
      (Js.JObject
         [("model", Js.JString modelToTest);
          ("messages",
           Js.JArray [Js.JObject [("role", Js.JString "user");
                                  ("content", Js.JString "test")]]);
          ("max_tokens", Js.JNumber "1");
          ("temperature", Js.JNumber "0")]) in
  {| endpoint := endpoint;
     method := "POST";
     headers := [("Content-Type", "application/json");
                 ("Authorization", "Bearer " ++ apiKey)];
     body := body |}.

Definition getEffectiveModel (host : Host) (apiKey currentConfiguredModel : string)
  : Result string * list Effect :=
  if negb (String.eqb currentConfiguredModel DEFAULT_OPENAI_MODEL) then
    (Ok currentConfiguredModel, [])
  else
    let modelToTest := DEFAULT_OPENAI_MODEL in
    let fallbackModel := DEFAULT_OPENAI_FLASH_MODEL in
    let request := probe_request host apiKey in
    match fetch host request with
    | Responded status =>
        if Z.eqb status 429 then
          (Ok fallbackModel,
           [SetTimeout 2000; Fetch request; ClearTimeout;
            ConsoleLog ("[INFO] Your configured model (" ++ modelToTest
                        ++ ") was temporarily unavailable. Switched to "
                        ++ fallbackModel ++ " for this session.")])
        else
          (Ok currentConfiguredModel,
           [SetTimeout 2000; Fetch request; ClearTimeout])
    | Rejected _error =>
        (Ok currentConfiguredModel,
         [SetTimeout 2000; Fetch request; ClearTimeout])
    end.

(** The requests that a run has sent. *)
Definition probes (trace : list Effect) : list FetchRequest :=
  flat_map (fun e => match e with Fetch r => [r] | _ => [] end) trace.

End ModelCheck.

(* ===================================================================== *)
(** ** packages/core/src/openai/openai-adapter.ts *)
(* ===================================================================== *)

Module Adapter.

Import Js.

(** *** The provider-agnostic content model *)

Record InlineData : Type := {
  mimeType : string;
  data : string
}.

Record FileData : Type := {
  file_mimeType : string;
  fileUri : string
}.

Record FunctionCall : Type := {
  fc_name : string;
  fc_args : json;
  fc_id : option string
}.

Record FunctionResponse : Type := {
  fr_name : string;
  fr_response : json;
  fr_id : option string
}.

Record Part : Type := {
  text : option string;
  functionCall : option FunctionCall;
  functionResponse : option FunctionResponse;
  inlineData : option InlineData;
  fileData : option FileData;
  thought : option string
}.

(** The object literals [{ text: s }] and [{ functionCall: fc }]. *)
Definition text_part (s : string) : Part :=
  {| text := Some s; functionCall := None; functionResponse := None;
     inlineData := None; fileData := None; thought := None |}.

Definition functionCall_part (fc : FunctionCall) : Part :=
  {| text := None; functionCall := Some fc; functionResponse := None;
     inlineData := None; fileData := None; thought := None |}.

Record Content : Type := {
  role : string;
  parts : list Part
}.

(** Of a candidate, the fields that the adapter sets. *)
Record Candidate : Type := {
  content : Content;
  finishReason : option string;
  index : option Z
}.

Record GenerateContentResponseUsageMetadata : Type := {
  promptTokenCount : option Z;
  candidatesTokenCount : option Z;
  totalTokenCount : option Z
}.

Record GenerateContentResponse : Type := {
  candidates : option (list Candidate);
  usageMetadata : option GenerateContentResponseUsageMetadata
}.

(** [SchemaUnion]; [extension] holds the keys admitted by the index
    signature. *)
Inductive SchemaUnion : Type := mkSchema {
  schema_type : string;
  schema_properties : option (list (string * SchemaUnion));
  schema_items : option SchemaUnion;
  schema_required : option (list string);
  schema_enum : option (list string);
  schema_description : option string;
  schema_anyOf : option (list SchemaUnion);
  schema_default : option json;
  schema_extension : list (string * json)
}.

Record FunctionDeclaration : Type := {
  fd_name : string;
  fd_description : string;
  fd_parameters : option SchemaUnion
}.

Record Tool : Type := {
  functionDeclarations : list FunctionDeclaration
}.

(** [systemInstruction?: Content | string] *)
Inductive SystemInstruction : Type :=
| InstructionText (s : string)
| InstructionContent (c : Content).

(** Of the configuration, the fields that the adapter reads. The two
    sampling parameters are rationals, the token limit an integer. *)
Record GenerateContentConfig : Type := {
  temperature : option QArith_base.Q;
  topP : option QArith_base.Q;
  maxOutputTokens : option Z;
  stopSequences : option (list string);
  systemInstruction : option SystemInstruction;
  tools : option (list Tool)
}.

Record GenerateContentParameters : Type := {
  model : string;
  config : option GenerateContentConfig;
  contents : list Content
}.

Record CountTokensParameters : Type := {
  ct_model : string;
  ct_contents : list Content
}.

Record CountTokensResponse : Type := {
  totalTokens : option nat
}.

(** *** The backend's shapes (package [openai]) *)

Record ToolFunction : Type := {
  tf_name : string;
  tf_arguments : string
}.

(** [ChatCompletionMessageToolCall] *)
Record ToolCall : Type := {
  tc_id : string;
  tc_type : string;
  tc_function : ToolFunction
}.

(** [ChatCompletionMessageParam], in the three shapes the converter
    builds: [{ role, content }], the assistant message with [tool_calls]
    (its content is [null] when [None]) and the [tool] message. *)
Inductive ChatCompletionMessageParam : Type :=
| Message (role_ : string) (content_ : string)
| AssistantToolCalls (content_ : option string) (tool_calls : list ToolCall)
| ToolResult (tool_call_id : string) (content_ : string).

(** The result of [convertSchemaToOpenAI]: an object that has a key
    exactly where the field is [Some]. *)
Inductive ConvertedSchema : Type := mkConverted {
  c_type : string;
  c_description : option string;
  c_properties : option (list (string * ConvertedSchema));
  c_items : option ConvertedSchema;
  c_required : option (list string);
  c_enum : option (list string)
}.

Record ConvertedFunction : Type := {
  cf_name : string;
  cf_description : string;
  cf_parameters : option ConvertedSchema
}.

(** [ChatCompletionTool] *)
Record ChatCompletionTool : Type := {
  ct_type : string;
  ct_function : ConvertedFunction
}.

Record ChatCompletionCreateParams : Type := {
  p_model : string;
  p_messages : list ChatCompletionMessageParam;
  p_temperature : option QArith_base.Q;
  p_top_p : option QArith_base.Q;
  p_max_tokens : option Z;
  p_stop : option (list string);
  p_tools : option (list ChatCompletionTool);
  p_tool_choice : option string;
  p_stream : bool
}.

Record ChatCompletionMessage : Type := {
  msg_content : option string;
  msg_tool_calls : option (list ToolCall)
}.

Record Choice : Type := {
  choice_index : Z;
  message : ChatCompletionMessage;
  finish_reason : option string
}.

Record CompletionUsage : Type := {
  prompt_tokens : Z;
  completion_tokens : Z;
  total_tokens : Z
}.

Record ChatCompletion : Type := {
  choices : list Choice;
  usage : option CompletionUsage
}.

(** A tool-call fragment of a streamed delta. The code keeps the
    fragments in an [any[]] and reads [type], [function.name] and
    [function.arguments]; the name is the empty string in a fragment that
    carries none. *)
Record FragmentFunction : Type := {
  ff_name : string;
  ff_arguments : option string
}.

Record ToolCallFragment : Type := {
  frag_index : Z;
  frag_id : option string;
  frag_type : option string;
  frag_function : option FragmentFunction
}.

Record Delta : Type := {
  delta_content : option string;
  delta_tool_calls : option (list ToolCallFragment)
}.

Record ChunkChoice : Type := {
  delta : option Delta;
  chunk_finish_reason : option string
}.

Record ChatCompletionChunk : Type := {
  chunk_choices : list ChunkChoice
}.

(** The backend's event stream: the events it delivers, and the error it
    ends with when it does not end normally. *)
Record Stream : Type := {
  events : list ChatCompletionChunk;
  failure : option JsError
}.

(** [this.client.chat.completions.create], without and with
    [stream: true]. *)
Record Client : Type := {
  create : ChatCompletionCreateParams -> Result ChatCompletion;
  create_stream : ChatCompletionCreateParams -> Result Stream
}.

(** How a run of the async generator ends. *)
Inductive Outcome : Type :=
| Returned
| Threw (e : JsError).

(** A run of the async generator, consumed to its end: the snapshots it
    yields, in order, and how it ends. *)
Definition GeneratorRun : Type := (list GenerateContentResponse * Outcome)%type.

(** *** Math.random

    [draws k] is the text of [Math.random().toString(36)] at the [k]-th
    call; a computation that draws takes the number of calls made so far
    and returns it updated. *)
Definition Rand (A : Type) : Type := nat -> A * nat.

Definition ret {A : Type} (a : A) : Rand A := fun k => (a, k).

Definition rbind {A B : Type} (m : Rand A) (f : A -> Rand B) : Rand B :=
  fun k => let (a, k') := m k in f a k'.

Notation "x <~ m ;; f" := (rbind m (fun x => f))
  (at level 61, m at next level, right associativity).

Fixpoint mapM {A B : Type} (f : A -> Rand B) (l : list A) : Rand (list B) :=
  match l with
  | [] => ret []
  | a :: r => b <~ f a ;; bs <~ mapM f r ;; ret (b :: bs)
  end.

Section Converters.

Variable draws : nat -> string.

(** [`call_${Math.random().toString(36).substr(2, 9)}`] *)
Definition newCallId : Rand string :=
  fun k => ("call_" ++ substr 2 9 (draws k), S k).

(** The role of a pure content turn. *)
Definition mapRole (r : string) : string :=
  if String.eqb r "model" then "assistant"
  else if String.eqb r "user" || String.eqb r "system" || String.eqb r "assistant"
  then r
  else if String.eqb r "assistant" then "assistant" else "user".

(** [parts.filter(part => part.text).map(part => part.text)] *)
Definition truthy_texts (ps : list Part) : list string :=
  flat_map (fun part => match text part with
                        | Some s => if truthy s then [s] else []
                        | None => []
                        end) ps.

(** [parts.filter(part => part.functionCall)], each with its call. *)
Definition functionCalls_of (ps : list Part) : list FunctionCall :=
  flat_map (fun part => match functionCall part with
                        | Some fc => [fc]
                        | None => []
                        end) ps.

(** [parts.filter(part => part.functionResponse)], each with its
    response. *)
Definition functionResponses_of (ps : list Part) : list FunctionResponse :=
  flat_map (fun part => match functionResponse part with
                        | Some fr => [fr]
                        | None => []
                        end) ps.

(** [s || null] *)
Definition or_null (s : string) : option string :=
  if truthy s then Some s else None.

Definition toolCall_of (fc : FunctionCall) : Rand ToolCall :=
  id <~ newCallId ;;
  ret {| tc_id := id;
         tc_type := "function";
         tc_function := {| tf_name := fc_name fc;
                           tf_arguments := JSON_stringify (fc_args fc) |} |}.

Definition toolResult_of (fr : FunctionResponse) : Rand ChatCompletionMessageParam :=
  id <~ newCallId ;;
  ret (ToolResult id (JSON_stringify (fr_response fr))).

(** The text of a part of a pure content turn. *)
Definition part_text (part : Part) : string :=
  let otherwise :=
    match inlineData part with
    | Some d => "[" ++ mimeType d ++ " data]"
    | None => ""
    end in
  match text part with
  | Some s => if truthy s then s else otherwise
  | None => otherwise
  end.

(** The body of the [forEach] of [convertContentsToMessages]: the
    messages pushed for one turn. *)
Definition convertContent (c : Content) : Rand (list ChatCompletionMessageParam) :=
  let role := mapRole (role c) in
  if existsb (fun part => present (functionCall part) || present (functionResponse part))
             (parts c)
  then
    let textParts := truthy_texts (parts c) in
    let functionCalls := functionCalls_of (parts c) in
    let functionResponses := functionResponses_of (parts c) in
    pushed1 <~ (if 0 <? List.length functionCalls then
                  calls <~ mapM toolCall_of functionCalls ;;
                  ret [AssistantToolCalls (or_null (join newline textParts)) calls]
                else ret []) ;;
    pushed2 <~ (if 0 <? List.length functionResponses then
                  mapM toolResult_of functionResponses
                else ret []) ;;
    ret (pushed1 ++ pushed2)%list
  else
    let content_text :=
      join newline (filter truthy (List.map part_text (parts c))) in
    ret [Message role content_text].

Fixpoint convertContentsToMessages (cs : list Content)
  : Rand (list ChatCompletionMessageParam) :=
  match cs with
  | [] => ret []
  | c :: rest =>
      pushed <~ convertContent c ;;
      more <~ convertContentsToMessages rest ;;
      ret (pushed ++ more)%list
  end.

End Converters.

(** An object is kept as the list of its own members, in the order of
    [Object.entries]. [own_set] stores an own member: in the place of the
    member of that name, or after the others. *)
Fixpoint own_set {A : Type} (key : string) (value : A) (obj : list (string * A))
  : list (string * A) :=
  match obj with
  | [] => [(key, value)]
  | (k, v) :: r =>
      if String.eqb key k then (key, value) :: r else (k, v) :: own_set key value r
  end.

(** [obj[key] = value] on an object made by [{}], for a value that is an
    object. The name [__proto__] is the accessor of [Object.prototype]: the
    assignment sets the prototype of [obj] and stores no own member. Every
    other name is stored. *)
Definition obj_set {A : Type} (key : string) (value : A) (obj : list (string * A))
  : list (string * A) :=
  if String.eqb key "__proto__" then obj else own_set key value obj.

Fixpoint convertSchemaToOpenAI (schema : SchemaUnion) : ConvertedSchema :=
  {| c_type := toLowerCase (schema_type schema);
     c_description :=
       if truthy_opt (schema_description schema) then schema_description schema
       else None;
     c_properties :=
       match schema_properties schema with
       | Some props =>
           Some (fold_left
                   (fun converted kv =>
                      obj_set (fst kv) (convertSchemaToOpenAI (snd kv)) converted)
                   props [])
       | None => None
       end;
     c_items :=
       match schema_items schema with
       | Some it => Some (convertSchemaToOpenAI it)
       | None => None
       end;
     c_required := schema_required schema;
     c_enum := schema_enum schema |}.

Definition convertToolsToOpenAI (ts : list Tool) : list ChatCompletionTool :=
  flat_map
    (fun tool =>
       List.map
         (fun func =>
            {| ct_type := "function";
               ct_function :=
                 {| cf_name := fd_name func;
                    cf_description := fd_description func;
                    cf_parameters :=
                      match fd_parameters func with
                      | Some s => Some (convertSchemaToOpenAI s)
                      | None => None
                      end |} |})
         (functionDeclarations tool))
    ts.


(** *** Response synthesis *)

(** [JSON.parse(arguments || '{}')] *)
Definition parse_arguments (arguments : string) : Result json :=
  let source := or_else arguments "{}" in
  match JSON_parse source with
  | Some v => Ok v
  | None => Throw (SyntaxError source)
  end.

(** The loop over [choice.message.tool_calls]: the parts it pushes. *)
Fixpoint toolCallParts (tcs : list ToolCall) : Result (list Part) :=
  match tcs with
  | [] => Ok []
  | toolCall :: rest =>
      if String.eqb (tc_type toolCall) "function" then
        args <- parse_arguments (tf_arguments (tc_function toolCall)) ;;
        more <- toolCallParts rest ;;
        Ok (functionCall_part {| fc_name := tf_name (tc_function toolCall);
                                 fc_args := args;
                                 fc_id := None |} :: more)
      else toolCallParts rest
  end.

(** [s || undefined] *)
Definition or_undefined (o : option string) : option string :=
  match o with
  | Some s => if truthy s then Some s else None
  | None => None
  end.

Definition convertOpenAIResponseToGenAI (response : ChatCompletion)
  : Result GenerateContentResponse :=
  match choices response with
  | [] => Ok {| candidates := Some []; usageMetadata := None |}
  | choice :: _ =>
      let parts0 :=
        match msg_content (message choice) with
        | Some c => if truthy c then [text_part c] else []
        | None => []
        end in
      pushed <- match msg_tool_calls (message choice) with
                | Some tcs => toolCallParts tcs
                | None => Ok []
                end ;;
      Ok {| candidates :=
              Some [ {| content := {| role := "model"; parts := (parts0 ++ pushed)%list |};
                        finishReason := or_undefined (finish_reason choice);
                        index := Some (choice_index choice) |} ];
            usageMetadata :=
              Some {| promptTokenCount := option_map prompt_tokens (usage response);
                      candidatesTokenCount := option_map completion_tokens (usage response);
                      totalTokenCount := option_map total_tokens (usage response) |} |}
  end.

(** [type === 'function'] on a fragment. *)
Definition is_function_fragment (f : ToolCallFragment) : bool :=
  match frag_type f with
  | Some t => String.eqb t "function"
  | None => false
  end.

(** The loop over [toolCalls] of [createStreamResponse]. *)
Fixpoint fragmentParts (frags : list ToolCallFragment) : Result (list Part) :=
  match frags with
  | [] => Ok []
  | toolCall :: rest =>
      if is_function_fragment toolCall then
        match frag_function toolCall with
        | None => Throw (TypeError "toolCall.function is undefined")
        | Some fn =>
            args <- parse_arguments
                      (match ff_arguments fn with Some a => a | None => "" end) ;;
            more <- fragmentParts rest ;;
            Ok (functionCall_part {| fc_name := ff_name fn;
                                     fc_args := args;
                                     fc_id := None |} :: more)
        end
      else fragmentParts rest
  end.

Definition createStreamResponse (content_ : string) (isComplete : bool)
  (toolCalls : option (list ToolCallFragment)) : Result GenerateContentResponse :=
  let parts0 := if truthy content_ then [text_part content_] else [] in
  pushed <- match toolCalls with
            | Some frags =>
                if 0 <? List.length frags then fragmentParts frags else Ok []
            | None => Ok []
            end ;;
  Ok {| candidates :=
          Some [ {| content := {| role := "model"; parts := (parts0 ++ pushed)%list |};
                    finishReason := if isComplete then Some "stop" else None;
                    index := Some 0%Z |} ];
        usageMetadata := None |}.

(** *** The facade *)

(** [config.systemInstruction] is truthy. *)
Definition instruction_truthy (si : SystemInstruction) : bool :=
  match si with
  | InstructionText s => truthy s
  | InstructionContent _ => true
  end.

Definition systemContent_of (si : SystemInstruction) : string :=
  match si with
  | InstructionText s => s
  | InstructionContent c => join newline (truthy_texts (parts c))
  end.

(** The block "Add system instruction if provided", which
    [generateContent] and [generateContentStreamInternal] both have. *)
Definition addSystemInstruction (cfg : option GenerateContentConfig)
  (messages : list ChatCompletionMessageParam) : list ChatCompletionMessageParam :=
  match cfg with
  | Some c =>
      match systemInstruction c with
      | Some si =>
          if instruction_truthy si then
            let systemContent := systemContent_of si in
            if truthy systemContent then Message "system" systemContent :: messages
            else messages
          else messages
      | None => messages
      end
  | None => messages
  end.

Section Facade.

Variable draws : nat -> string.
Variable client : Client.

(** The argument of [this.client.chat.completions.create]. *)
Definition createParams (request : GenerateContentParameters) (streaming : bool)
  : Rand ChatCompletionCreateParams :=
  converted <~ convertContentsToMessages draws (contents request) ;;
  let messages := addSystemInstruction (config request) converted in
  let cfg_tools :=
    match config request with Some c => tools c | None => None end in
  let tools_ := option_map convertToolsToOpenAI cfg_tools in
  let field {A : Type} (f : GenerateContentConfig -> option A) : option A :=
    match config request with Some c => f c | None => None end in
  ret {| p_model := model request;
         p_messages := messages;
         p_temperature := field temperature;
         p_top_p := field topP;
         p_max_tokens := field maxOutputTokens;
         p_stop := field stopSequences;
         p_tools := tools_;
         p_tool_choice := if present tools_ then Some "auto" else None;
         p_stream := streaming |}.

Definition generateContent (request : GenerateContentParameters)
  : Rand (Result GenerateContentResponse) :=
  params <~ createParams request false ;;
  ret (rethrow_as_api_error
         (completion <- create client params ;;
          convertOpenAIResponseToGenAI completion)).

(** The [for await] loop, from the event [chunks] on, with the two
    accumulators of the generator. *)
Fixpoint streamLoop (chunks : list ChatCompletionChunk) (ending : option JsError)
  (accumulatedContent : string) (toolCalls : list ToolCallFragment) : GeneratorRun :=
  match chunks with
  | [] =>
      ([], match ending with
           | None => Returned
           | Some e => Threw (ApiError e)
           end)
  | chunk :: rest =>
      let choice0 := List.hd_error (chunk_choices chunk) in
      let delta_ := match choice0 with Some c => delta c | None => None end in
      let delta_text := match delta_ with Some d => delta_content d | None => None end in
      let accumulatedContent' :=
        match delta_text with
        | Some t => if truthy t then accumulatedContent ++ t else accumulatedContent
        | None => accumulatedContent
        end in
      let first_yield :=
        if truthy_opt delta_text then
          r <- createStreamResponse accumulatedContent' false None ;; Ok [r]
        else Ok [] in
      match first_yield with
      | Throw e => ([], Threw (ApiError e))
      | Ok ys =>
          let toolCalls' :=
            match delta_ with
            | Some d =>
                match delta_tool_calls d with
                | Some frags => (toolCalls ++ frags)%list
                | None => toolCalls
                end
            | None => toolCalls
            end in
          let finish :=
            match choice0 with Some c => chunk_finish_reason c | None => None end in
          if truthy_opt finish then
            match createStreamResponse accumulatedContent' true (Some toolCalls') with
            | Ok final => ((ys ++ [final])%list, Returned)
            | Throw e => (ys, Threw (ApiError e))
            end
          else
            let (more, outcome) := streamLoop rest ending accumulatedContent' toolCalls' in
            ((ys ++ more)%list, outcome)
      end
  end.

Definition generateContentStreamInternal (request : GenerateContentParameters)
  : Rand GeneratorRun :=
  params <~ createParams request true ;;
  ret match create_stream client params with
      | Throw e => ([], Threw (ApiError e))
      | Ok stream => streamLoop (events stream) (failure stream) "" []
      end.

Definition generateContentStream (request : GenerateContentParameters)
  : Rand GeneratorRun :=
  generateContentStreamInternal request.

End Facade.

Definition countTokens (request : CountTokensParameters) : CountTokensResponse :=
  let text_ :=
    join " "
      (List.map (fun part => match text part with
                             | Some s => or_else s ""
                             | None => ""
                             end)
                (flat_map parts (ct_contents request))) in
  let estimatedTokens := ceil_div4 (String.length text_) in
  {| totalTokens := Some estimatedTokens |}.

End Adapter.

(* ===================================================================== *)
(** ** Notions used in the statements *)
(* ===================================================================== *)

Module Notions.

Import Js Adapter.

(** The length of the text of a part, 0 for a part without text. *)
Definition text_length (part : Part) : nat :=
  match text part with
  | Some s => String.length s
  | None => 0
  end.

Definition all_parts (request : CountTokensParameters) : list Part :=
  flat_map parts (ct_contents request).

Definition candidates_of (r : GenerateContentResponse) : list Candidate :=
  match candidates r with
  | Some cs => cs
  | None => []
  end.

(** The tool invocations of a message, and those of type [function]. *)
Definition invocations (m : ChatCompletionMessage) : list ToolCall :=
  match msg_tool_calls m with
  | Some tcs => tcs
  | None => []
  end.

Definition is_function_call (tc : ToolCall) : bool :=
  String.eqb (tc_type tc) "function".

Definition function_calls (m : ChatCompletionMessage) : list ToolCall :=
  filter is_function_call (invocations m).

(** The text that [JSON.parse] is given for an invocation or a fragment. *)
Definition arguments_source (tc : ToolCall) : string :=
  or_else (tf_arguments (tc_function tc)) "{}".

Definition fragment_source (fn : FragmentFunction) : string :=
  or_else (match ff_arguments fn with Some a => a | None => "" end) "{}".

Definition parses (tc : ToolCall) : bool :=
  present (JSON_parse (arguments_source tc)).

(** A fragment that has its function payload, with arguments that
    parse. *)
Definition fragment_parses (frag : ToolCallFragment) : bool :=
  match frag_function frag with
  | Some fn => present (JSON_parse (fragment_source fn))
  | None => false
  end.

(** How a function call is read off a tool invocation, and off a
    fragment. *)
Definition reads (tc : ToolCall) (fc : FunctionCall) : Prop :=
  fc_name fc = tf_name (tc_function tc) /\
  JSON_parse (arguments_source tc) = Some (fc_args fc) /\
  fc_id fc = None.

Definition fragment_reads (frag : ToolCallFragment) (fc : FunctionCall) : Prop :=
  exists fn,
    frag_function frag = Some fn /\
    fc_name fc = ff_name fn /\
    JSON_parse (fragment_source fn) = Some (fc_args fc) /\
    fc_id fc = None.

(** What the loop of [createStreamResponse] throws at a fragment of type
    [function] that is not read: the [TypeError] of a missing payload, or the
    [SyntaxError] of its arguments. *)
Definition fragment_error (frag : ToolCallFragment) : JsError :=
  match frag_function frag with
  | None => TypeError "toolCall.function is undefined"
  | Some fn => SyntaxError (fragment_source fn)
  end.




(** The text part made of a message content or of the accumulated text:
    none when it is absent or empty. *)
Definition text_parts_of (c : option string) : list Part :=
  match c with
  | Some s => if truthy s then [text_part s] else []
  | None => []
  end.


(** What the loop reads of an event: its first choice. *)
Definition first_choice (chunk : ChatCompletionChunk) : option ChunkChoice :=
  List.hd_error (chunk_choices chunk).

Definition chunk_delta (chunk : ChatCompletionChunk) : option Delta :=
  match first_choice chunk with
  | Some c => delta c
  | None => None
  end.

(** The text delta of an event, when it has a non-empty one. *)
Definition chunk_text (chunk : ChatCompletionChunk) : list string :=
  match chunk_delta chunk with
  | Some d =>
      match delta_content d with
      | Some t => if truthy t then [t] else []
      | None => []
      end
  | None => []
  end.

Definition chunk_fragments (chunk : ChatCompletionChunk) : list ToolCallFragment :=
  match chunk_delta chunk with
  | Some d =>
      match delta_tool_calls d with
      | Some frags => frags
      | None => []
      end
  | None => []
  end.

(** The event carries a finish reason. *)
Definition has_finish (chunk : ChatCompletionChunk) : bool :=
  match first_choice chunk with
  | Some c => truthy_opt (chunk_finish_reason c)
  | None => false
  end.

Definition text_deltas (chunks : list ChatCompletionChunk) : list string :=
  flat_map chunk_text chunks.

(** The fragments buffered over a run of events. *)
Definition buffered (chunks : list ChatCompletionChunk) : list ToolCallFragment :=
  flat_map chunk_fragments chunks.

(** The text accumulated over a run of text deltas. *)
Definition accumulated (acc : string) (deltas : list string) : string :=
  fold_left String.append deltas acc.

(** The snapshot for the text [s]: one text part, no finish reason. *)
Definition text_snapshot (s : string) : GenerateContentResponse :=
  {| candidates :=
       Some [ {| content := {| role := "model"; parts := [text_part s] |};
                 finishReason := None;
                 index := Some 0%Z |} ];
     usageMetadata := None |}.

(** One snapshot per text delta, each with the whole text so far. *)
Fixpoint text_snapshots (acc : string) (deltas : list string)
  : list GenerateContentResponse :=
  match deltas with
  | [] => []
  | t :: rest => text_snapshot (acc ++ t) :: text_snapshots (acc ++ t) rest
  end.

(** The terminal snapshot for the text [acc] and the function calls
    [calls]. *)
Definition terminal_snapshot (acc : string) (calls : list FunctionCall)
  : GenerateContentResponse :=
  {| candidates :=
       Some [ {| content :=
                   {| role := "model";
                      parts := (text_parts_of (Some acc)
                                ++ List.map functionCall_part calls)%list |};
                 finishReason := Some "stop";
                 index := Some 0%Z |} ];
     usageMetadata := None |}.


(** A snapshot without finish reason and without function call. *)
Definition plain_text (r : GenerateContentResponse) : Prop :=
  forall cand,
    In cand (candidates_of r) ->
    finishReason cand = None /\
    Forall (fun p => functionCall p = None) (parts (content cand)).

(** The identifier made from the [i]-th draw. *)
Definition call_id (draws : nat -> string) (i : nat) : string :=
  "call_" ++ substr 2 9 (draws i).

(** The tool-invocation record for a function call, with the [i]-th
    draw. *)
Definition invocation (draws : nat -> string) (ifc : nat * FunctionCall) : ToolCall :=
  {| tc_id := call_id draws (fst ifc);
     tc_type := "function";
     tc_function := {| tf_name := fc_name (snd ifc);
                       tf_arguments := JSON_stringify (fc_args (snd ifc)) |} |}.

(** The tool-result message for a function response, with the [i]-th
    draw. *)
Definition tool_result (draws : nat -> string) (ifr : nat * FunctionResponse)
  : ChatCompletionMessageParam :=
  ToolResult (call_id draws (fst ifr)) (JSON_stringify (fr_response (snd ifr))).

(** The elements of a list, numbered from [k]. *)
Definition numbered {A : Type} (k : nat) (l : list A) : list (nat * A) :=
  combine (seq k (List.length l)) l.

(** The generated identifiers of a message list, in order. *)
Definition message_ids (msgs : list ChatCompletionMessageParam) : list string :=
  flat_map (fun m => match m with
                     | AssistantToolCalls _ calls => List.map tc_id calls
                     | ToolResult id _ => [id]
                     | Message _ _ => []
                     end) msgs.

(** The usage metadata made of the three counts of the backend. *)
Definition usage_of (u : CompletionUsage) : GenerateContentResponseUsageMetadata :=
  {| promptTokenCount := Some (prompt_tokens u);
     candidatesTokenCount := Some (completion_tokens u);
     totalTokenCount := Some (total_tokens u) |}.

End Notions.

(* ===================================================================== *)
(** ** What the specification says, in its own words *)
(* ===================================================================== *)

Module Spec.

Import Js Adapter Notions.

(** countTokens: "concatenate all text parts of all content turns
    (space-joined) and divide character count by 4, rounding up". *)
Definition spec_text_parts (cs : list Content) : list string :=
  flat_map (fun part => match text part with Some s => [s] | None => [] end)
           (flat_map parts cs).

Definition spec_countTokens (request : CountTokensParameters) : CountTokensResponse :=
  {| totalTokens :=
       Some (ceil_div4 (String.length (join " " (spec_text_parts (ct_contents request))))) |}.

(** Non-streaming synthesis: one candidate built from the first choice,
    with one text part if the content is non-empty, then one function-call
    part per tool invocation; role [model], the backend's finish reason,
    index 0, and the usage metadata when the backend supplies the counts. *)
Definition synthesis_claim (response : ChatCompletion)
  (out : Result GenerateContentResponse) : Prop :=
  forall choice rest,
    choices response = choice :: rest ->
    exists cand um calls,
      out = Ok {| candidates := Some [cand]; usageMetadata := um |} /\
      role (content cand) = "model" /\
      parts (content cand)
      = (text_parts_of (msg_content (message choice))
         ++ List.map functionCall_part calls)%list /\
      List.length calls = List.length (invocations (message choice)) /\
      (finish_reason choice = None -> finishReason cand = None) /\
      (forall r, finish_reason choice = Some r -> r <> "" ->
                 finishReason cand = Some r) /\
      index cand = Some 0%Z /\
      (forall u, usage response = Some u -> um = Some (usage_of u)).

(** Streaming: the events up to the first one with a finish reason give
    the text snapshots and then one terminal snapshot, with the accumulated
    text and one function-call part per buffered fragment; nothing
    follows. *)
Definition terminal_claim (upto : list ChatCompletionChunk) (run : GeneratorRun)
  : Prop :=
  exists calls,
    List.length calls = List.length (buffered upto) /\
    fst run
    = (text_snapshots "" (text_deltas upto)
       ++ [terminal_snapshot (accumulated "" (text_deltas upto)) calls])%list.

(** Tool turn: one assistant message, whose body is the text parts
    (empty text is filtered) joined with newline, or the no-content marker
    when there is none; one invocation record per function-call part, with
    an identifier unique among them, the name and the serialized arguments;
    then one tool-result message per function-response part. *)
Definition tool_turn_claim (c : Content) (msgs : list ChatCompletionMessageParam)
  : Prop :=
  exists body calls results,
    msgs = AssistantToolCalls body calls :: results /\
    body = match truthy_texts (parts c) with
           | [] => None
           | texts => Some (join newline texts)
           end /\
    Forall2 (fun fc tc =>
               tf_name (tc_function tc) = fc_name fc /\
               tf_arguments (tc_function tc) = JSON_stringify (fc_args fc))
            (functionCalls_of (parts c)) calls /\
    NoDup (List.map tc_id calls) /\
    Forall2 (fun fr m => exists id, m = ToolResult id (JSON_stringify (fr_response fr)))
            (functionResponses_of (parts c)) results.

(** System instruction: when the configuration carries one, the first
    message is the system message. *)
Definition system_first_claim (request : GenerateContentParameters)
  (messages : list ChatCompletionMessageParam) : Prop :=
  forall cfg si,
    config request = Some cfg ->
    systemInstruction cfg = Some si ->
    exists body rest, messages = Message "system" body :: rest.

(** Malformed arguments: the rest of the response is still delivered. *)
Definition delivered {A : Type} (out : Result A) : Prop :=
  exists r, out = Ok r.


End Spec.

(* ===================================================================== *)
(** ** Concrete inputs *)
(* ===================================================================== *)

Module Examples.

Import Js Models ModelCheck Adapter Notions.

(** Three hosts: one whose backend answers 429, one that answers 500 and
    one whose request is aborted by the timer. *)
Definition rate_limited_host : Host :=
  {| OPENAI_BASE_URL := None; fetch := fun _ => Responded 429 |}.

Definition failing_host : Host :=
  {| OPENAI_BASE_URL := None; fetch := fun _ => Responded 500 |}.

Definition stalled_host : Host :=
  {| OPENAI_BASE_URL := Some "http://localhost:1/v1";
     fetch := fun _ => Rejected (BackendError "The operation was aborted") |}.

Definition forty : string := "0123456789012345678901234567890123456789".

Definition forty_request : CountTokensParameters :=
  {| ct_model := "gpt-4o";
     ct_contents := [ {| role := "user"; parts := [text_part forty] |} ] |}.

(** A turn that holds a function call and then a four-character text. *)
Definition call_then_text : CountTokensParameters :=
  {| ct_model := "gpt-4o";
     ct_contents :=
       [ {| role := "model";
            parts := [ functionCall_part {| fc_name := "lookup";
                                            fc_args := JObject [];
                                            fc_id := None |};
                       text_part "abcd" ] |} ] |}.






(** The text [{"q":"x"}]. *)
Definition q_x : string := JSON_stringify (JObject [("q", JString "x")]).

Definition completion_of (c : Choice) : ChatCompletion :=
  {| choices := [c]; usage := None |}.

(** A completion cut by the token limit, with the backend's counts. *)
Definition length_completion : ChatCompletion :=
  {| choices :=
       [ {| choice_index := 0%Z;
            message := {| msg_content := Some "Once upon a";
                          msg_tool_calls := None |};
            finish_reason := Some "length" |} ];
     usage := Some {| prompt_tokens := 7%Z; completion_tokens := 3%Z;
                      total_tokens := 10%Z |} |}.

(** A completion that calls [lookup] with [{"q":"x"}]. *)
Definition lookup_choice : Choice :=
  {| choice_index := 0%Z;
     message :=
       {| msg_content := Some "Let me look.";
          msg_tool_calls :=
            Some [ {| tc_id := "call_1"; tc_type := "function";
                      tc_function := {| tf_name := "lookup";
                                        tf_arguments := q_x |} |} ] |};
     finish_reason := Some "tool_calls" |}.

Definition lookup_completion : ChatCompletion := completion_of lookup_choice.

(** A first choice that the backend numbers 1. *)
Definition numbered_from_one : ChatCompletion :=
  completion_of
    {| choice_index := 1%Z;
       message := {| msg_content := Some "hi"; msg_tool_calls := None |};
       finish_reason := Some "stop" |}.

(** A tool invocation whose type is not [function]. *)
Definition custom_call : ChatCompletion :=
  completion_of
    {| choice_index := 0%Z;
       message :=
         {| msg_content := None;
            msg_tool_calls :=
              Some [ {| tc_id := "call_1"; tc_type := "custom";
                        tc_function := {| tf_name := "grep";
                                          tf_arguments := "" |} |} ] |};
       finish_reason := Some "tool_calls" |}.

(** A text, and a call of [lookup] whose arguments are cut after the
    opening brace. *)
Definition malformed_choice : Choice :=
  {| choice_index := 0%Z;
     message :=
       {| msg_content := Some "Let me look.";
          msg_tool_calls :=
            Some [ {| tc_id := "call_1"; tc_type := "function";
                      tc_function := {| tf_name := "lookup";
                                        tf_arguments := "{" |} |} ] |};
     finish_reason := Some "tool_calls" |}.

Definition malformed_call : ChatCompletion := completion_of malformed_choice.

(** A call of [lookup] with the given text of arguments. *)
Definition lookup_call (arguments : string) : ToolCall :=
  {| tc_id := "call_1"; tc_type := "function";
     tc_function := {| tf_name := "lookup"; tf_arguments := arguments |} |}.

(** Three calls: the first is well formed, the second is cut after the
    brace and the third after a bracket. *)
Definition two_calls_choice : Choice :=
  {| choice_index := 0%Z;
     message :=
       {| msg_content := Some "Let me look.";
          msg_tool_calls :=
            Some [lookup_call q_x; lookup_call "{"; lookup_call "["] |};
     finish_reason := Some "tool_calls" |}.

Definition two_calls_completion : ChatCompletion := completion_of two_calls_choice.

(** A completion with neither content nor tool calls. *)
Definition silent_completion : ChatCompletion :=
  completion_of
    {| choice_index := 0%Z;
       message := {| msg_content := None; msg_tool_calls := None |};
       finish_reason := Some "stop" |}.

(** A client that answers every request with the same completion. *)
Definition answering (completion : ChatCompletion) : Client :=
  {| create := fun _ => Ok completion;
     create_stream := fun _ => Throw (BackendError "not a streaming backend") |}.

(** A client that streams the same events on every request. *)
Definition streaming (chunks : list ChatCompletionChunk) : Client :=
  {| create := fun _ => Throw (BackendError "not a completion backend");
     create_stream := fun _ => Ok {| events := chunks; failure := None |} |}.

(** A request with one user turn and no configuration. *)
Definition hello_request : GenerateContentParameters :=
  {| model := "gpt-4o";
     config := None;
     contents := [ {| role := "user"; parts := [text_part "hello"] |} ] |}.

(** A source of draws that never changes. *)
Definition constant_draws : nat -> string := fun _ => "0.4fzyo82mvyr".

(** Events: a text delta, tool-call fragments, a finish reason. *)
Definition event (d : Delta) (finish : option string) : ChatCompletionChunk :=
  {| chunk_choices := [ {| delta := Some d; chunk_finish_reason := finish |} ] |}.

Definition text_event (t : string) : ChatCompletionChunk :=
  event {| delta_content := Some t; delta_tool_calls := None |} None.

Definition fragment_event (frags : list ToolCallFragment) : ChatCompletionChunk :=
  event {| delta_content := None; delta_tool_calls := Some frags |} None.

Definition finish_event (reason : string) : ChatCompletionChunk :=
  event {| delta_content := None; delta_tool_calls := None |} (Some reason).

(** The first fragment of a call names the function; the fragments that
    follow carry the pieces of the arguments and no type. *)
Definition opening_fragment (name arguments : string) : ToolCallFragment :=
  {| frag_index := 0%Z; frag_id := Some "call_1"; frag_type := Some "function";
     frag_function := Some {| ff_name := name; ff_arguments := Some arguments |} |}.

Definition following_fragment (arguments : string) : ToolCallFragment :=
  {| frag_index := 0%Z; frag_id := None; frag_type := None;
     frag_function := Some {| ff_name := ""; ff_arguments := Some arguments |} |}.

(** Two text deltas and the end. *)
Definition text_stream : list ChatCompletionChunk :=
  [text_event "Hel"; text_event "lo"; finish_event "stop"].

(** A text delta and a call of [lookup] sent whole in one fragment. *)
Definition whole_call_stream : list ChatCompletionChunk :=
  [text_event "Hi"; fragment_event [opening_fragment "lookup" q_x];
   finish_event "tool_calls"].

(** A call of [lookup] whose arguments arrive in a second fragment. *)
Definition split_call_stream : list ChatCompletionChunk :=
  [fragment_event [opening_fragment "lookup" ""];
   fragment_event [following_fragment q_x];
   finish_event "tool_calls"].

(** A text delta, then a call whose arguments are cut after the brace. *)
Definition malformed_stream : list ChatCompletionChunk :=
  [text_event "Hi"; fragment_event [opening_fragment "lookup" "{"];
   finish_event "tool_calls"].


(** A stream that the backend closes without a finish reason. *)
Definition unfinished_stream : list ChatCompletionChunk :=
  [text_event "Hel"; fragment_event [opening_fragment "lookup" q_x];
   text_event "lo"].

Definition call (name : string) (args : json) : Part :=
  functionCall_part {| fc_name := name; fc_args := args; fc_id := None |}.

Definition response (name : string) (payload : json) : Part :=
  {| text := None; functionCall := None;
     functionResponse := Some {| fr_name := name; fr_response := payload;
                                 fr_id := None |};
     inlineData := None; fileData := None; thought := None |}.

(** The tool turn of the specification: one call of [lookup] with
    [{"q":"x"}] and no text. *)
Definition lookup_turn : Content :=
  {| role := "model"; parts := [call "lookup" (JObject [("q", JString "x")])] |}.

(** A turn with two texts, two calls and a response. *)
Definition busy_turn : Content :=
  {| role := "model";
     parts := [text_part "First"; call "lookup" (JObject [("q", JString "x")]);
               text_part ""; text_part "second";
               call "fetch" (JObject []);
               response "lookup" (JObject [("hits", JNumber "3")])] |}.

(** A source whose draws differ. *)
Definition varying_draws (i : nat) : string :=
  match i with
  | 0 => "0.4fzyo82mvyr"
  | 1 => "0.ix2ckm9q0k"
  | _ => "0.p8w1tt3hs7"
  end.

Definition with_instruction (si : SystemInstruction) : GenerateContentParameters :=
  {| model := "gpt-4o";
     config := Some {| temperature := None; topP := None; maxOutputTokens := None;
                       stopSequences := None; systemInstruction := Some si;
                       tools := None |};
     contents := [ {| role := "system"; parts := [text_part "Be terse."] |};
                   {| role := "user"; parts := [text_part "hello"] |} ] |}.

(** The same instruction set on the request with one user turn. *)
Definition hello_with (si : SystemInstruction) : GenerateContentParameters :=
  {| model := "gpt-4o";
     config := Some {| temperature := None; topP := None; maxOutputTokens := None;
                       stopSequences := None; systemInstruction := Some si;
                       tools := None |};
     contents := [ {| role := "user"; parts := [text_part "hello"] |} ] |}.

(** A system instruction given as a content whose only text is empty. *)
Definition blank_instruction : SystemInstruction :=
  InstructionContent {| role := "system"; parts := [text_part ""] |}.

Definition polite_instruction : SystemInstruction :=
  InstructionContent {| role := "system";
                        parts := [text_part "Be polite."; text_part "Be brief."] |}.

End Examples.

(* ===================================================================== *)
(** ** The rest of the adapter, and the content generator *)
(* ===================================================================== *)

(** *** openai-adapter.ts: the helpers for user content *)

Module Helpers.

Import Js Adapter.

(** [createUserContent(message: Part | PartListUnion)] *)
Definition createUserContent (message : Part + list Part) : Content :=
  let parts_ := match message with
                | inr array => array
                | inl single => [single]
                end in
  {| role := "user"; parts := parts_ |}.

Definition stringToParts (text_ : string) : list Part := [text_part text_].

Definition stringToPartListUnion (text_ : string) : list Part := [text_part text_].

End Helpers.

(** *** The predicate on function-response turns *)

Module FunctionResponses.

Import Js Adapter.

Definition isFunctionResponse (content_ : Content) : bool :=
  String.eqb (role content_) "user"
  && forallb (fun part => present (functionResponse part)) (parts content_).

End FunctionResponses.

(** *** openai-adapter.ts: embedContent *)

Module Embeddings.

Import Js Adapter.

(** [String.prototype.includes] *)
Fixpoint includes (s needle : string) : bool :=
  match strip_prefix needle s with
  | Some _ => true
  | None =>
      match s with
      | EmptyString => false
      | String _ r => includes r needle
      end
  end.

Record EmbedContentParameters : Type := {
  embed_model : string;
  embed_contents : list string
}.

Record ContentEmbedding : Type := {
  values : list QArith_base.Q
}.

Record EmbedContentResponse : Type := {
  embeddings : list ContentEmbedding
}.

(** The backend's shapes: the argument and the result of
    [this.client.embeddings.create]. *)
Record EmbeddingCreateParams : Type := {
  e_model : string;
  e_input : list string
}.

Record Embedding : Type := {
  embedding : list QArith_base.Q
}.

Record CreateEmbeddingResponse : Type := {
  response_data : list Embedding
}.

Record EmbeddingsClient : Type := {
  embeddings_create : EmbeddingCreateParams -> Result CreateEmbeddingResponse
}.

(** What [embedContent] gives: the response, or
    [new Error(`OpenAI embeddings error: ${cause.message}`)]. *)
Inductive Embedded : Type :=
| EmbedOk (response : EmbedContentResponse)
| EmbeddingsError (cause : JsError).

(** The argument of [this.client.embeddings.create]. *)
Definition embedParams (request : EmbedContentParameters) : EmbeddingCreateParams :=
  {| e_model := if includes (embed_model request) "embedding"
                then embed_model request
                else "text-embedding-3-small";
     e_input := embed_contents request |}.

Definition embedContent (client : EmbeddingsClient) (request : EmbedContentParameters)
  : Embedded :=
  match embeddings_create client (embedParams request) with
  | Ok response =>
      EmbedOk {| embeddings :=
                   List.map (fun item => {| values := embedding item |})
                            (response_data response) |}
  | Throw e => EmbeddingsError e
  end.

End Embeddings.

(** *** packages/core/src/core/contentGenerator.ts *)

Module ContentGenerator.

Import Js Models ModelCheck Adapter.

(** The enum [AuthType], by its three values; [USE_GEMINI] has the value
    of [USE_OPENAI]. *)
Inductive AuthType : Type :=
| LOGIN_WITH_GOOGLE_PERSONAL
| USE_OPENAI
| USE_VERTEX_AI.

Definition USE_GEMINI : AuthType := USE_OPENAI.

Definition authType_value (a : AuthType) : string :=
  match a with
  | LOGIN_WITH_GOOGLE_PERSONAL => "oauth-personal"
  | USE_OPENAI => "openai-api-key"
  | USE_VERTEX_AI => "vertex-ai"
  end.

Definition authType_eqb (a b : AuthType) : bool :=
  String.eqb (authType_value a) (authType_value b).

Record ContentGeneratorConfig : Type := {
  cg_model : string;
  cg_apiKey : option string;
  cg_baseURL : option string;
  cg_vertexai : option bool;
  cg_authType : option AuthType
}.

(** The variables of [process.env] and the fields of [process] that the
    file reads, next to [OPENAI_BASE_URL], which the host holds. *)
Record Process : Type := {
  OPENAI_API_KEY : option string;
  GOOGLE_API_KEY : option string;
  GOOGLE_CLOUD_PROJECT : option string;
  GOOGLE_CLOUD_LOCATION : option string;
  CLI_VERSION : option string;
  version : string;
  platform : string;
  arch : string
}.

(** [a || b] where both may be [undefined]. *)
Definition or_opt (a b : option string) : option string :=
  if truthy_opt a then a else b.

(** The third argument, [config?: { getModel?: () => string }]: the
    method, when there is one, by what its call does, which is to return a
    string or to throw. *)
Record RuntimeConfig : Type := {
  getModel : option (Result string)
}.

(** [config?.getModel?.()] *)
Definition call_getModel (config_ : option RuntimeConfig) : Result (option string) :=
  match config_ with
  | Some c =>
      match getModel c with
      | Some call => r <- call ;; Ok (Some r)
      | None => Ok None
      end
  | None => Ok None
  end.

Definition createContentGeneratorConfig (host : Host) (process : Process)
  (model_ : option string) (authType : option AuthType)
  (config_ : option RuntimeConfig)
  : Result ContentGeneratorConfig * list Effect :=
  let openaiApiKey := OPENAI_API_KEY process in
  let openaiBaseURL := OPENAI_BASE_URL host in
  let googleApiKey := GOOGLE_API_KEY process in
  let googleCloudProject := GOOGLE_CLOUD_PROJECT process in
  let googleCloudLocation := GOOGLE_CLOUD_LOCATION process in
  match call_getModel config_ with
  | Throw e => (Throw e, [])
  | Ok runtime =>
  let effectiveModel :=
    match or_opt (or_opt runtime model_) (Some DEFAULT_OPENAI_MODEL) with
    | Some m => m
    | None => DEFAULT_OPENAI_MODEL
    end in
  let contentGeneratorConfig :=
    {| cg_model := effectiveModel; cg_apiKey := None; cg_baseURL := None;
       cg_vertexai := None; cg_authType := authType |} in
  let is_ (a : AuthType) :=
    match authType with
    | Some t => authType_eqb t a
    | None => false
    end in
  if is_ LOGIN_WITH_GOOGLE_PERSONAL then (Ok contentGeneratorConfig, [])
  else if is_ USE_OPENAI && truthy_opt openaiApiKey then
    let apiKey := match openaiApiKey with Some k => k | None => "" end in
    let (resolved, trace) := getEffectiveModel host apiKey effectiveModel in
    (m <- resolved ;;
     Ok {| cg_model := m;
           cg_apiKey := openaiApiKey;
           cg_baseURL := openaiBaseURL;
           cg_vertexai := None;
           cg_authType := authType |}, trace)
  else if is_ USE_VERTEX_AI && truthy_opt googleApiKey
          && truthy_opt googleCloudProject && truthy_opt googleCloudLocation then
    let apiKey := match googleApiKey with Some k => k | None => "" end in
    let (resolved, trace) := getEffectiveModel host apiKey effectiveModel in
    (m <- resolved ;;
     Ok {| cg_model := m;
           cg_apiKey := googleApiKey;
           cg_baseURL := None;
           cg_vertexai := Some true;
           cg_authType := authType |}, trace)
  else (Ok contentGeneratorConfig, [])
  end.

(** [httpOptions], with its single header. *)
Definition httpOptions_headers (process : Process) : list (string * string) :=
  let version_ :=
    match or_opt (CLI_VERSION process) (Some (version process)) with
    | Some v => v
    | None => version process
    end in
  [("User-Agent",
    "GeminiCLI/" ++ version_ ++ " (" ++ platform process ++ "; " ++ arch process ++ ")")].

(** The argument of [new OpenAI(...)] in the constructor of
    [OpenAIContentGenerator]. *)
Record ClientOptions : Type := {
  apiKey : option string;
  baseURL : option string;
  defaultHeaders : list (string * string)
}.

(** What [createContentGenerator] gives: for the personal login, whatever
    the call [createCodeAssistContentGenerator(httpOptions, authType)] gives,
    that function being outside this code; an [OpenAIContentGenerator], by
    its client; the [Error] that the function throws, by its message; or the
    error that the constructor of the client threw and that nothing
    catches. *)
Inductive Created (OpenAI : Type) : Type :=
| CodeAssist (headers_ : list (string * string)) (authType : AuthType)
| OpenAIGenerator (client : OpenAI)
| Unsupported (message : string)
| Rejected (e : JsError).

Arguments CodeAssist {OpenAI} headers_ authType.
Arguments OpenAIGenerator {OpenAI} client.
Arguments Unsupported {OpenAI} message.
Arguments Rejected {OpenAI} e.

(** [config.apiKey === '' ? undefined : config.apiKey] *)
Definition unless_empty (k : option string) : option string :=
  match k with
  | Some EmptyString => None
  | _ => k
  end.

Section Construction.

(** The class [OpenAI] of the package [openai] and its constructor, which
    returns a client or throws. *)
Variable OpenAI : Type.
Variable new_OpenAI : ClientOptions -> Result OpenAI.

(** [new OpenAIContentGenerator({ apiKey, baseURL, httpOptions })]: the
    generator is its field [client]. *)
Definition OpenAIContentGenerator (host : Host) (process : Process)
  (apiKey_ baseURL_ : option string) (headers_ : list (string * string))
  : Result OpenAI :=
  new_OpenAI
    {| apiKey := or_opt apiKey_ (OPENAI_API_KEY process);
       baseURL := or_opt baseURL_ (OPENAI_BASE_URL host);
       defaultHeaders := headers_ |}.

Definition createContentGenerator (host : Host) (process : Process)
  (config_ : ContentGeneratorConfig) : Created OpenAI :=
  let headers_ := httpOptions_headers process in
  let is_ (a : AuthType) :=
    match cg_authType config_ with
    | Some t => authType_eqb t a
    | None => false
    end in
  if is_ LOGIN_WITH_GOOGLE_PERSONAL then CodeAssist headers_ LOGIN_WITH_GOOGLE_PERSONAL
  else if is_ USE_OPENAI then
    match OpenAIContentGenerator host process
            (unless_empty (cg_apiKey config_)) (cg_baseURL config_) headers_ with
    | Ok openaiGenerator => OpenAIGenerator openaiGenerator
    | Throw e => Rejected e
    end
  else if is_ USE_VERTEX_AI then
    match OpenAIContentGenerator host process
            (unless_empty (cg_apiKey config_))
            (or_opt (cg_baseURL config_)
                    (Some "https://generativelanguage.googleapis.com/v1beta"))
            headers_ with
    | Ok openaiGenerator => OpenAIGenerator openaiGenerator
    | Throw e => Rejected e
    end
  else
    Unsupported
      ("Error creating contentGenerator: Unsupported authType: "
       ++ match cg_authType config_ with
          | Some t => authType_value t
          | None => "undefined"
          end).

End Construction.

Arguments OpenAIContentGenerator {OpenAI} new_OpenAI host process apiKey_ baseURL_ headers_.
Arguments createContentGenerator {OpenAI} new_OpenAI host process config_.

End ContentGenerator.
(* ===================================================================== *)
(** ** Notions used in the further statements *)
(* ===================================================================== *)

Module Observations.

Import Js Models ModelCheck Adapter Notions.


(** The three roles of the backend's plain messages. *)
Definition backend_role (r : string) : Prop :=
  r = "user" \/ r = "system" \/ r = "assistant".

(** A message as the backend accepts it from the converter's three
    shapes. *)
Definition well_formed_message (m : ChatCompletionMessageParam) : Prop :=
  match m with
  | Message r _ => backend_role r
  | AssistantToolCalls body calls =>
      calls <> [] /\ body <> Some "" /\
      Forall (fun tc => tc_type tc = "function") calls
  | ToolResult _ _ => True
  end.

(** The number of messages that a turn gives. *)
Definition turn_messages (c : Content) : nat :=
  match functionCalls_of (parts c), functionResponses_of (parts c) with
  | [], [] => 1
  | [], frs => List.length frs
  | _ :: _, frs => 1 + List.length frs
  end.

(** The number of identifiers that a turn draws. *)
Definition turn_draws (c : Content) : nat :=
  List.length (functionCalls_of (parts c))
  + List.length (functionResponses_of (parts c)).

(** The identifiers of the invocation records, and those of the
    tool-result messages. *)
Definition invocation_ids (msgs : list ChatCompletionMessageParam) : list string :=
  flat_map (fun m => match m with
                     | AssistantToolCalls _ calls => List.map tc_id calls
                     | _ => []
                     end) msgs.

Definition result_ids (msgs : list ChatCompletionMessageParam) : list string :=
  flat_map (fun m => match m with
                     | ToolResult id _ => [id]
                     | _ => []
                     end) msgs.

(** A part without what the converter does not read: the identifiers of
    a call and of a response, the name of a response, the file data and the
    thought. *)
Definition forget_part (p : Part) : Part :=
  {| text := text p;
     functionCall :=
       option_map (fun fc => {| fc_name := fc_name fc; fc_args := fc_args fc;
                                fc_id := None |})
                  (functionCall p);
     functionResponse :=
       option_map (fun fr => {| fr_name := ""; fr_response := fr_response fr;
                                fr_id := None |})
                  (functionResponse p);
     inlineData := inlineData p;
     fileData := None;
     thought := None |}.

Definition forget (c : Content) : Content :=
  {| role := role c; parts := List.map forget_part (parts c) |}.

(** The function declarations of a list of tools, in order. *)
Definition declarations (ts : list Tool) : list FunctionDeclaration :=
  flat_map functionDeclarations ts.

(** A backend tool made from a declaration. *)
Definition made_from (d : FunctionDeclaration) (t : ChatCompletionTool) : Prop :=
  ct_type t = "function" /\
  cf_name (ct_function t) = fd_name d /\
  cf_description (ct_function t) = fd_description d /\
  cf_parameters (ct_function t) = option_map convertSchemaToOpenAI (fd_parameters d).

(** A schema without [anyOf], [default] and the keys of the index
    signature, at every depth of its properties and items. *)
Fixpoint documented (schema : SchemaUnion) : SchemaUnion :=
  {| schema_type := schema_type schema;
     schema_properties :=
       match schema_properties schema with
       | Some props =>
           Some (List.map (fun kv => (fst kv, documented (snd kv))) props)
       | None => None
       end;
     schema_items :=
       match schema_items schema with
       | Some it => Some (documented it)
       | None => None
       end;
     schema_required := schema_required schema;
     schema_enum := schema_enum schema;
     schema_description := schema_description schema;
     schema_anyOf := None;
     schema_default := None;
     schema_extension := [] |}.

(** The type tags of a converted schema, at every depth. *)
Fixpoint type_tags (c : ConvertedSchema) : list string :=
  (c_type c
   :: match c_properties c with
      | Some props => flat_map (fun kv => type_tags (snd kv)) props
      | None => []
      end
   ++ match c_items c with
      | Some it => type_tags it
      | None => []
      end)%list.

(** The text of a snapshot: the text of its first part, empty when it has
    none. *)
Definition snapshot_text (r : GenerateContentResponse) : string :=
  match candidates_of r with
  | cand :: _ =>
      match parts (content cand) with
      | p :: _ => match text p with Some s => s | None => "" end
      | [] => ""
      end
  | [] => ""
  end.

(** [b] is [a] with something added at its end. *)
Definition extends (a b : string) : Prop := exists suffix, b = a ++ suffix.

(** Each snapshot extends the text before it, from [prev] on. *)
Fixpoint growing (prev : string) (rs : list GenerateContentResponse) : Prop :=
  match rs with
  | [] => True
  | r :: rest => extends prev (snapshot_text r) /\ growing (snapshot_text r) rest
  end.

(** An event without its fragments that are not of type [function]. *)
Definition typed_delta (d : Delta) : Delta :=
  {| delta_content := delta_content d;
     delta_tool_calls := option_map (filter is_function_fragment) (delta_tool_calls d) |}.

Definition typed_choice (c : ChunkChoice) : ChunkChoice :=
  {| delta := option_map typed_delta (delta c);
     chunk_finish_reason := chunk_finish_reason c |}.

Definition typed_only (chunk : ChatCompletionChunk) : ChatCompletionChunk :=
  {| chunk_choices := List.map typed_choice (chunk_choices chunk) |}.

(** The model that is asked for: the one that [getModel] returns, else
    the argument, else the primary model; an empty string counts as absent.
    There is none when [getModel] throws: its error is what is left. *)
Definition requested_model (config_ : option ContentGenerator.RuntimeConfig)
  (model_ : option string) : Result string :=
  match config_ with
  | Some {| ContentGenerator.getModel := Some (Throw e) |} => Throw e
  | Some {| ContentGenerator.getModel := Some (Ok (String c r)) |} => Ok (String c r)
  | _ =>
      match model_ with
      | Some (String c r) => Ok (String c r)
      | _ => Ok DEFAULT_OPENAI_MODEL
      end
  end.

(** What the creation of a generator gives when its client is constructed
    with [outcome]: the generator of that client, or the error of the
    constructor. *)
Definition constructed {OpenAI : Type} (outcome : Result OpenAI)
  : ContentGenerator.Created OpenAI :=
  match outcome with
  | Ok client => ContentGenerator.OpenAIGenerator client
  | Throw e => ContentGenerator.Rejected e
  end.

End Observations.

Module MoreExamples.

Import Js Models ModelCheck Adapter Notions Examples Observations.

(** A turn with a text and the response of [lookup], without a call. *)
Definition answer_turn : Content :=
  {| role := "user";
     parts := [text_part "Here it is."; response "lookup" (JObject [("hits", JNumber "3")])] |}.

(** A process with the key of OpenAI only, and one set up for Vertex AI. *)
Definition openai_process : ContentGenerator.Process :=
  {| ContentGenerator.OPENAI_API_KEY := Some "sk-test";
     ContentGenerator.GOOGLE_API_KEY := None;
     ContentGenerator.GOOGLE_CLOUD_PROJECT := None;
     ContentGenerator.GOOGLE_CLOUD_LOCATION := None;
     ContentGenerator.CLI_VERSION := None;
     ContentGenerator.version := "v20.11.0";
     ContentGenerator.platform := "linux";
     ContentGenerator.arch := "x64" |}.

Definition vertex_process : ContentGenerator.Process :=
  {| ContentGenerator.OPENAI_API_KEY := None;
     ContentGenerator.GOOGLE_API_KEY := Some "AIza-test";
     ContentGenerator.GOOGLE_CLOUD_PROJECT := Some "project";
     ContentGenerator.GOOGLE_CLOUD_LOCATION := Some "us-central1";
     ContentGenerator.CLI_VERSION := Some "0.1.5";
     ContentGenerator.version := "v20.11.0";
     ContentGenerator.platform := "linux";
     ContentGenerator.arch := "x64" |}.

(** A constructor of clients that refuses options without a key, and
    keeps the options it accepts. *)
Definition keyed_client (options : ContentGenerator.ClientOptions)
  : Result ContentGenerator.ClientOptions :=
  if truthy_opt (ContentGenerator.apiKey options) then Ok options
  else Throw (BackendError "no API key").

(** A runtime configuration whose [getModel] throws. *)
Definition broken_runtime : ContentGenerator.RuntimeConfig :=
  {| ContentGenerator.getModel := Some (Throw (TypeError "settings are not loaded")) |}.

(** A backend of embeddings that returns one vector whatever it is
    asked. *)
Definition one_vector : Embeddings.EmbeddingsClient :=
  {| Embeddings.embeddings_create :=
       fun _ => Ok {| Embeddings.response_data :=
                        [ {| Embeddings.embedding := [] |} ] |} |}.

End MoreExamples.
(* ===================================================================== *)
(** ** Properties *)
(* ===================================================================== *)

Module ModelCheckFacts.

Import Models ModelCheck Examples.

(** C2. getEffectiveModel never throws. A configured model other than the
    primary one is returned unchanged and no probe is sent; with the primary
    model configured, a probe answered 429 gives the fallback model, and
    every other outcome of the probe (any other status, a rejection by the
    transport or by the elapsed timer) gives the primary model. *)
Theorem getEffectiveModel_decision (host : Host) (apiKey configured : string) :
  (exists m, fst (getEffectiveModel host apiKey configured) = Ok m) /\
  (configured <> DEFAULT_OPENAI_MODEL ->
     fst (getEffectiveModel host apiKey configured) = Ok configured /\
     probes (snd (getEffectiveModel host apiKey configured)) = []) /\
  (configured = DEFAULT_OPENAI_MODEL ->
     fetch host (probe_request host apiKey) = Responded 429 ->
     fst (getEffectiveModel host apiKey configured) = Ok DEFAULT_OPENAI_FLASH_MODEL) /\
  (configured = DEFAULT_OPENAI_MODEL ->
     fetch host (probe_request host apiKey) <> Responded 429 ->
     fst (getEffectiveModel host apiKey configured) = Ok DEFAULT_OPENAI_MODEL).
Proof.
  unfold getEffectiveModel.
  destruct (String.eqb_spec configured DEFAULT_OPENAI_MODEL) as [Heq | Hne]; simpl.
  - subst configured.
    destruct (fetch host (probe_request host apiKey)) as [status | reason] eqn:Hprobe.
    + destruct (Z.eqb_spec status 429) as [H429 | Hother]; simpl.
      * repeat split; simpl; eauto; intros; congruence.
      * repeat split; simpl; eauto; intros; congruence.
    + repeat split; simpl; eauto; intros; congruence.
  - repeat split; simpl; eauto; intros; congruence.
Qed.

Lemma getEffectiveModel_decision_witness :
  (fst (getEffectiveModel rate_limited_host "key" "o3") = Ok "o3" /\
   probes (snd (getEffectiveModel rate_limited_host "key" "o3")) = []) /\
  fst (getEffectiveModel rate_limited_host "key" "gpt-4o") = Ok "gpt-4o-mini" /\
  fst (getEffectiveModel failing_host "key" "gpt-4o") = Ok "gpt-4o" /\
  fst (getEffectiveModel stalled_host "key" "gpt-4o") = Ok "gpt-4o".
Proof.
  split; [| split; [| split]].
  - apply (proj1 (proj2 (getEffectiveModel_decision rate_limited_host "key" "o3"))).
    discriminate.
  - apply (proj1 (proj2 (proj2
             (getEffectiveModel_decision rate_limited_host "key" "gpt-4o"))));
      reflexivity.
  - apply (proj2 (proj2 (proj2
             (getEffectiveModel_decision failing_host "key" "gpt-4o"))));
      [reflexivity | discriminate].
  - apply (proj2 (proj2 (proj2
             (getEffectiveModel_decision stalled_host "key" "gpt-4o"))));
      [reflexivity | discriminate].
Defined.

End ModelCheckFacts.

Module JsFacts.

Import Js.

Lemma length_append (a b : string) :
  String.length (a ++ b) = String.length a + String.length b.
Proof.
  induction a as [| c a IH]; simpl; [reflexivity | now rewrite IH].
Qed.

Lemma truthy_length (s : string) : truthy s = true <-> 0 < String.length s.
Proof.
  destruct s; simpl; split; intros H; try reflexivity; try lia; discriminate.
Qed.

Lemma truthy_nonempty (s : string) : truthy s = true <-> s <> "".
Proof.
  destruct s; simpl; split; intros H; congruence.
Qed.

Lemma append_empty_r (s : string) : s ++ "" = s.
Proof.
  induction s as [| c s IH]; simpl; [reflexivity | now rewrite IH].
Qed.

Lemma truthy_append_r (a b : string) : truthy b = true -> truthy (a ++ b) = true.
Proof.
  intros H. apply truthy_length. rewrite length_append.
  apply truthy_length in H. lia.
Qed.

(** The length of [l.join(sep)]: the elements, and one separator between
    two neighbours. *)
Lemma length_join (sep : string) (l : list string) :
  String.length (join sep l)
  = list_sum (List.map String.length l) + String.length sep * (List.length l - 1).
Proof.
  unfold join.
  induction l as [| a l IH]; simpl; [lia |].
  destruct l as [| b l]; [simpl; lia |].
  rewrite !length_append, IH. simpl. lia.
Qed.

(** A join of non-empty strings is empty only for the empty list. *)
Lemma join_truthy (sep : string) (l : list string) :
  Forall (fun s => truthy s = true) l -> l <> [] -> truthy (join sep l) = true.
Proof.
  intros Hall Hne. destruct l as [| a l]; [congruence |].
  inversion Hall as [| ? ? Ha _]; subst.
  apply truthy_length. rewrite length_join. simpl.
  apply truthy_length in Ha. lia.
Qed.

(** [ceil_div4 n] is the least number of groups of four that cover [n]. *)
Lemma ceil_div4_spec (n : nat) :
  n <= 4 * ceil_div4 n /\ 4 * ceil_div4 n < n + 4.
Proof.
  unfold ceil_div4.
  pose proof (Nat.div_mod (n + 3) 4 ltac:(lia)) as Hd.
  pose proof (Nat.mod_upper_bound (n + 3) 4 ltac:(lia)) as Hm.
  lia.
Qed.

(** The reader and the writer on the texts used below. *)
Lemma JSON_parse_object :
  JSON_parse (JSON_stringify (JObject [("q", JString "x")]))
  = Some (JObject [("q", JString "x")]).
Proof. reflexivity. Qed.

Lemma JSON_parse_nested :
  JSON_parse (" { " ++ quote "a" ++ " : [1, -2.5e+3, true, null, {}], "
              ++ quote "b" ++ " : " ++ quote newline ++ " } ")
  = Some (JObject [("a", JArray [JNumber "1"; JNumber "-2.5e+3"; JBool true;
                                 JNull; JObject []]);
                   ("b", JString newline)]).
Proof. reflexivity. Qed.

Lemma JSON_parse_rejects :
  JSON_parse "{" = None /\ JSON_parse "" = None /\ JSON_parse "[1,]" = None /\
  JSON_parse "01" = None /\ JSON_parse "{} x" = None.
Proof. repeat split. Qed.

End JsFacts.

Module CountTokensFacts.

Import Js Adapter Notions Spec Examples JsFacts.

Lemma or_else_empty (s : string) : or_else s "" = s.
Proof. destruct s; reflexivity. Qed.

Lemma countTokens_text (request : CountTokensParameters) :
  totalTokens (countTokens request)
  = Some (ceil_div4 (list_sum (List.map text_length (all_parts request))
                     + (List.length (all_parts request) - 1))).
Proof.
  unfold countTokens, all_parts. simpl. f_equal. f_equal.
  rewrite length_join, List.map_map, List.length_map. simpl.
  f_equal; [| lia]. f_equal.
  apply List.map_ext. intros part. unfold text_length.
  destruct (text part) as [s |]; [now rewrite or_else_empty | reflexivity].
Qed.

Lemma all_text_same_list (ps : list Part) :
  Forall (fun part => text part <> None) ps ->
  List.map (fun part => match text part with
                        | Some s => or_else s ""
                        | None => ""
                        end) ps
  = flat_map (fun part => match text part with Some s => [s] | None => [] end) ps.
Proof.
  induction 1 as [| part ps Hp _ IH]; simpl; [reflexivity |].
  rewrite IH. destruct (text part) as [s |]; [| congruence].
  now rewrite or_else_empty.
Qed.

(** C7, as the code has it. countTokens returns ceil(n / 4) where n is the
    length of the space-joined list that holds one entry for every part of
    every turn: the part's text, or the empty string for a part without
    text. So n is the total length of the texts plus one separator between
    any two neighbouring parts, textual or not. The result is the one of the
    specification when every part carries text, and a single text part of
    40 characters gives 10. *)
Theorem countTokens_estimate (request : CountTokensParameters) :
  (exists t,
     totalTokens (countTokens request) = Some t /\
     let n := list_sum (List.map text_length (all_parts request))
              + (List.length (all_parts request) - 1) in
     n <= 4 * t /\ 4 * t < n + 4) /\
  (Forall (fun part => text part <> None) (all_parts request) ->
     countTokens request = spec_countTokens request) /\
  (forall (r s : string),
     ct_contents request = [ {| role := r; parts := [text_part s] |} ] ->
     String.length s = 40 ->
     totalTokens (countTokens request) = Some 10).
Proof.
  split; [| split].
  - eexists. split; [apply countTokens_text |]. apply ceil_div4_spec.
  - intros Hall. unfold countTokens, spec_countTokens, spec_text_parts.
    unfold all_parts in Hall. now rewrite (all_text_same_list _ Hall).
  - intros r s Hc Hlen. rewrite countTokens_text. unfold all_parts.
    rewrite Hc. simpl. unfold text_length. simpl. rewrite Hlen. reflexivity.
Qed.

Lemma countTokens_estimate_witness :
  countTokens forty_request = spec_countTokens forty_request /\
  totalTokens (countTokens forty_request) = Some 10.
Proof.
  split.
  - apply (proj1 (proj2 (countTokens_estimate forty_request))).
    repeat constructor; discriminate.
  - apply (proj2 (proj2 (countTokens_estimate forty_request)) "user" forty);
      reflexivity.
Defined.

(** C7, as the specification words it, fails: the part without text still
    puts a separator in front of the four characters, so the code counts 5
    characters and returns 2 where the text parts alone give 1. *)
Lemma countTokens_counts_every_part :
  totalTokens (countTokens call_then_text) = Some 2 /\
  totalTokens (spec_countTokens call_then_text) = Some 1 /\
  countTokens call_then_text <> spec_countTokens call_then_text.
Proof.
  repeat split; try reflexivity. discriminate.
Qed.

End CountTokensFacts.

Module SchemaFacts.

Import Js Adapter Notions Examples JsFacts.








End SchemaFacts.

Module SynthesisFacts.

Import Js Adapter Notions Spec Examples JsFacts.

Lemma parse_arguments_ok (a : string) (v : json) :
  JSON_parse (or_else a "{}") = Some v -> parse_arguments a = Ok v.
Proof. unfold parse_arguments. now intros ->. Qed.

Lemma parse_arguments_throw (a : string) :
  JSON_parse (or_else a "{}") = None ->
  parse_arguments a = Throw (SyntaxError (or_else a "{}")).
Proof. unfold parse_arguments. now intros ->. Qed.

(** When the arguments of every invocation of type [function] parse, the
    loop pushes one part per such invocation, in order. *)
Lemma toolCallParts_ok (tcs : list ToolCall) :
  Forall (fun tc => parses tc = true) (filter is_function_call tcs) ->
  exists calls,
    toolCallParts tcs = Ok (List.map functionCall_part calls) /\
    Forall2 reads (filter is_function_call tcs) calls.
Proof.
  induction tcs as [| tc tcs IH]; simpl; intros Hall.
  - exists []. split; [reflexivity | constructor].
  - unfold is_function_call at 1 in Hall. unfold is_function_call at 1.
    destruct (String.eqb (tc_type tc) "function").
    + inversion Hall as [| ? ? Hp Hrest]; subst.
      destruct (IH Hrest) as (calls & Hcalls & Hreads).
      unfold parses, arguments_source in Hp.
      destruct (JSON_parse (or_else (tf_arguments (tc_function tc)) "{}"))
        as [v |] eqn:Hv; [| discriminate].
      exists ({| fc_name := tf_name (tc_function tc); fc_args := v; fc_id := None |}
              :: calls).
      rewrite (parse_arguments_ok _ _ Hv), Hcalls. simpl.
      split; [reflexivity |]. constructor; [| exact Hreads].
      unfold reads, arguments_source. simpl. auto.
    + apply IH, Hall.
Qed.

(** When the arguments of an invocation of type [function] do not parse,
    the loop throws the [SyntaxError] of the first such invocation. *)
Lemma toolCallParts_throw (tcs : list ToolCall) :
  Exists (fun tc => parses tc = false) (filter is_function_call tcs) ->
  exists tc,
    In tc (filter is_function_call tcs) /\ parses tc = false /\
    toolCallParts tcs = Throw (SyntaxError (arguments_source tc)).
Proof.
  induction tcs as [| tc tcs IH]; simpl; intros Hex.
  - inversion Hex.
  - unfold is_function_call at 1 in Hex. unfold is_function_call at 1 3.
    destruct (String.eqb (tc_type tc) "function").
    + destruct (parses tc) eqn:Hp.
      * inversion Hex as [? ? Hbad | ? ? Hlater]; subst; [congruence |].
        destruct (IH Hlater) as (bad & Hin & Hbad & Hthrow).
        exists bad. split; [now right | split; [exact Hbad |]].
        unfold parses, arguments_source in Hp.
        destruct (JSON_parse (or_else (tf_arguments (tc_function tc)) "{}"))
          as [v |] eqn:Hv; [| discriminate].
        now rewrite (parse_arguments_ok _ _ Hv), Hthrow.
      * exists tc. split; [now left | split; [exact Hp |]].
        unfold parses, arguments_source in Hp.
        destruct (JSON_parse (or_else (tf_arguments (tc_function tc)) "{}"))
          as [v |] eqn:Hv; [discriminate |].
        now rewrite (parse_arguments_throw _ Hv).
    + apply IH, Hex.
Qed.

(** The loop throws at the first invocation of type [function] whose
    arguments do not parse. *)
Lemma toolCallParts_first_throw (tcs : list ToolCall) :
  forall (pre : list ToolCall) (tc : ToolCall) (post : list ToolCall),
    filter is_function_call tcs = (pre ++ tc :: post)%list ->
    Forall (fun c => parses c = true) pre ->
    parses tc = false ->
    toolCallParts tcs = Throw (SyntaxError (arguments_source tc)).
Proof.
  induction tcs as [| c tcs IH]; simpl; intros pre tc post Hsplit Hpre Hbad.
  - destruct pre; discriminate.
  - unfold is_function_call at 1 in Hsplit.
    destruct (String.eqb (tc_type c) "function"); [| now apply (IH pre tc post)].
    destruct pre as [| p pre]; simpl in Hsplit; injection Hsplit as -> Hrest.
    + unfold parses, arguments_source in Hbad.
      destruct (JSON_parse (or_else (tf_arguments (tc_function tc)) "{}"))
        as [v |] eqn:Hv; [discriminate |].
      now rewrite (parse_arguments_throw _ Hv).
    + inversion Hpre as [| ? ? Hp Hpre']; subst.
      unfold parses, arguments_source in Hp.
      destruct (JSON_parse (or_else (tf_arguments (tc_function p)) "{}"))
        as [v |] eqn:Hv; [| discriminate].
      rewrite (parse_arguments_ok _ _ Hv). simpl.
      now rewrite (IH pre tc post Hrest Hpre' Hbad).
Qed.

Lemma or_undefined_absent : or_undefined None = None.
Proof. reflexivity. Qed.

Lemma or_undefined_given (r : string) : r <> "" -> or_undefined (Some r) = Some r.
Proof. destruct r; [congruence | reflexivity]. Qed.

(** C1, as the code has it. For a completion with at least one choice in
    which the arguments of every tool invocation of type [function] parse,
    the synthesis returns exactly one candidate, built from the first
    choice only: one text part if the content is non-empty, then one
    function-call part per invocation of type [function] (other invocations
    give no part), in order; role [model]; the backend's finish reason,
    undefined if it is absent or the empty string; the index of that choice
    as the backend numbers it; and the usage metadata, with the three counts
    when the backend supplies them. *)
Theorem synthesis_first_choice (response : ChatCompletion) (choice : Choice)
  (rest : list Choice) :
  choices response = choice :: rest ->
  Forall (fun tc => parses tc = true) (function_calls (message choice)) ->
  exists cand um calls,
    convertOpenAIResponseToGenAI response
    = Ok {| candidates := Some [cand]; usageMetadata := Some um |} /\
    role (content cand) = "model" /\
    parts (content cand)
    = (text_parts_of (msg_content (message choice))
       ++ List.map functionCall_part calls)%list /\
    Forall2 reads (function_calls (message choice)) calls /\
    (finish_reason choice = None -> finishReason cand = None) /\
    (finish_reason choice = Some "" -> finishReason cand = None) /\
    (forall r, finish_reason choice = Some r -> r <> "" ->
               finishReason cand = Some r) /\
    index cand = Some (choice_index choice) /\
    (forall u, usage response = Some u -> um = usage_of u).
Proof.
  intros Hchoices Hparse.
  unfold convertOpenAIResponseToGenAI. rewrite Hchoices.
  unfold function_calls, invocations in *.
  assert (Hloop : exists calls,
             match msg_tool_calls (message choice) with
             | Some tcs => toolCallParts tcs
             | None => Ok []
             end = Ok (List.map functionCall_part calls) /\
             Forall2 reads
               (filter is_function_call
                  match msg_tool_calls (message choice) with
                  | Some tcs => tcs
                  | None => []
                  end) calls).
  { destruct (msg_tool_calls (message choice)) as [tcs |].
    - now apply toolCallParts_ok.
    - exists []. split; [reflexivity | constructor]. }
  destruct Hloop as (calls & -> & Hreads). simpl.
  eexists. eexists. exists calls.
  split; [reflexivity |]. simpl.
  repeat apply conj; try reflexivity; try assumption.
  - now intros ->.
  - now intros ->.
  - intros r -> Hr. now apply or_undefined_given.
  - intros u ->. reflexivity.
Qed.

Lemma synthesis_first_choice_witness :
  exists cand um calls,
    convertOpenAIResponseToGenAI lookup_completion
    = Ok {| candidates := Some [cand]; usageMetadata := Some um |} /\
    role (content cand) = "model" /\
    parts (content cand)
    = (text_parts_of (msg_content (message lookup_choice))
       ++ List.map functionCall_part calls)%list /\
    Forall2 reads (function_calls (message lookup_choice)) calls /\
    (finish_reason lookup_choice = None -> finishReason cand = None) /\
    (finish_reason lookup_choice = Some "" -> finishReason cand = None) /\
    (forall r, finish_reason lookup_choice = Some r -> r <> "" ->
               finishReason cand = Some r) /\
    index cand = Some (choice_index lookup_choice) /\
    (forall u, usage lookup_completion = Some u -> um = usage_of u).
Proof.
  apply (synthesis_first_choice lookup_completion lookup_choice [] eq_refl).
  repeat constructor.
Defined.

(** The scenario of the specification: a completion cut by the token
    limit, without tool calls, gives the finish reason [length] and the
    content as the single text part. *)
Lemma synthesis_length_scenario :
  convertOpenAIResponseToGenAI length_completion
  = Ok {| candidates :=
            Some [ {| content := {| role := "model";
                                    parts := [text_part "Once upon a"] |};
                      finishReason := Some "length";
                      index := Some 0%Z |} ];
          usageMetadata :=
            Some {| promptTokenCount := Some 7%Z;
                    candidatesTokenCount := Some 3%Z;
                    totalTokenCount := Some 10%Z |} |}.
Proof. reflexivity. Qed.

(** C1, as the specification words it, fails in three ways: the index is
    the one the backend gives the first choice, here 1; an invocation whose
    type is not [function] gives no part; and arguments that do not parse
    make the synthesis throw. *)
Lemma synthesis_claim_fails :
  ~ synthesis_claim numbered_from_one (convertOpenAIResponseToGenAI numbered_from_one) /\
  ~ synthesis_claim custom_call (convertOpenAIResponseToGenAI custom_call) /\
  ~ synthesis_claim malformed_call (convertOpenAIResponseToGenAI malformed_call).
Proof.
  repeat apply conj; intros Hclaim;
    destruct (Hclaim _ _ eq_refl)
      as (cand & um & calls & Hout & _ & Hparts & Hlen & _ & _ & Hindex & _).
  - vm_compute in Hout. inversion Hout; subst. discriminate.
  - vm_compute in Hout. inversion Hout; subst. simpl in *.
    destruct calls; simpl in *; discriminate.
  - vm_compute in Hout. discriminate.
Qed.

End SynthesisFacts.

Module StreamFacts.

Import Js Adapter Notions Spec Examples JsFacts SynthesisFacts.

Lemma text_snapshots_app (acc : string) (l1 l2 : list string) :
  text_snapshots acc (l1 ++ l2)
  = (text_snapshots acc l1 ++ text_snapshots (accumulated acc l1) l2)%list.
Proof.
  revert acc. induction l1 as [| t l1 IH]; intros acc; simpl; [reflexivity |].
  now rewrite IH.
Qed.

Lemma accumulated_app (acc : string) (l1 l2 : list string) :
  accumulated acc (l1 ++ l2) = accumulated (accumulated acc l1) l2.
Proof. unfold accumulated. apply fold_left_app. Qed.

(** The snapshot yielded on a text delta. *)
Lemma createStreamResponse_text (acc : string) :
  truthy acc = true -> createStreamResponse acc false None = Ok (text_snapshot acc).
Proof.
  intros Hacc. unfold createStreamResponse, text_snapshot. now rewrite Hacc.
Qed.

Lemma fragmentParts_ok (frags : list ToolCallFragment) :
  Forall (fun f => fragment_parses f = true) (filter is_function_fragment frags) ->
  exists calls,
    fragmentParts frags = Ok (List.map functionCall_part calls) /\
    Forall2 fragment_reads (filter is_function_fragment frags) calls.
Proof.
  induction frags as [| frag frags IH]; simpl; intros Hall.
  - exists []. split; [reflexivity | constructor].
  - destruct (is_function_fragment frag).
    + inversion Hall as [| ? ? Hp Hrest]; subst.
      destruct (IH Hrest) as (calls & Hcalls & Hreads).
      unfold fragment_parses in Hp.
      destruct (frag_function frag) as [fn |] eqn:Hfn; [| discriminate].
      unfold fragment_source in Hp.
      destruct (JSON_parse
                  (or_else match ff_arguments fn with Some a => a | None => "" end "{}"))
        as [v |] eqn:Hv; [| discriminate].
      exists ({| fc_name := ff_name fn; fc_args := v; fc_id := None |} :: calls).
      rewrite (parse_arguments_ok _ _ Hv), Hcalls. simpl.
      split; [reflexivity |]. constructor; [| exact Hreads].
      exists fn. unfold fragment_source. simpl. auto.
    + apply IH, Hall.
Qed.

Lemma fragmentParts_throw (frags : list ToolCallFragment) :
  Exists (fun f => fragment_parses f = false) (filter is_function_fragment frags) ->
  exists e, fragmentParts frags = Throw e.
Proof.
  induction frags as [| frag frags IH]; simpl; intros Hex.
  - inversion Hex.
  - destruct (is_function_fragment frag).
    + destruct (frag_function frag) as [fn |] eqn:Hfn; [| eauto].
      destruct (parse_arguments match ff_arguments fn with Some a => a | None => "" end)
        as [v | e] eqn:Hv; simpl; [| eauto].
      inversion Hex as [? ? Hbad | ? ? Hlater]; subst.
      * unfold fragment_parses in Hbad. rewrite Hfn in Hbad.
        unfold parse_arguments in Hv. unfold fragment_source in Hbad.
        destruct (JSON_parse
                    (or_else match ff_arguments fn with Some a => a | None => "" end "{}"));
          discriminate.
      * destruct (IH Hlater) as (e & ->). simpl. eauto.
    + apply IH, Hex.
Qed.

(** The terminal snapshot, for fragments that give the calls [calls]. *)
Lemma createStreamResponse_terminal (acc : string) (frags : list ToolCallFragment)
  (calls : list FunctionCall) :
  fragmentParts frags = Ok (List.map functionCall_part calls) ->
  createStreamResponse acc true (Some frags) = Ok (terminal_snapshot acc calls).
Proof.
  intros Hparts. unfold createStreamResponse, terminal_snapshot.
  destruct frags as [| frag frags].
  - simpl in *. injection Hparts as Hcalls.
    destruct calls; [reflexivity | discriminate].
  - change (0 <? List.length (frag :: frags)) with true. cbv iota.
    rewrite Hparts. reflexivity.
Qed.

Lemma createStreamResponse_throw (acc : string) (frags : list ToolCallFragment)
  (e : JsError) :
  fragmentParts frags = Throw e ->
  createStreamResponse acc true (Some frags) = Throw e.
Proof.
  intros Hparts. unfold createStreamResponse.
  destruct frags as [| frag frags]; [discriminate |].
  change (0 <? List.length (frag :: frags)) with true. cbv iota.
  rewrite Hparts. reflexivity.
Qed.

(** One turn of the loop, in terms of what the event carries. *)
Lemma streamLoop_cons (chunk : ChatCompletionChunk) (rest : list ChatCompletionChunk)
  (ending : option JsError) (acc : string) (frags : list ToolCallFragment) :
  streamLoop (chunk :: rest) ending acc frags
  = if has_finish chunk then
      match createStreamResponse (accumulated acc (chunk_text chunk)) true
              (Some (frags ++ chunk_fragments chunk)%list) with
      | Ok final => ((text_snapshots acc (chunk_text chunk) ++ [final])%list, Returned)
      | Throw e => (text_snapshots acc (chunk_text chunk), Threw (ApiError e))
      end
    else
      let (more, outcome) :=
        streamLoop rest ending (accumulated acc (chunk_text chunk))
                   (frags ++ chunk_fragments chunk)%list in
      ((text_snapshots acc (chunk_text chunk) ++ more)%list, outcome).
Proof.
  cbn [streamLoop].
  unfold has_finish, chunk_text, chunk_fragments, chunk_delta, first_choice.
  destruct (hd_error (chunk_choices chunk)) as [choice |]; cbn [accumulated fold_left].
  - destruct (delta choice) as [d |].
    + destruct (delta_content d) as [t |].
      * cbn [truthy_opt]. destruct (truthy t) eqn:Ht.
        -- rewrite (createStreamResponse_text (acc ++ t) (truthy_append_r _ _ Ht)).
           cbn [bind text_snapshots fold_left accumulated].
           destruct (delta_tool_calls d) as [fs |]; rewrite ?List.app_nil_r;
             reflexivity.
        -- cbn [text_snapshots fold_left accumulated app].
           destruct (delta_tool_calls d) as [fs |]; rewrite ?List.app_nil_r;
             reflexivity.
      * cbn [truthy_opt text_snapshots fold_left accumulated app].
        destruct (delta_tool_calls d) as [fs |]; rewrite ?List.app_nil_r;
          reflexivity.
    + cbn [truthy_opt text_snapshots fold_left accumulated app].
      rewrite ?List.app_nil_r. reflexivity.
  - cbn [truthy_opt text_snapshots fold_left accumulated app].
    rewrite ?List.app_nil_r. reflexivity.
Qed.

(** The loop over events without a finish reason: the text snapshots, and
    the state it reaches. *)
Lemma streamLoop_prefix (pre rest : list ChatCompletionChunk)
  (ending : option JsError) :
  Forall (fun c => has_finish c = false) pre ->
  forall (acc : string) (frags : list ToolCallFragment),
    streamLoop (pre ++ rest) ending acc frags
    = let (more, outcome) :=
        streamLoop rest ending (accumulated acc (text_deltas pre))
                   (frags ++ buffered pre)%list in
      ((text_snapshots acc (text_deltas pre) ++ more)%list, outcome).
Proof.
  induction 1 as [| chunk pre Hchunk _ IH]; intros acc frags.
  - cbn [app text_deltas buffered flat_map accumulated fold_left text_snapshots].
    rewrite List.app_nil_r. now destruct (streamLoop rest ending acc frags).
  - rewrite <- List.app_comm_cons, streamLoop_cons, Hchunk, IH.
    cbn [text_deltas buffered flat_map].
    fold (text_deltas pre). fold (buffered pre).
    rewrite text_snapshots_app, accumulated_app, !List.app_assoc.
    destruct (streamLoop rest ending
                (accumulated (accumulated acc (chunk_text chunk)) (text_deltas pre))
                ((frags ++ chunk_fragments chunk) ++ buffered pre)%list)
      as [more outcome].
    now rewrite !List.app_assoc.
Qed.

Lemma streamLoop_no_finish (chunks : list ChatCompletionChunk)
  (ending : option JsError) (acc : string) (frags : list ToolCallFragment) :
  Forall (fun c => has_finish c = false) chunks ->
  streamLoop chunks ending acc frags
  = (text_snapshots acc (text_deltas chunks),
     match ending with
     | None => Returned
     | Some e => Threw (ApiError e)
     end).
Proof.
  intros Hall.
  rewrite <- (List.app_nil_r chunks) at 1.
  rewrite (streamLoop_prefix _ [] ending Hall). cbn [streamLoop].
  now rewrite List.app_nil_r.
Qed.

(** The run of the generator: the one of the loop over the events of the
    stream that the backend opens. *)
Lemma generateContentStream_run (draws : nat -> string) (client : Client)
  (request : GenerateContentParameters) (k : nat) :
  fst (generateContentStream draws client request k)
  = match create_stream client (fst (createParams draws request true k)) with
    | Throw e => ([], Threw (ApiError e))
    | Ok stream => streamLoop (events stream) (failure stream) "" []
    end.
Proof.
  unfold generateContentStream, generateContentStreamInternal, rbind, ret.
  now destruct (createParams draws request true k).
Qed.

Lemma generateContent_run (draws : nat -> string) (client : Client)
  (request : GenerateContentParameters) (k : nat) :
  fst (generateContent draws client request k)
  = rethrow_as_api_error
      (completion <- create client (fst (createParams draws request false k)) ;;
       convertOpenAIResponseToGenAI completion).
Proof.
  unfold generateContent, rbind, ret.
  now destruct (createParams draws request false k).
Qed.

Lemma text_snapshots_plain (acc : string) (deltas : list string) :
  Forall plain_text (text_snapshots acc deltas).
Proof.
  revert acc. induction deltas as [| t deltas IH]; intros acc; simpl; constructor.
  - intros cand [<- | []]. simpl. split; [reflexivity |].
    repeat constructor.
  - apply IH.
Qed.

(** C10. When no event of the backend's stream carries a finish reason,
    generateContentStream yields the snapshots of the text deltas and nothing
    else, each without a finish reason and without a function call, and then
    ends: it returns when the stream ends, and throws the wrapped error when
    the stream fails. No terminal snapshot is yielded and the buffered
    fragments are not surfaced. *)
Theorem stream_without_finish (draws : nat -> string) (client : Client)
  (request : GenerateContentParameters) (k : nat) (stream : Stream) :
  create_stream client (fst (createParams draws request true k)) = Ok stream ->
  Forall (fun c => has_finish c = false) (events stream) ->
  fst (fst (generateContentStream draws client request k))
  = text_snapshots "" (text_deltas (events stream)) /\
  Forall plain_text (fst (fst (generateContentStream draws client request k))) /\
  snd (fst (generateContentStream draws client request k))
  = match failure stream with
    | None => Returned
    | Some e => Threw (ApiError e)
    end.
Proof.
  intros Hopen Hall.
  rewrite generateContentStream_run, Hopen, (streamLoop_no_finish _ _ _ _ Hall).
  simpl. repeat split. apply text_snapshots_plain.
Qed.

Lemma stream_without_finish_witness :
  fst (fst (generateContentStream constant_draws (streaming unfinished_stream)
              hello_request 0))
  = [text_snapshot "Hel"; text_snapshot "Hello"] /\
  Forall plain_text
    (fst (fst (generateContentStream constant_draws (streaming unfinished_stream)
                 hello_request 0))) /\
  snd (fst (generateContentStream constant_draws (streaming unfinished_stream)
              hello_request 0))
  = Returned.
Proof.
  apply (stream_without_finish constant_draws (streaming unfinished_stream)
           hello_request 0 {| events := unfinished_stream; failure := None |}).
  - reflexivity.
  - repeat constructor.
Defined.

(** The run of the loop up to the first event with a finish reason. *)
Lemma streamLoop_terminal (pre : list ChatCompletionChunk) (fin : ChatCompletionChunk)
  (post : list ChatCompletionChunk) (ending : option JsError) :
  Forall (fun c => has_finish c = false) pre ->
  has_finish fin = true ->
  streamLoop (pre ++ fin :: post) ending "" []
  = match createStreamResponse (accumulated "" (text_deltas (pre ++ [fin]))) true
            (Some (buffered (pre ++ [fin]))) with
    | Ok final => ((text_snapshots "" (text_deltas (pre ++ [fin])) ++ [final])%list,
                   Returned)
    | Throw e => (text_snapshots "" (text_deltas (pre ++ [fin])), Threw (ApiError e))
    end.
Proof.
  intros Hpre Hfin.
  rewrite (streamLoop_prefix _ _ ending Hpre), streamLoop_cons, Hfin.
  unfold text_deltas, buffered.
  rewrite !List.flat_map_app. cbn [flat_map]. rewrite !List.app_nil_r.
  fold (text_deltas pre). fold (buffered pre).
  rewrite text_snapshots_app, accumulated_app. cbn [app].
  destruct (createStreamResponse
              (accumulated (accumulated "" (text_deltas pre)) (chunk_text fin)) true
              (Some (buffered pre ++ chunk_fragments fin)%list)) as [final | e].
  - now rewrite List.app_assoc.
  - reflexivity.
Qed.

(** C5, as the code has it. The events before the first one with a finish
    reason give one snapshot per non-empty text delta, with the whole text so
    far as its single text part and no finish reason, and no snapshot for an
    event without one. When every buffered fragment of type [function] has
    its function payload and arguments that parse, that first event gives,
    after its own text snapshot if it has a text delta, one final snapshot:
    the accumulated text (if any), then one function-call part per buffered
    fragment of type [function] (a fragment without that type gives no
    part), finish reason [stop], index 0. The generator then returns:
    nothing is yielded for the events that follow. *)
Theorem stream_terminal (draws : nat -> string) (client : Client)
  (request : GenerateContentParameters) (k : nat) (stream : Stream)
  (pre : list ChatCompletionChunk) (fin : ChatCompletionChunk)
  (post : list ChatCompletionChunk) :
  create_stream client (fst (createParams draws request true k)) = Ok stream ->
  events stream = (pre ++ fin :: post)%list ->
  Forall (fun c => has_finish c = false) pre ->
  has_finish fin = true ->
  Forall (fun f => fragment_parses f = true)
         (filter is_function_fragment (buffered (pre ++ [fin]))) ->
  exists calls,
    fst (generateContentStream draws client request k)
    = ((text_snapshots "" (text_deltas (pre ++ [fin]))
        ++ [terminal_snapshot (accumulated "" (text_deltas (pre ++ [fin]))) calls])%list,
       Returned) /\
    Forall2 fragment_reads
            (filter is_function_fragment (buffered (pre ++ [fin]))) calls.
Proof.
  intros Hopen Hevents Hpre Hfin Hparse.
  destruct (fragmentParts_ok _ Hparse) as (calls & Hparts & Hreads).
  exists calls. split; [| exact Hreads].
  rewrite generateContentStream_run, Hopen, Hevents.
  rewrite (streamLoop_terminal _ _ _ _ Hpre Hfin).
  now rewrite (createStreamResponse_terminal _ _ _ Hparts).
Qed.

Lemma stream_terminal_witness :
  exists calls,
    fst (generateContentStream constant_draws (streaming whole_call_stream)
           hello_request 0)
    = ([text_snapshot "Hi"; terminal_snapshot "Hi" calls], Returned) /\
    Forall2 fragment_reads [opening_fragment "lookup" q_x] calls.
Proof.
  apply (stream_terminal constant_draws (streaming whole_call_stream) hello_request 0
           {| events := whole_call_stream; failure := None |}
           [text_event "Hi"; fragment_event [opening_fragment "lookup" q_x]]
           (finish_event "tool_calls") []).
  - reflexivity.
  - reflexivity.
  - repeat constructor.
  - reflexivity.
  - repeat constructor.
Defined.

(** C5, as the specification words it, fails: of the two buffered fragments
    of a call whose arguments arrive in a second fragment, only the one of
    type [function] gives a function-call part. *)
Lemma terminal_claim_fails :
  List.length (buffered split_call_stream) = 2 /\
  ~ terminal_claim split_call_stream
      (fst (generateContentStream constant_draws (streaming split_call_stream)
              hello_request 0)).
Proof.
  split; [reflexivity |].
  intros (calls & Hlen & Hrun).
  destruct calls as [| a [| b [| c calls]]];
    vm_compute in Hlen; try discriminate Hlen.
  vm_compute in Hrun. discriminate Hrun.
Qed.

(** The loop throws at the first fragment of type [function] that lacks
    its payload or whose arguments do not parse. *)
Lemma fragmentParts_first_throw (frags : list ToolCallFragment) :
  forall (good : list ToolCallFragment) (bad : ToolCallFragment)
         (later : list ToolCallFragment),
    filter is_function_fragment frags = (good ++ bad :: later)%list ->
    Forall (fun f => fragment_parses f = true) good ->
    fragment_parses bad = false ->
    fragmentParts frags = Throw (fragment_error bad).
Proof.
  induction frags as [| f frags IH]; simpl; intros good bad later Hsplit Hgood Hbad.
  - destruct good; discriminate.
  - destruct (is_function_fragment f); [| now apply (IH good bad later)].
    destruct good as [| g good]; simpl in Hsplit; injection Hsplit as -> Hrest.
    + unfold fragment_parses in Hbad. unfold fragment_error.
      destruct (frag_function bad) as [fn |]; [| reflexivity].
      unfold fragment_source in *.
      destruct (JSON_parse
                  (or_else match ff_arguments fn with Some a => a | None => "" end "{}"))
        as [v |] eqn:Hv; [discriminate |].
      now rewrite (parse_arguments_throw _ Hv).
    + inversion Hgood as [| ? ? Hp Hgood']; subst.
      unfold fragment_parses in Hp.
      destruct (frag_function g) as [fn |]; [| discriminate].
      unfold fragment_source in Hp.
      destruct (JSON_parse
                  (or_else match ff_arguments fn with Some a => a | None => "" end "{}"))
        as [v |] eqn:Hv; [| discriminate].
      rewrite (parse_arguments_ok _ _ Hv). simpl.
      now rewrite (IH good bad later Hrest Hgood' Hbad).
Qed.

(** C6, as the code has it. Arguments that do not parse abort the whole
    response. Without streaming, the synthesis throws the [SyntaxError] of the
    first invocation of type [function] of the first choice whose arguments do
    not parse, and generateContent fails with that error wrapped: no candidate
    is returned, not even the text of the message. With streaming, at the
    first event with a finish reason the generator has yielded the text
    snapshots, and then throws, wrapped, the error of the first buffered
    fragment of type [function] that lacks its payload or whose arguments do
    not parse, instead of yielding the terminal snapshot. *)
Theorem malformed_arguments_abort :
  (forall (response : ChatCompletion) (choice : Choice) (rest : list Choice)
          (pre : list ToolCall) (tc : ToolCall) (post : list ToolCall),
     choices response = choice :: rest ->
     function_calls (message choice) = (pre ++ tc :: post)%list ->
     Forall (fun c => parses c = true) pre ->
     parses tc = false ->
     convertOpenAIResponseToGenAI response
     = Throw (SyntaxError (arguments_source tc)) /\
     forall draws client request k,
       create client (fst (createParams draws request false k)) = Ok response ->
       fst (generateContent draws client request k)
       = Throw (ApiError (SyntaxError (arguments_source tc)))) /\
  (forall (draws : nat -> string) (client : Client)
          (request : GenerateContentParameters) (k : nat) (stream : Stream)
          (pre : list ChatCompletionChunk) (fin : ChatCompletionChunk)
          (post : list ChatCompletionChunk)
          (good : list ToolCallFragment) (bad : ToolCallFragment)
          (later : list ToolCallFragment),
     create_stream client (fst (createParams draws request true k)) = Ok stream ->
     events stream = (pre ++ fin :: post)%list ->
     Forall (fun c => has_finish c = false) pre ->
     has_finish fin = true ->
     filter is_function_fragment (buffered (pre ++ [fin]))
     = (good ++ bad :: later)%list ->
     Forall (fun f => fragment_parses f = true) good ->
     fragment_parses bad = false ->
     fst (generateContentStream draws client request k)
     = (text_snapshots "" (text_deltas (pre ++ [fin])),
        Threw (ApiError (fragment_error bad)))).
Proof.
  split.
  - intros response choice rest pre tc post Hchoices Hsplit Hpre Hbad.
    unfold function_calls, invocations in Hsplit.
    destruct (msg_tool_calls (message choice)) as [tcs |] eqn:Htcs;
      [| destruct pre; discriminate].
    pose proof (toolCallParts_first_throw _ _ _ _ Hsplit Hpre Hbad) as Hthrow.
    assert (Hout : convertOpenAIResponseToGenAI response
                   = Throw (SyntaxError (arguments_source tc))).
    { unfold convertOpenAIResponseToGenAI.
      now rewrite Hchoices, Htcs, Hthrow. }
    split; [exact Hout |].
    intros draws client request k Hcreate.
    rewrite generateContent_run, Hcreate. simpl. now rewrite Hout.
  - intros draws client request k stream pre fin post good bad later
           Hopen Hevents Hpre Hfin Hsplit Hgood Hbad.
    pose proof (fragmentParts_first_throw _ _ _ _ Hsplit Hgood Hbad) as Hthrow.
    rewrite generateContentStream_run, Hopen, Hevents.
    rewrite (streamLoop_terminal _ _ _ _ Hpre Hfin).
    now rewrite (createStreamResponse_throw _ _ _ Hthrow).
Qed.

Lemma malformed_arguments_abort_witness :
  (convertOpenAIResponseToGenAI two_calls_completion = Throw (SyntaxError "{") /\
   forall draws client request k,
     create client (fst (createParams draws request false k)) = Ok two_calls_completion ->
     fst (generateContent draws client request k)
     = Throw (ApiError (SyntaxError "{"))) /\
  fst (generateContentStream constant_draws (streaming malformed_stream)
         hello_request 0)
  = ([text_snapshot "Hi"], Threw (ApiError (SyntaxError "{"))).
Proof.
  split.
  - apply (proj1 malformed_arguments_abort two_calls_completion two_calls_choice []
             [lookup_call q_x] (lookup_call "{") [lookup_call "["] eq_refl eq_refl).
    + repeat constructor.
    + reflexivity.
  - apply (proj2 malformed_arguments_abort constant_draws (streaming malformed_stream)
             hello_request 0 {| events := malformed_stream; failure := None |}
             [text_event "Hi"; fragment_event [opening_fragment "lookup" "{"]]
             (finish_event "tool_calls") []
             [] (opening_fragment "lookup" "{") []).
    + reflexivity.
    + reflexivity.
    + repeat constructor.
    + reflexivity.
    + reflexivity.
    + constructor.
    + reflexivity.
Defined.

(** C6, as the specification words it, fails: the completion has a text
    and one call with arguments cut after the brace; nothing of it is
    delivered, by the synthesis or by generateContent, and the stream with the
    same call ends by throwing after its text snapshot. *)
Lemma malformed_arguments_not_delivered :
  ~ delivered (convertOpenAIResponseToGenAI malformed_call) /\
  ~ delivered (fst (generateContent constant_draws (answering malformed_call)
                      hello_request 0)) /\
  fst (generateContentStream constant_draws (streaming malformed_stream)
         hello_request 0)
  = ([text_snapshot "Hi"], Threw (ApiError (SyntaxError "{"))).
Proof.
  repeat apply conj.
  - intros (r & Hr). vm_compute in Hr. discriminate Hr.
  - intros (r & Hr). vm_compute in Hr. discriminate Hr.
  - reflexivity.
Qed.


Lemma fragmentParts_inv (frags : list ToolCallFragment) (pushed : list Part) :
  fragmentParts frags = Ok pushed ->
  exists calls,
    pushed = List.map functionCall_part calls /\
    Forall2 fragment_reads (filter is_function_fragment frags) calls.
Proof.
  revert pushed. induction frags as [| frag frags IH]; simpl; intros pushed Hok.
  - injection Hok as <-. exists []. split; [reflexivity | constructor].
  - destruct (is_function_fragment frag); [| now apply IH].
    destruct (frag_function frag) as [fn |] eqn:Hfn; [| discriminate].
    unfold parse_arguments in Hok.
    destruct (JSON_parse
                (or_else match ff_arguments fn with Some a => a | None => "" end "{}"))
      as [v |] eqn:Hv; [| discriminate].
    simpl in Hok.
    destruct (fragmentParts frags) as [more | e]; [| discriminate].
    destruct (IH more eq_refl) as (calls & -> & Hreads).
    injection Hok as <-.
    exists ({| fc_name := ff_name fn; fc_args := v; fc_id := None |} :: calls).
    split; [reflexivity |]. constructor; [| exact Hreads].
    exists fn. unfold fragment_source. simpl. auto.
Qed.











End StreamFacts.

Module ConverterFacts.

Import Js Adapter Notions Spec Examples JsFacts.

Lemma seq_succ (k n : nat) : seq k (S n) = k :: seq (S k) n.
Proof. reflexivity. Qed.

(** Mapping a drawing function over a list draws once per element, in
    order. *)
Lemma mapM_numbered {A B : Type} (draws : nat -> string) (f : A -> Rand B)
  (g : nat * A -> B) :
  (forall a k, f a k = (g (k, a), S k)) ->
  forall (l : list A) (k : nat),
    mapM f l k = (List.map g (numbered k l), k + List.length l).
Proof.
  intros Hf. induction l as [| a l IH]; intros k.
  - simpl. unfold ret. now rewrite Nat.add_0_r.
  - cbn [mapM]. unfold rbind, ret. rewrite Hf, IH.
    unfold numbered. simpl. now rewrite Nat.add_succ_r.
Qed.

Lemma mapM_toolCall (draws : nat -> string) (fcs : list FunctionCall) (k : nat) :
  mapM (toolCall_of draws) fcs k
  = (List.map (invocation draws) (numbered k fcs), k + List.length fcs).
Proof. now apply (mapM_numbered draws). Qed.

Lemma mapM_toolResult (draws : nat -> string) (frs : list FunctionResponse) (k : nat) :
  mapM (toolResult_of draws) frs k
  = (List.map (tool_result draws) (numbered k frs), k + List.length frs).
Proof. now apply (mapM_numbered draws). Qed.

Lemma is_tool_turn (ps : list Part) :
  functionCalls_of ps <> [] \/ functionResponses_of ps <> [] ->
  existsb (fun part => present (functionCall part) || present (functionResponse part))
          ps = true.
Proof.
  induction ps as [| p ps IH]; simpl; [tauto |].
  destruct (functionCall p); simpl; [reflexivity |].
  destruct (functionResponse p); simpl; [reflexivity |].
  exact IH.
Qed.

Lemma not_tool_turn (ps : list Part) :
  functionCalls_of ps = [] -> functionResponses_of ps = [] ->
  existsb (fun part => present (functionCall part) || present (functionResponse part))
          ps = false.
Proof.
  induction ps as [| p ps IH]; simpl; [reflexivity |].
  destruct (functionCall p); simpl; [discriminate |].
  destruct (functionResponse p); simpl; [discriminate |].
  exact IH.
Qed.

Lemma truthy_texts_truthy (ps : list Part) :
  Forall (fun s => truthy s = true) (truthy_texts ps).
Proof.
  unfold truthy_texts. induction ps as [| p ps IH]; simpl; [constructor |].
  destruct (text p) as [s |]; [| exact IH].
  destruct (truthy s) eqn:Hs; [| exact IH].
  constructor; assumption.
Qed.

(** The body of the assistant message: the no-content marker exactly when
    the turn has no non-empty text. *)
Lemma body_or_null (ps : list Part) :
  or_null (join newline (truthy_texts ps))
  = match truthy_texts ps with
    | [] => None
    | texts => Some (join newline texts)
    end.
Proof.
  pose proof (truthy_texts_truthy ps) as Hall.
  destruct (truthy_texts ps) as [| t texts] eqn:Htexts; [reflexivity |].
  unfold or_null. now rewrite (join_truthy newline (t :: texts) Hall).
Qed.

Lemma ids_of_invocations (draws : nat -> string) (k : nat) (fcs : list FunctionCall) :
  List.map tc_id (List.map (invocation draws) (numbered k fcs))
  = List.map (call_id draws) (seq k (List.length fcs)).
Proof.
  unfold numbered. revert k.
  induction fcs as [| fc fcs IH]; intros k; simpl; [reflexivity |].
  now rewrite IH.
Qed.

Lemma ids_of_results (draws : nat -> string) (k : nat) (frs : list FunctionResponse) :
  message_ids (List.map (tool_result draws) (numbered k frs))
  = List.map (call_id draws) (seq k (List.length frs)).
Proof.
  unfold numbered. revert k.
  induction frs as [| fr frs IH]; intros k; simpl; [reflexivity |].
  now rewrite IH.
Qed.

(** The messages of one turn with a function call. *)
Lemma convertContent_tool_turn (draws : nat -> string) (c : Content) (k : nat) :
  functionCalls_of (parts c) <> [] ->
  convertContent draws c k
  = (AssistantToolCalls
       (or_null (join newline (truthy_texts (parts c))))
       (List.map (invocation draws) (numbered k (functionCalls_of (parts c))))
     :: List.map (tool_result draws)
          (numbered (k + List.length (functionCalls_of (parts c)))
                    (functionResponses_of (parts c))),
     k + List.length (functionCalls_of (parts c))
     + List.length (functionResponses_of (parts c))).
Proof.
  intros Hcalls. unfold convertContent.
  rewrite (is_tool_turn _ (or_introl Hcalls)).
  destruct (functionCalls_of (parts c)) as [| fc fcs] eqn:Hfcs; [congruence |].
  change (0 <? List.length (fc :: fcs)) with true. cbv iota.
  unfold rbind at 1 2. rewrite mapM_toolCall. unfold ret at 1.
  unfold rbind.
  destruct (functionResponses_of (parts c)) as [| fr frs] eqn:Hfrs.
  - simpl. unfold ret. now rewrite Nat.add_0_r.
  - change (0 <? List.length (fr :: frs)) with true. cbv iota.
    rewrite mapM_toolResult. reflexivity.
Qed.

Lemma message_ids_app (l1 l2 : list ChatCompletionMessageParam) :
  message_ids (l1 ++ l2) = (message_ids l1 ++ message_ids l2)%list.
Proof. apply List.flat_map_app. Qed.

Lemma message_ids_calls (body : option string) (calls : list ToolCall)
  (l : list ChatCompletionMessageParam) :
  message_ids (AssistantToolCalls body calls :: l)
  = (List.map tc_id calls ++ message_ids l)%list.
Proof. reflexivity. Qed.

(** Every identifier of the messages of a turn is made from a draw of its
    own: the turn's [d] identifiers are those of the draws [k], ..,
    [k + d - 1]. *)
Lemma convertContent_ids (draws : nat -> string) (c : Content) (k : nat) :
  exists d,
    snd (convertContent draws c k) = k + d /\
    message_ids (fst (convertContent draws c k))
    = List.map (call_id draws) (seq k d).
Proof.
  destruct (functionCalls_of (parts c)) as [| fc fcs] eqn:Hfcs.
  - unfold convertContent. cbv zeta. rewrite Hfcs.
    destruct (functionResponses_of (parts c)) as [| fr frs] eqn:Hfrs.
    + destruct (existsb _ (parts c)); exists 0; simpl; now rewrite Nat.add_0_r.
    + assert (Htool : functionCalls_of (parts c) <> []
                      \/ functionResponses_of (parts c) <> [])
        by (right; congruence).
      rewrite (is_tool_turn _ Htool).
      change (0 <? List.length (@nil FunctionCall)) with false.
      change (0 <? List.length (fr :: frs)) with true. cbv iota.
      unfold rbind, ret. rewrite mapM_toolResult. cbn [fst snd app].
      exists (List.length (fr :: frs)). split; [reflexivity |].
      apply ids_of_results.
  - rewrite convertContent_tool_turn by congruence. rewrite Hfcs. cbn [fst snd].
    exists (List.length (fc :: fcs) + List.length (functionResponses_of (parts c))).
    split; [lia |].
    rewrite message_ids_calls, List.seq_app, List.map_app, ids_of_results.
    f_equal. apply ids_of_invocations.
Qed.

Lemma convertContentsToMessages_ids (draws : nat -> string) (cs : list Content) :
  forall k,
  exists d,
    snd (convertContentsToMessages draws cs k) = k + d /\
    message_ids (fst (convertContentsToMessages draws cs k))
    = List.map (call_id draws) (seq k d).
Proof.
  induction cs as [| c cs IH]; intros k.
  - exists 0. simpl. now rewrite Nat.add_0_r.
  - cbn [convertContentsToMessages]. unfold rbind, ret.
    destruct (convertContent_ids draws c k) as (d1 & Hk1 & Hids1).
    destruct (convertContent draws c k) as [pushed k1]. cbn [fst snd] in *.
    destruct (IH k1) as (d2 & Hk2 & Hids2).
    destruct (convertContentsToMessages draws cs k1) as [more k2]. cbn [fst snd] in *.
    exists (d1 + d2). split; [lia |].
    rewrite message_ids_app, List.seq_app, List.map_app, Hids1, Hids2.
    now subst k1.
Qed.

Lemma call_id_distinct (draws : nat -> string) (l : list nat) :
  NoDup (List.map (fun i => substr 2 9 (draws i)) l) ->
  NoDup (List.map (call_id draws) l).
Proof.
  induction l as [| i l IH]; simpl; intros Hnd; [constructor |].
  inversion Hnd as [| ? ? Hfresh Hrest]; subst.
  constructor; [| now apply IH].
  intros Hin. apply in_map_iff in Hin as (j & Hj & Hin).
  apply Hfresh. apply in_map_iff. exists j. split; [| exact Hin].
  unfold call_id in Hj. now injection Hj.
Qed.

(** C3, as the code has it. For a turn with at least one function-call
    part the converter pushes one assistant message, whose body is the
    non-empty texts of the turn joined with newline, or null (never the empty
    string) when there is none, and which carries one invocation record per
    function-call part, in order, with the name, the arguments serialized as
    JSON and an identifier made of [call_] and nine characters of a fresh
    random draw; then one tool-result message per function-response part.
    Every identifier of a request is made from a draw of its own, so the
    identifiers are pairwise distinct whenever these draws differ in the
    characters that are kept; nothing else makes them distinct. *)
Theorem tool_turn_messages (draws : nat -> string) (c : Content) (k : nat) :
  functionCalls_of (parts c) <> [] ->
  exists body,
    fst (convertContent draws c k)
    = AssistantToolCalls body
        (List.map (invocation draws) (numbered k (functionCalls_of (parts c))))
      :: List.map (tool_result draws)
           (numbered (k + List.length (functionCalls_of (parts c)))
                     (functionResponses_of (parts c))) /\
    body = match truthy_texts (parts c) with
           | [] => None
           | texts => Some (join newline texts)
           end /\
    body <> Some "" /\
    (forall (cs : list Content) (k0 : nat),
       exists d,
         snd (convertContentsToMessages draws cs k0) = k0 + d /\
         message_ids (fst (convertContentsToMessages draws cs k0))
         = List.map (call_id draws) (seq k0 d) /\
         (NoDup (List.map (fun i => substr 2 9 (draws i)) (seq k0 d)) ->
          NoDup (message_ids (fst (convertContentsToMessages draws cs k0))))).
Proof.
  intros Hcalls.
  exists (or_null (join newline (truthy_texts (parts c)))).
  rewrite (convertContent_tool_turn draws c k Hcalls). cbn [fst].
  repeat apply conj.
  - reflexivity.
  - apply body_or_null.
  - unfold or_null. destruct (join newline (truthy_texts (parts c))); discriminate.
  - intros cs k0.
    destruct (convertContentsToMessages_ids draws cs k0) as (d & Hk & Hids).
    exists d. repeat apply conj; try assumption.
    intros Hnd. rewrite Hids. now apply call_id_distinct.
Qed.

(** The tool turn of the specification, with its single call. *)
Lemma tool_turn_messages_witness :
  exists body,
    fst (convertContent varying_draws lookup_turn 0)
    = [AssistantToolCalls body
         [ {| tc_id := "call_4fzyo82mv"; tc_type := "function";
              tc_function := {| tf_name := "lookup"; tf_arguments := q_x |} |} ]] /\
    body = None /\
    body <> Some "" /\
    (forall (cs : list Content) (k0 : nat),
       exists d,
         snd (convertContentsToMessages varying_draws cs k0) = k0 + d /\
         message_ids (fst (convertContentsToMessages varying_draws cs k0))
         = List.map (call_id varying_draws) (seq k0 d) /\
         (NoDup (List.map (fun i => substr 2 9 (varying_draws i)) (seq k0 d)) ->
          NoDup (message_ids (fst (convertContentsToMessages varying_draws cs k0))))).
Proof.
  apply (tool_turn_messages varying_draws lookup_turn 0).
  discriminate.
Defined.

(** C3, as the specification words it, fails on the identifiers: with a
    random source that repeats a draw, the two invocation records of a turn
    get the same identifier. *)
Lemma tool_turn_claim_fails :
  ~ tool_turn_claim busy_turn (fst (convertContent constant_draws busy_turn 0)).
Proof.
  intros (body & calls & results & Hmsgs & _ & _ & Hnd & _).
  vm_compute in Hmsgs. injection Hmsgs as _ <- _.
  simpl in Hnd. inversion Hnd as [| ? ? Hfresh _]; subst.
  apply Hfresh. left. reflexivity.
Qed.

(** With draws that differ, the same turn gives what the claim says. *)
Lemma tool_turn_claim_holds :
  tool_turn_claim busy_turn (fst (convertContent varying_draws busy_turn 0)).
Proof.
  eexists. eexists. eexists.
  split; [reflexivity |]. simpl.
  split; [reflexivity |].
  split; [repeat constructor |].
  split.
  - repeat constructor; simpl; intuition discriminate.
  - repeat constructor. eexists. reflexivity.
Qed.

(** The messages that both entry points hand to the backend. *)
Lemma createParams_messages (draws : nat -> string)
  (request : GenerateContentParameters) (streaming : bool) (k : nat) :
  p_messages (fst (createParams draws request streaming k))
  = addSystemInstruction (config request)
      (fst (convertContentsToMessages draws (contents request) k)).
Proof.
  unfold createParams, rbind, ret.
  now destruct (convertContentsToMessages draws (contents request) k).
Qed.

(** C4, as the code has it. For a request whose configuration carries a
    system instruction, the text of the instruction is the string itself, or
    the non-empty texts of its parts joined with newline. When that text is
    not empty, the messages that generateContent and generateContentStream
    hand to the backend are the system message with that text, followed by
    the messages converted from the contents, whatever system turns these
    hold. When it is empty no system message is added. *)
Theorem system_instruction_first (draws : nat -> string) (client : Client)
  (request : GenerateContentParameters) (k : nat)
  (cfg : GenerateContentConfig) (si : SystemInstruction) :
  config request = Some cfg ->
  systemInstruction cfg = Some si ->
  let converted := fst (convertContentsToMessages draws (contents request) k) in
  let handed (streaming : bool) :=
    p_messages (fst (createParams draws request streaming k)) in
  (systemContent_of si <> "" ->
   handed false = Message "system" (systemContent_of si) :: converted /\
   handed true = Message "system" (systemContent_of si) :: converted) /\
  (systemContent_of si = "" -> handed false = converted /\ handed true = converted) /\
  fst (generateContent draws client request k)
  = rethrow_as_api_error
      (completion <- create client (fst (createParams draws request false k)) ;;
       convertOpenAIResponseToGenAI completion) /\
  fst (generateContentStream draws client request k)
  = match create_stream client (fst (createParams draws request true k)) with
    | Throw e => ([], Threw (ApiError e))
    | Ok stream => streamLoop (events stream) (failure stream) "" []
    end.
Proof.
  intros Hcfg Hsi converted handed. subst handed. cbv beta.
  rewrite !createParams_messages. fold converted.
  unfold addSystemInstruction. rewrite Hcfg, Hsi.
  repeat apply conj.
  - intros Hne. apply truthy_nonempty in Hne as Ht. rewrite Ht.
    assert (Hi : instruction_truthy si = true) by (destruct si; [exact Ht | reflexivity]).
    rewrite Hi. split; reflexivity.
  - intros Hempty. rewrite Hempty. simpl.
    destruct (instruction_truthy si); split; reflexivity.
  - apply StreamFacts.generateContent_run.
  - apply StreamFacts.generateContentStream_run.
Qed.

Lemma system_instruction_first_witness :
  p_messages (fst (createParams constant_draws (with_instruction polite_instruction)
                     false 0))
  = [Message "system" ("Be polite." ++ newline ++ "Be brief.");
     Message "system" "Be terse."; Message "user" "hello"] /\
  p_messages (fst (createParams constant_draws (with_instruction polite_instruction)
                     true 0))
  = [Message "system" ("Be polite." ++ newline ++ "Be brief.");
     Message "system" "Be terse."; Message "user" "hello"].
Proof.
  apply (proj1 (system_instruction_first constant_draws (answering silent_completion)
                  (with_instruction polite_instruction) 0 _ polite_instruction
                  eq_refl eq_refl)).
  discriminate.
Defined.

(** C4, as the specification words it, fails: the configuration carries a
    system instruction whose only text is empty, and the first message handed
    to the backend, with and without streaming, is the one of the first
    content turn. *)
Lemma system_first_claim_fails :
  ~ system_first_claim (hello_with blank_instruction)
      (p_messages (fst (createParams constant_draws
                          (hello_with blank_instruction) false 0))) /\
  ~ system_first_claim (hello_with blank_instruction)
      (p_messages (fst (createParams constant_draws
                          (hello_with blank_instruction) true 0))) /\
  p_messages (fst (createParams constant_draws
                     (hello_with blank_instruction) false 0))
  = [Message "user" "hello"].
Proof.
  repeat apply conj.
  - intros Hclaim. destruct (Hclaim _ _ eq_refl eq_refl) as (body & rest & Hm).
    vm_compute in Hm. discriminate Hm.
  - intros Hclaim. destruct (Hclaim _ _ eq_refl eq_refl) as (body & rest & Hm).
    vm_compute in Hm. discriminate Hm.
  - reflexivity.
Qed.

End ConverterFacts.

(* ===================================================================== *)
(** ** Further properties of the converters *)
(* ===================================================================== *)

Module MessageFacts.

Import Js Adapter Notions Examples Observations MoreExamples JsFacts ConverterFacts.

Lemma mapRole_backend (r : string) : backend_role (mapRole r).
Proof.
  unfold mapRole, backend_role.
  destruct (String.eqb_spec r "model"); [auto |].
  destruct (String.eqb_spec r "user"); [auto |].
  destruct (String.eqb_spec r "system"); [auto |].
  destruct (String.eqb_spec r "assistant"); simpl; auto.
Qed.

(** The messages and the counter of any turn, by the calls and the
    responses it holds. *)
Lemma convertContent_cases (draws : nat -> string) (c : Content) (k : nat) :
  convertContent draws c k
  = match functionCalls_of (parts c), functionResponses_of (parts c) with
    | [], [] =>
        ([Message (mapRole (role c))
            (join newline (filter truthy (List.map part_text (parts c))))], k)
    | [], frs => (List.map (tool_result draws) (numbered k frs), k + List.length frs)
    | fcs, frs =>
        (AssistantToolCalls (or_null (join newline (truthy_texts (parts c))))
           (List.map (invocation draws) (numbered k fcs))
         :: List.map (tool_result draws) (numbered (k + List.length fcs) frs),
         k + List.length fcs + List.length frs)
    end.
Proof.
  destruct (functionCalls_of (parts c)) as [| fc fcs] eqn:Hfcs.
  - destruct (functionResponses_of (parts c)) as [| fr frs] eqn:Hfrs.
    + unfold convertContent. now rewrite (not_tool_turn _ Hfcs Hfrs).
    + unfold convertContent. cbv zeta.
      assert (Htool : functionCalls_of (parts c) <> []
                      \/ functionResponses_of (parts c) <> [])
        by (right; congruence).
      rewrite (is_tool_turn _ Htool), Hfcs, Hfrs.
      change (0 <? List.length (@nil FunctionCall)) with false.
      change (0 <? List.length (fr :: frs)) with true. cbv iota.
      unfold rbind, ret. now rewrite mapM_toolResult.
  - rewrite convertContent_tool_turn by congruence. now rewrite Hfcs.
Qed.

(** A turn with function responses and no function call gives the
    tool-result messages of its responses and nothing else: its texts and its
    role are in no message. *)
Theorem response_turn_messages (draws : nat -> string) (c : Content) (k : nat) :
  functionCalls_of (parts c) = [] ->
  functionResponses_of (parts c) <> [] ->
  fst (convertContent draws c k)
  = List.map (tool_result draws) (numbered k (functionResponses_of (parts c))) /\
  List.length (fst (convertContent draws c k))
  = List.length (functionResponses_of (parts c)) /\
  Forall (fun m => exists id payload, m = ToolResult id payload)
         (fst (convertContent draws c k)).
Proof.
  intros Hfcs Hfrs. rewrite convertContent_cases, Hfcs.
  destruct (functionResponses_of (parts c)) as [| fr frs]; [congruence |].
  cbn [fst]. repeat apply conj.
  - reflexivity.
  - unfold numbered. now rewrite List.length_map, List.length_combine, List.length_seq,
      Nat.min_id.
  - apply Forall_forall. intros m Hin.
    apply in_map_iff in Hin as (ifr & <- & _). unfold tool_result. eauto.
Qed.

Lemma response_turn_messages_witness :
  fst (convertContent varying_draws answer_turn 0)
  = List.map (tool_result varying_draws)
      (numbered 0 (functionResponses_of (parts answer_turn))) /\
  List.length (fst (convertContent varying_draws answer_turn 0))
  = List.length (functionResponses_of (parts answer_turn)) /\
  Forall (fun m => exists id payload, m = ToolResult id payload)
         (fst (convertContent varying_draws answer_turn 0)).
Proof.
  apply (response_turn_messages varying_draws answer_turn 0).
  - reflexivity.
  - discriminate.
Defined.

Lemma convertContent_well_formed (draws : nat -> string) (c : Content) (k : nat) :
  Forall well_formed_message (fst (convertContent draws c k)).
Proof.
  rewrite convertContent_cases.
  destruct (functionCalls_of (parts c)) as [| fc fcs].
  - destruct (functionResponses_of (parts c)) as [| fr frs]; cbn [fst].
    + constructor; [apply mapRole_backend | constructor].
    + apply Forall_forall. intros m Hin.
      apply in_map_iff in Hin as (ifr & <- & _). exact I.
  - cbn [fst]. constructor.
    + repeat apply conj.
      * discriminate.
      * unfold or_null.
        destruct (join newline (truthy_texts (parts c))); discriminate.
      * apply Forall_forall. intros tc Hin.
        apply in_map_iff in Hin as (ifc & <- & _). reflexivity.
    + apply Forall_forall. intros m Hin.
      apply in_map_iff in Hin as (ifr & <- & _). exact I.
Qed.

(** Every message that the converter emits is well formed: a plain
    message has one of the roles user, system and assistant, whatever the
    role of the turn; an assistant message with tool calls has at least one
    call, each of type [function], and a body that is not the empty
    string. *)
Theorem messages_well_formed (draws : nat -> string) (cs : list Content) (k : nat) :
  Forall well_formed_message (fst (convertContentsToMessages draws cs k)).
Proof.
  revert k. induction cs as [| c cs IH]; intros k; [constructor |].
  cbn [convertContentsToMessages]. unfold rbind, ret.
  pose proof (convertContent_well_formed draws c k) as Hc.
  destruct (convertContent draws c k) as [pushed k1].
  specialize (IH k1).
  destruct (convertContentsToMessages draws cs k1) as [more k2].
  cbn [fst] in *. apply Forall_app. split; assumption.
Qed.

(** Converting a conversation in two pieces, the second from the counter
    that the first leaves, gives the messages of the whole, in order. *)
Theorem convertContentsToMessages_app (draws : nat -> string)
  (cs1 cs2 : list Content) (k : nat) :
  convertContentsToMessages draws (cs1 ++ cs2) k
  = (fst (convertContentsToMessages draws cs1 k)
     ++ fst (convertContentsToMessages draws cs2
               (snd (convertContentsToMessages draws cs1 k))),
     snd (convertContentsToMessages draws cs2
            (snd (convertContentsToMessages draws cs1 k))))%list.
Proof.
  revert k. induction cs1 as [| c cs1 IH]; intros k.
  - cbn [app convertContentsToMessages ret fst snd].
    now destruct (convertContentsToMessages draws cs2 k).
  - cbn [app convertContentsToMessages]. unfold rbind, ret.
    destruct (convertContent draws c k) as [pushed k1].
    rewrite IH.
    destruct (convertContentsToMessages draws cs1 k1) as [m1 k2]. cbn [fst snd].
    now rewrite List.app_assoc.
Qed.

Lemma length_numbered {A : Type} (k : nat) (l : list A) :
  List.length (numbered k l) = List.length l.
Proof.
  unfold numbered. now rewrite List.length_combine, List.length_seq, Nat.min_id.
Qed.

(** The number of messages is the sum over the turns: one for a turn
    without call and response; otherwise one per response, and one more when
    the turn has a call. The counter advances by one per call and per
    response. *)
Theorem messages_count (draws : nat -> string) (cs : list Content) (k : nat) :
  List.length (fst (convertContentsToMessages draws cs k))
  = list_sum (List.map turn_messages cs) /\
  snd (convertContentsToMessages draws cs k)
  = k + list_sum (List.map turn_draws cs).
Proof.
  revert k. induction cs as [| c cs IH]; intros k.
  - simpl. split; [reflexivity | lia].
  - cbn [convertContentsToMessages]. unfold rbind, ret.
    assert (Hc : List.length (fst (convertContent draws c k)) = turn_messages c /\
                 snd (convertContent draws c k) = k + turn_draws c).
    { rewrite convertContent_cases. unfold turn_messages, turn_draws.
      destruct (functionCalls_of (parts c)) as [| fc fcs];
        destruct (functionResponses_of (parts c)) as [| fr frs];
        cbn [fst snd]; rewrite ?List.length_map; cbn [List.length];
          rewrite ?List.length_map, ?length_numbered;
          cbn [List.length]; split; lia. }
    destruct (convertContent draws c k) as [pushed k1]. cbn [fst snd] in Hc.
    destruct Hc as [Hlen Hk1].
    destruct (IH k1) as [IHlen IHk].
    destruct (convertContentsToMessages draws cs k1) as [more k2].
    cbn [fst snd] in *. rewrite List.length_app. simpl. split; lia.
Qed.

Lemma count_ids (msgs : list ChatCompletionMessageParam) (id : string) :
  count_occ string_dec (message_ids msgs) id
  = count_occ string_dec (invocation_ids msgs) id
    + count_occ string_dec (result_ids msgs) id.
Proof.
  induction msgs as [| m msgs IH]; [reflexivity |].
  unfold message_ids, invocation_ids, result_ids in *. cbn [flat_map].
  rewrite !count_occ_app, IH.
  destruct m as [r body | body calls | rid payload]; cbn [count_occ]; lia.
Qed.

(** The identifier of a tool-result message is drawn anew, not taken from
    a call: when the draws of a request differ in the characters that are
    kept, no tool-result message carries the identifier of any invocation
    record of the request. *)
Theorem results_never_match_invocations (draws : nat -> string)
  (cs : list Content) (k : nat) :
  NoDup (List.map (fun i => substr 2 9 (draws i))
           (seq k (snd (convertContentsToMessages draws cs k) - k))) ->
  forall id,
    In id (result_ids (fst (convertContentsToMessages draws cs k))) ->
    ~ In id (invocation_ids (fst (convertContentsToMessages draws cs k))).
Proof.
  intros Hnd id Hres Hinv.
  destruct (convertContentsToMessages_ids draws cs k) as (d & Hk & Hids).
  rewrite Hk in Hnd. replace (k + d - k) with d in Hnd by lia.
  apply call_id_distinct in Hnd. rewrite <- Hids in Hnd.
  rewrite (NoDup_count_occ string_dec) in Hnd. specialize (Hnd id).
  rewrite count_ids in Hnd.
  apply (count_occ_In string_dec) in Hres.
  apply (count_occ_In string_dec) in Hinv. lia.
Qed.

Lemma results_never_match_invocations_witness :
  result_ids (fst (convertContentsToMessages varying_draws [busy_turn] 0))
  = ["call_p8w1tt3hs"] /\
  (In "call_p8w1tt3hs"
      (invocation_ids (fst (convertContentsToMessages varying_draws [busy_turn] 0)))
   -> False).
Proof.
  split; [reflexivity |].
  apply (results_never_match_invocations varying_draws [busy_turn] 0).
  - repeat constructor; simpl; intuition discriminate.
  - left. reflexivity.
Defined.

Lemma numbered_map {A B : Type} (f : A -> B) (l : list A) :
  forall k, numbered k (List.map f l)
            = List.map (fun ia => (fst ia, f (snd ia))) (numbered k l).
Proof.
  unfold numbered. induction l as [| a l IH]; intros k; simpl; [reflexivity |].
  now rewrite IH.
Qed.

Lemma forget_texts (ps : list Part) :
  truthy_texts (List.map forget_part ps) = truthy_texts ps.
Proof.
  unfold truthy_texts. induction ps as [| p ps IH]; simpl; [reflexivity |].
  now rewrite IH.
Qed.

Lemma forget_part_texts (ps : list Part) :
  List.map part_text (List.map forget_part ps) = List.map part_text ps.
Proof. rewrite List.map_map. now apply List.map_ext. Qed.

Lemma forget_calls (ps : list Part) :
  functionCalls_of (List.map forget_part ps)
  = List.map (fun fc => {| fc_name := fc_name fc; fc_args := fc_args fc;
                           fc_id := None |})
             (functionCalls_of ps).
Proof.
  unfold functionCalls_of. induction ps as [| p ps IH]; simpl; [reflexivity |].
  rewrite IH. now destruct (functionCall p).
Qed.

Lemma forget_responses (ps : list Part) :
  functionResponses_of (List.map forget_part ps)
  = List.map (fun fr => {| fr_name := ""; fr_response := fr_response fr;
                           fr_id := None |})
             (functionResponses_of ps).
Proof.
  unfold functionResponses_of. induction ps as [| p ps IH]; simpl; [reflexivity |].
  rewrite IH. now destruct (functionResponse p).
Qed.

Lemma forget_invocations (draws : nat -> string) (fcs : list FunctionCall) (k : nat) :
  List.map (invocation draws)
    (numbered k (List.map (fun fc => {| fc_name := fc_name fc; fc_args := fc_args fc;
                                        fc_id := None |}) fcs))
  = List.map (invocation draws) (numbered k fcs).
Proof. rewrite numbered_map, List.map_map. now apply List.map_ext. Qed.

Lemma forget_results (draws : nat -> string) (frs : list FunctionResponse) (k : nat) :
  List.map (tool_result draws)
    (numbered k (List.map (fun fr => {| fr_name := ""; fr_response := fr_response fr;
                                        fr_id := None |}) frs))
  = List.map (tool_result draws) (numbered k frs).
Proof. rewrite numbered_map, List.map_map. now apply List.map_ext. Qed.

Lemma convertContent_forget (draws : nat -> string) (c : Content) (k : nat) :
  convertContent draws (forget c) k = convertContent draws c k.
Proof.
  rewrite !convertContent_cases. unfold forget. cbn [parts role].
  rewrite forget_texts, forget_part_texts, forget_calls, forget_responses.
  pose proof (forget_invocations draws (functionCalls_of (parts c))) as Hi.
  pose proof (forget_results draws (functionResponses_of (parts c))) as Hr.
  destruct (functionCalls_of (parts c)) as [| fc fcs];
    destruct (functionResponses_of (parts c)) as [| fr frs];
    try reflexivity.
  - cbn [List.map] in *. now rewrite Hr, !List.length_cons, List.length_map.
  - cbn [List.map] in *. now rewrite Hi, !List.length_cons, List.length_map.
  - cbn [List.map] in *.
    rewrite !List.length_cons, !List.length_map, Hi.
    specialize (Hr (k + S (List.length fcs))). now rewrite Hr.
Qed.

(** The converter does not read the identifier of a function call, the
    identifier and the name of a function response, the file data or the
    thought of a part: without them the messages and the identifiers drawn
    are the same. *)
Theorem converter_ignores_ids (draws : nat -> string) (cs : list Content) (k : nat) :
  convertContentsToMessages draws (List.map forget cs) k
  = convertContentsToMessages draws cs k.
Proof.
  revert k. induction cs as [| c cs IH]; intros k; [reflexivity |].
  cbn [List.map convertContentsToMessages]. unfold rbind.
  rewrite convertContent_forget.
  destruct (convertContent draws c k) as [pushed k1]. now rewrite IH.
Qed.

End MessageFacts.

Module ToolFacts.

Import Js Adapter Notions Examples Observations JsFacts.

(** The tool list is flattened: one backend tool of type [function] per
    function declaration, in the order of the tools and, inside a tool, of
    its declarations, with the name and the description of the declaration
    and its parameters converted, absent when the declaration has none. A
    tool without declaration gives nothing, and the conversion of two lists
    put together is the two conversions put together. *)
Theorem convertTools_flat (ts more : list Tool) :
  Forall2 made_from (declarations ts) (convertToolsToOpenAI ts) /\
  List.length (convertToolsToOpenAI ts)
  = list_sum (List.map (fun t => List.length (functionDeclarations t)) ts) /\
  convertToolsToOpenAI (ts ++ more)
  = (convertToolsToOpenAI ts ++ convertToolsToOpenAI more)%list.
Proof.
  repeat apply conj.
  - unfold declarations, convertToolsToOpenAI.
    induction ts as [| t ts IH]; cbn [flat_map]; [constructor |].
    apply Forall2_app; [| exact IH].
    induction (functionDeclarations t) as [| d ds IHd]; cbn [List.map];
      constructor; [| exact IHd].
    unfold made_from. cbn. repeat split.
  - unfold convertToolsToOpenAI. rewrite List.length_flat_map.
    f_equal. apply List.map_ext. intros t. now rewrite List.length_map.
  - apply List.flat_map_app.
Qed.

Lemma lower_char_idempotent (c : ascii) : lower_char (lower_char c) = lower_char c.
Proof.
  destruct c as [[] [] [] [] [] [] [] []]; reflexivity.
Qed.

Lemma toLowerCase_idempotent (s : string) : toLowerCase (toLowerCase s) = toLowerCase s.
Proof.
  induction s as [| c s IH]; simpl; [reflexivity |].
  now rewrite lower_char_idempotent, IH.
Qed.

(** Induction on a schema, with the hypothesis for the schemas of its
    properties, for its items and for its alternatives. *)
Lemma schema_induction (P : SchemaUnion -> Prop) :
  (forall ty props items req en desc anyof dflt ext,
     (forall ps, props = Some ps -> Forall (fun kv => P (snd kv)) ps) ->
     (forall it, items = Some it -> P it) ->
     (forall l, anyof = Some l -> Forall P l) ->
     P (mkSchema ty props items req en desc anyof dflt ext)) ->
  forall schema, P schema.
Proof.
  intros Hstep. fix IH 1.
  intros [ty props items req en desc anyof dflt ext]. apply Hstep.
  - destruct props as [ps0 |]; intros ps [= <-].
    induction ps0 as [| [key v] ps0 IHps]; constructor; [apply IH | exact IHps].
  - destruct items as [it0 |]; intros it [= <-]. apply IH.
  - destruct anyof as [l0 |]; intros l [= <-].
    induction l0 as [| v l0 IHl]; constructor; [apply IH | exact IHl].
Qed.

Lemma fill_documented (ps : list (string * SchemaUnion)) :
  Forall (fun kv => convertSchemaToOpenAI (documented (snd kv))
                    = convertSchemaToOpenAI (snd kv)) ps ->
  forall obj,
    fold_left (fun converted kv =>
                 obj_set (fst kv) (convertSchemaToOpenAI (snd kv)) converted)
              (List.map (fun kv => (fst kv, documented (snd kv))) ps) obj
    = fold_left (fun converted kv =>
                   obj_set (fst kv) (convertSchemaToOpenAI (snd kv)) converted)
                ps obj.
Proof.
  induction 1 as [| kv ps Hkv _ IH]; intros obj; [reflexivity |].
  cbn [List.map fold_left fst snd]. now rewrite Hkv, IH.
Qed.

(** The conversion reads the documented fields only: [anyOf], [default]
    and the keys of the index signature never reach the result, at any depth
    of the properties and the items. *)
Theorem convertSchema_ignores_undocumented (schema : SchemaUnion) :
  convertSchemaToOpenAI (documented schema) = convertSchemaToOpenAI schema.
Proof.
  induction schema as [ty props items req en desc anyof dflt ext Hprops Hitems _]
    using schema_induction.
  cbn [convertSchemaToOpenAI documented schema_type schema_properties schema_items
       schema_required schema_enum schema_description].
  f_equal.
  - destruct props as [ps |]; [| reflexivity].
    f_equal. apply fill_documented. now apply Hprops.
  - destruct items as [it |]; [| reflexivity].
    f_equal. now apply Hitems.
Qed.

Lemma obj_set_values {A : Type} (Q : A -> Prop) (key : string) (value : A)
  (obj : list (string * A)) :
  Forall (fun kv => Q (snd kv)) obj -> Q value ->
  Forall (fun kv => Q (snd kv)) (obj_set key value obj).
Proof.
  intros Hobj Hv. unfold obj_set.
  destruct (String.eqb key "__proto__"); [exact Hobj |].
  induction Hobj as [| [k v] obj Hkv Hrest IH]; simpl.
  - repeat constructor. exact Hv.
  - destruct (String.eqb key k); constructor; assumption.
Qed.

Lemma fill_values (Q : ConvertedSchema -> Prop) (ps : list (string * SchemaUnion)) :
  Forall (fun kv => Q (convertSchemaToOpenAI (snd kv))) ps ->
  forall obj,
    Forall (fun kv => Q (snd kv)) obj ->
    Forall (fun kv => Q (snd kv))
           (fold_left (fun converted kv =>
                         obj_set (fst kv) (convertSchemaToOpenAI (snd kv)) converted)
                      ps obj).
Proof.
  induction 1 as [| kv ps Hkv _ IH]; intros obj Hobj; [exact Hobj |].
  cbn [fold_left]. apply IH. now apply obj_set_values.
Qed.

(** Every type tag of a converted schema is in lower case, the one of the
    schema and the ones of its properties and items at every depth. *)
Theorem convertSchema_lowers_every_tag (schema : SchemaUnion) :
  Forall (fun tag => toLowerCase tag = tag) (type_tags (convertSchemaToOpenAI schema)).
Proof.
  induction schema as [ty props items req en desc anyof dflt ext Hprops Hitems _]
    using schema_induction.
  cbn [convertSchemaToOpenAI type_tags c_type c_properties c_items
       schema_type schema_properties schema_items].
  constructor; [apply toLowerCase_idempotent |].
  apply Forall_app. split.
  - destruct props as [ps |]; [| constructor].
    apply Forall_flat_map.
    apply (fill_values (fun c => Forall (fun tag => toLowerCase tag = tag) (type_tags c)));
      [now apply Hprops | constructor].
  - destruct items as [it |]; [| constructor]. now apply Hitems.
Qed.

End ToolFacts.

(* ===================================================================== *)
(** ** Further properties of the synthesis and of the stream *)
(* ===================================================================== *)

Module RunFacts.

Import Js Adapter Notions Examples Observations MoreExamples JsFacts StreamFacts.

(** The terminal snapshot, read back. *)
Lemma createStreamResponse_inv (acc : string) (frags : list ToolCallFragment)
  (r : GenerateContentResponse) :
  createStreamResponse acc true (Some frags) = Ok r ->
  exists calls, r = terminal_snapshot acc calls.
Proof.
  unfold createStreamResponse. intros Hr.
  destruct frags as [| frag frags].
  - simpl in Hr. injection Hr as <-. exists []. reflexivity.
  - change (0 <? List.length (frag :: frags)) with true in Hr. cbv iota in Hr.
    destruct (fragmentParts (frag :: frags)) as [pushed | e] eqn:Hpushed;
      [| discriminate].
    destruct (fragmentParts_inv _ _ Hpushed) as (calls & -> & _).
    simpl in Hr. injection Hr as <-. exists calls. reflexivity.
Qed.

Lemma terminal_text (acc : string) (calls : list FunctionCall) :
  snapshot_text (terminal_snapshot acc calls) = acc.
Proof.
  unfold snapshot_text, terminal_snapshot. cbn.
  destruct acc as [| c acc]; [| reflexivity].
  destruct calls; reflexivity.
Qed.

Lemma extends_refl (a : string) : extends a a.
Proof. exists "". now rewrite append_empty_r. Qed.

Lemma growing_text_snapshots (deltas : list string)
  (rest : list GenerateContentResponse) :
  forall acc,
    growing (accumulated acc deltas) rest ->
    growing acc (text_snapshots acc deltas ++ rest).
Proof.
  induction deltas as [| t deltas IH]; intros acc Hrest; [exact Hrest |].
  cbn [text_snapshots app growing]. split.
  - exists t. reflexivity.
  - apply IH. exact Hrest.
Qed.

Lemma streamLoop_growing (chunks : list ChatCompletionChunk) (ending : option JsError) :
  forall (acc : string) (frags : list ToolCallFragment),
    growing acc (fst (streamLoop chunks ending acc frags)).
Proof.
  induction chunks as [| chunk chunks IH]; intros acc frags; [exact I |].
  rewrite streamLoop_cons.
  destruct (has_finish chunk).
  - destruct (createStreamResponse (accumulated acc (chunk_text chunk)) true
                (Some (frags ++ chunk_fragments chunk)%list)) as [final | e] eqn:Hfinal.
    + cbn [fst]. apply growing_text_snapshots.
      destruct (createStreamResponse_inv _ _ _ Hfinal) as (calls & ->).
      cbn [growing]. rewrite terminal_text. split; [apply extends_refl | exact I].
    + cbn [fst]. rewrite <- (List.app_nil_r (text_snapshots _ _)).
      apply growing_text_snapshots. exact I.
  - specialize (IH (accumulated acc (chunk_text chunk))
                   (frags ++ chunk_fragments chunk)%list).
    destruct (streamLoop chunks ending (accumulated acc (chunk_text chunk))
                (frags ++ chunk_fragments chunk)%list) as [more outcome].
    cbn [fst] in *. now apply growing_text_snapshots.
Qed.

(** The accumulator never takes text back: in every run of
    generateContentStream the text of each snapshot is the text of the
    snapshot before it with something added at its end, the terminal snapshot
    included. *)
Theorem snapshots_grow (draws : nat -> string) (client : Client)
  (request : GenerateContentParameters) (k : nat) :
  growing "" (fst (fst (generateContentStream draws client request k))).
Proof.
  rewrite generateContentStream_run.
  destruct (create_stream client (fst (createParams draws request true k)))
    as [stream | e]; [| exact I].
  apply streamLoop_growing.
Qed.

Lemma streamLoop_shape (chunks : list ChatCompletionChunk) (ending : option JsError) :
  forall (acc : string) (frags : list ToolCallFragment),
  exists texts final,
    fst (streamLoop chunks ending acc frags) = (texts ++ final)%list /\
    Forall plain_text texts /\
    (final = [] \/
     exists text_ calls,
       final = [terminal_snapshot text_ calls] /\
       snd (streamLoop chunks ending acc frags) = Returned) /\
    (snd (streamLoop chunks ending acc frags) = Returned \/
     exists cause, snd (streamLoop chunks ending acc frags) = Threw (ApiError cause)).
Proof.
  induction chunks as [| chunk chunks IH]; intros acc frags.
  - exists [], []. cbn. repeat apply conj; [reflexivity | constructor | now left |].
    destruct ending; eauto.
  - rewrite streamLoop_cons.
    pose proof (text_snapshots_plain acc (chunk_text chunk)) as Htext.
    destruct (has_finish chunk).
    + destruct (createStreamResponse (accumulated acc (chunk_text chunk)) true
                  (Some (frags ++ chunk_fragments chunk)%list)) as [final | e] eqn:Hfinal.
      * destruct (createStreamResponse_inv _ _ _ Hfinal) as (calls & ->).
        exists (text_snapshots acc (chunk_text chunk)),
               [terminal_snapshot (accumulated acc (chunk_text chunk)) calls].
        cbn [fst snd]. repeat apply conj; eauto.
      * exists (text_snapshots acc (chunk_text chunk)), [].
        cbn [fst snd]. rewrite List.app_nil_r. repeat apply conj; eauto.
    + destruct (IH (accumulated acc (chunk_text chunk))
                   (frags ++ chunk_fragments chunk)%list)
        as (texts & final & Hrun & Hplain & Hfinal & Hout).
      destruct (streamLoop chunks ending (accumulated acc (chunk_text chunk))
                  (frags ++ chunk_fragments chunk)%list) as [more outcome].
      cbn [fst snd] in *. subst more.
      exists (text_snapshots acc (chunk_text chunk) ++ texts)%list, final.
      repeat apply conj; try assumption.
      * now rewrite List.app_assoc.
      * apply Forall_app. split; assumption.
Qed.

(** Every run of generateContentStream is a sequence of snapshots without
    finish reason and without function call, followed by at most one terminal
    snapshot, after which the generator returns; a run that does not return
    throws an error wrapped as an API error, never a bare one. *)
Theorem run_shape (draws : nat -> string) (client : Client)
  (request : GenerateContentParameters) (k : nat) :
  exists texts final,
    fst (fst (generateContentStream draws client request k)) = (texts ++ final)%list /\
    Forall plain_text texts /\
    (final = [] \/
     exists text_ calls,
       final = [terminal_snapshot text_ calls] /\
       snd (fst (generateContentStream draws client request k)) = Returned) /\
    (snd (fst (generateContentStream draws client request k)) = Returned \/
     exists cause,
       snd (fst (generateContentStream draws client request k))
       = Threw (ApiError cause)).
Proof.
  rewrite generateContentStream_run.
  destruct (create_stream client (fst (createParams draws request true k)))
    as [stream | e].
  - apply streamLoop_shape.
  - exists [], []. cbn. repeat apply conj; eauto.
Qed.

Lemma fragmentParts_typed (frags : list ToolCallFragment) :
  fragmentParts (filter is_function_fragment frags) = fragmentParts frags.
Proof.
  induction frags as [| frag frags IH]; [reflexivity |].
  cbn [filter fragmentParts].
  destruct (is_function_fragment frag) eqn:Hfrag; [| exact IH].
  cbn [fragmentParts]. rewrite Hfrag, IH. reflexivity.
Qed.

Lemma createStreamResponse_typed (acc : string) (frags : list ToolCallFragment) :
  createStreamResponse acc true (Some (filter is_function_fragment frags))
  = createStreamResponse acc true (Some frags).
Proof.
  unfold createStreamResponse.
  assert (Hparts : (if 0 <? List.length (filter is_function_fragment frags)
                    then fragmentParts (filter is_function_fragment frags)
                    else Ok [])
                   = (if 0 <? List.length frags then fragmentParts frags else Ok [])).
  { rewrite fragmentParts_typed.
    destruct frags as [| frag frags]; [reflexivity |].
    change (0 <? List.length (frag :: frags)) with true. cbv iota.
    destruct (filter is_function_fragment (frag :: frags)) as [| f fs] eqn:Hf.
    - rewrite <- fragmentParts_typed, Hf. reflexivity.
    - reflexivity. }
  now rewrite Hparts.
Qed.

Lemma typed_only_reads (chunk : ChatCompletionChunk) :
  has_finish (typed_only chunk) = has_finish chunk /\
  chunk_text (typed_only chunk) = chunk_text chunk /\
  chunk_fragments (typed_only chunk)
  = filter is_function_fragment (chunk_fragments chunk).
Proof.
  unfold has_finish, chunk_text, chunk_fragments, chunk_delta, first_choice, typed_only.
  cbn [chunk_choices].
  destruct (chunk_choices chunk) as [| choice rest]; cbn; [auto |].
  destruct (delta choice) as [d |]; cbn; [| auto].
  destruct (delta_tool_calls d); cbn; auto.
Qed.

Lemma streamLoop_typed (chunks : list ChatCompletionChunk) (ending : option JsError) :
  forall (acc : string) (frags : list ToolCallFragment),
    streamLoop (List.map typed_only chunks) ending acc
               (filter is_function_fragment frags)
    = streamLoop chunks ending acc frags.
Proof.
  induction chunks as [| chunk chunks IH]; intros acc frags; [reflexivity |].
  cbn [List.map]. rewrite !streamLoop_cons.
  destruct (typed_only_reads chunk) as (-> & -> & ->).
  rewrite <- List.filter_app, createStreamResponse_typed, IH. reflexivity.
Qed.

(** The fragments that are not of type [function] are never read: a
    backend that sends the same events without them gets the same run, so the
    arguments that arrive in the fragments after the first of a call reach no
    snapshot. *)
Theorem untyped_fragments_unread (draws : nat -> string) (client client' : Client)
  (request : GenerateContentParameters) (k : nat) (stream : Stream) :
  create_stream client (fst (createParams draws request true k)) = Ok stream ->
  create_stream client' (fst (createParams draws request true k))
  = Ok {| events := List.map typed_only (events stream); failure := failure stream |} ->
  fst (generateContentStream draws client' request k)
  = fst (generateContentStream draws client request k).
Proof.
  intros Hopen Hopen'.
  rewrite !generateContentStream_run, Hopen, Hopen'. cbn [events failure].
  apply (streamLoop_typed _ _ "" []).
Qed.

Lemma untyped_fragments_unread_witness :
  fst (generateContentStream constant_draws
         (streaming (List.map typed_only split_call_stream)) hello_request 0)
  = fst (generateContentStream constant_draws (streaming split_call_stream)
           hello_request 0).
Proof.
  apply (untyped_fragments_unread constant_draws (streaming split_call_stream)
           (streaming (List.map typed_only split_call_stream)) hello_request 0
           {| events := split_call_stream; failure := None |});
    reflexivity.
Defined.

(** generateContent never lets a bare error out: a rejection of the
    backend call comes out wrapped as an API error, every error that comes
    out is a wrapped one, and a result comes out only as the synthesis of the
    completion that the backend returned. *)
Theorem generateContent_outcomes (draws : nat -> string) (client : Client)
  (request : GenerateContentParameters) (k : nat) :
  (forall e,
     create client (fst (createParams draws request false k)) = Throw e ->
     fst (generateContent draws client request k) = Throw (ApiError e)) /\
  (forall e,
     fst (generateContent draws client request k) = Throw e ->
     exists cause, e = ApiError cause) /\
  (forall r,
     fst (generateContent draws client request k) = Ok r ->
     exists completion,
       create client (fst (createParams draws request false k)) = Ok completion /\
       convertOpenAIResponseToGenAI completion = Ok r).
Proof.
  rewrite generateContent_run.
  destruct (create client (fst (createParams draws request false k)))
    as [completion | e0]; cbn [bind rethrow_as_api_error].
  - repeat apply conj.
    + discriminate.
    + intros e He.
      destruct (convertOpenAIResponseToGenAI completion); [discriminate |].
      injection He as <-. eauto.
    + intros r Hr. exists completion. split; [reflexivity |].
      destruct (convertOpenAIResponseToGenAI completion); [| discriminate].
      now injection Hr as <-.
  - repeat apply conj.
    + now intros e [= <-].
    + intros e [= <-]. eauto.
    + discriminate.
Qed.

Lemma generateContent_outcomes_witness :
  fst (generateContent constant_draws (streaming text_stream) hello_request 0)
  = Throw (ApiError (BackendError "not a completion backend")) /\
  (exists cause,
     ApiError (SyntaxError "{") = ApiError cause) /\
  (exists completion,
     create (answering length_completion)
            (fst (createParams constant_draws hello_request false 0))
     = Ok completion /\
     convertOpenAIResponseToGenAI completion
     = convertOpenAIResponseToGenAI length_completion).
Proof.
  repeat apply conj.
  - apply (proj1 (generateContent_outcomes constant_draws (streaming text_stream)
                    hello_request 0)).
    reflexivity.
  - apply (proj1 (proj2 (generateContent_outcomes constant_draws
                           (answering malformed_call) hello_request 0))).
    reflexivity.
  - apply (proj2 (proj2 (generateContent_outcomes constant_draws
                           (answering length_completion) hello_request 0))).
    reflexivity.
Defined.

(** The synthesis gives at most one candidate: none exactly when the
    completion has no choice, and then without usage metadata even if the
    backend sent its counts; and the choices after the first change
    nothing. *)
Theorem synthesis_candidates (response : ChatCompletion) :
  (choices response = [] ->
   convertOpenAIResponseToGenAI response
   = Ok {| candidates := Some []; usageMetadata := None |}) /\
  (forall r,
     convertOpenAIResponseToGenAI response = Ok r ->
     List.length (candidates_of r) <= 1 /\
     (candidates_of r = [] <-> choices response = [])) /\
  (forall choice rest,
     choices response = choice :: rest ->
     convertOpenAIResponseToGenAI response
     = convertOpenAIResponseToGenAI {| choices := [choice]; usage := usage response |}).
Proof.
  unfold convertOpenAIResponseToGenAI.
  destruct (choices response) as [| choice rest]; repeat apply conj.
  - reflexivity.
  - intros r [= <-]. cbn. split; [lia | tauto].
  - discriminate.
  - discriminate.
  - intros r Hr.
    destruct (match msg_tool_calls (message choice) with
              | Some tcs => toolCallParts tcs
              | None => Ok []
              end) as [pushed | e]; [| discriminate].
    cbn in Hr. injection Hr as <-. cbn. split; [lia |].
    split; discriminate.
  - now intros c r [= <- <-].
Qed.

Lemma synthesis_candidates_witness :
  convertOpenAIResponseToGenAI
    {| choices := [];
       usage := Some {| prompt_tokens := 7%Z; completion_tokens := 0%Z;
                        total_tokens := 7%Z |} |}
  = Ok {| candidates := Some []; usageMetadata := None |} /\
  convertOpenAIResponseToGenAI
    {| choices := [lookup_choice; malformed_choice]; usage := None |}
  = convertOpenAIResponseToGenAI {| choices := [lookup_choice]; usage := None |}.
Proof.
  split.
  - apply (proj1 (synthesis_candidates
                    {| choices := [];
                       usage := Some {| prompt_tokens := 7%Z; completion_tokens := 0%Z;
                                        total_tokens := 7%Z |} |})).
    reflexivity.
  - apply (proj2 (proj2 (synthesis_candidates
                           {| choices := [lookup_choice; malformed_choice];
                              usage := None |})) lookup_choice [malformed_choice]).
    reflexivity.
Defined.

End RunFacts.

Module EstimateFacts.

Import Js Adapter Notions Spec Examples Observations JsFacts CountTokensFacts.

(** The estimate reads the parts only: the model, the roles and the
    grouping of the parts in turns do not change it. It is 0 exactly when no
    part has a character of text and there is at most one part; two parts
    without text already count one token, for the separator between them. *)
Theorem countTokens_reads_parts (request : CountTokensParameters) :
  (forall (m r : string),
     countTokens request
     = countTokens {| ct_model := m;
                      ct_contents := [ {| role := r; parts := all_parts request |} ] |}) /\
  (totalTokens (countTokens request) = Some 0 <->
   list_sum (List.map text_length (all_parts request)) = 0 /\
   List.length (all_parts request) <= 1).
Proof.
  split.
  - intros m r. unfold countTokens, all_parts. cbn [ct_contents flat_map parts].
    now rewrite List.app_nil_r.
  - rewrite countTokens_text. unfold ceil_div4.
    set (n := list_sum (List.map text_length (all_parts request))).
    set (p := List.length (all_parts request)).
    split.
    + intros Hz.
      assert (Hd : (n + (p - 1) + 3) / 4 = 0) by congruence.
      apply Nat.div_small_iff in Hd; lia.
    + intros [Hn Hp]. f_equal. apply Nat.div_small. lia.
Qed.

End EstimateFacts.

(* ===================================================================== *)
(** ** The probe, the embeddings, the helpers and the content generator *)
(* ===================================================================== *)

Module ProbeFacts.

Import Js Models ModelCheck Examples Observations.


End ProbeFacts.

Module EmbeddingFacts.

Import Js Models Adapter Embeddings MoreExamples.

(** The backend of embeddings is never asked with a model whose
    identifier lacks [embedding]: an identifier that has it is passed as it
    is, any other is replaced by the default embedding model. The input
    strings are passed as they are. *)
Theorem embedContent_model (request : EmbedContentParameters) :
  includes (e_model (embedParams request)) "embedding" = true /\
  (includes (embed_model request) "embedding" = true ->
   e_model (embedParams request) = embed_model request) /\
  (includes (embed_model request) "embedding" = false ->
   e_model (embedParams request) = DEFAULT_OPENAI_EMBEDDING_MODEL) /\
  e_input (embedParams request) = embed_contents request.
Proof.
  unfold embedParams. cbn [e_model e_input].
  destruct (includes (embed_model request) "embedding") eqn:Hinc;
    repeat apply conj; try reflexivity; try discriminate; auto.
Qed.

Lemma embedContent_model_witness :
  e_model (embedParams {| embed_model := "text-embedding-3-large";
                          embed_contents := ["a"] |})
  = "text-embedding-3-large" /\
  e_model (embedParams {| embed_model := "gpt-text"; embed_contents := ["a"] |})
  = "text-embedding-3-small".
Proof.
  split.
  - apply (proj1 (proj2 (embedContent_model
                           {| embed_model := "text-embedding-3-large";
                              embed_contents := ["a"] |}))).
    reflexivity.
  - apply (proj1 (proj2 (proj2 (embedContent_model
                                  {| embed_model := "gpt-text";
                                     embed_contents := ["a"] |})))).
    reflexivity.
Defined.

(** embedContent returns one vector per item that the backend returns,
    in the backend's order, whatever the number of input strings; a rejection
    of the backend comes out wrapped as an embeddings error. *)
Theorem embedContent_result (client : EmbeddingsClient) (request : EmbedContentParameters) :
  (forall response,
     embeddings_create client (embedParams request) = Ok response ->
     exists r,
       embedContent client request = EmbedOk r /\
       List.map values (embeddings r) = List.map embedding (response_data response) /\
       List.length (embeddings r) = List.length (response_data response)) /\
  (forall e,
     embeddings_create client (embedParams request) = Throw e ->
     embedContent client request = EmbeddingsError e).
Proof.
  unfold embedContent. split.
  - intros response ->. eexists. split; [reflexivity |]. cbn [embeddings].
    split; [| apply List.length_map].
    rewrite List.map_map. now apply List.map_ext.
  - now intros e ->.
Qed.

Lemma embedContent_result_witness :
  exists r,
    embedContent one_vector {| embed_model := "gpt-text";
                               embed_contents := ["a"; "b"; "c"] |} = EmbedOk r /\
    List.map values (embeddings r) = [[]] /\
    List.length (embeddings r) = 1.
Proof.
  apply (proj1 (embedContent_result one_vector
                  {| embed_model := "gpt-text"; embed_contents := ["a"; "b"; "c"] |})
           {| response_data := [ {| embedding := [] |} ] |}).
  reflexivity.
Defined.

End EmbeddingFacts.

Module HelperFacts.

Import Js Adapter Notions Examples Observations Helpers FunctionResponses
       JsFacts ConverterFacts MessageFacts.

(** A string made a user content comes out of the converter as the user
    message with that string, the empty one included, without a draw; a
    single part and the list with that part give the same content; and the
    estimate of the content is that of the string. *)
Theorem user_text_round_trip (draws : nat -> string) (s : string) (k : nat) :
  convertContentsToMessages draws [createUserContent (inr (stringToParts s))] k
  = ([Message "user" s], k) /\
  createUserContent (inl (text_part s)) = createUserContent (inr (stringToPartListUnion s)) /\
  totalTokens
    (countTokens {| ct_model := "";
                    ct_contents := [createUserContent (inr (stringToParts s))] |})
  = Some (ceil_div4 (String.length s)).
Proof.
  repeat apply conj.
  - cbn [convertContentsToMessages]. unfold rbind, ret.
    rewrite convertContent_cases. cbn.
    destruct s; reflexivity.
  - reflexivity.
  - unfold countTokens. cbn. now destruct s.
Qed.

Lemma isFunctionResponse_all (ps : list Part) :
  forallb (fun part => present (functionResponse part)) ps = true ->
  List.length (functionResponses_of ps) = List.length ps.
Proof.
  unfold functionResponses_of.
  induction ps as [| p ps IH]; simpl; [reflexivity |].
  destruct (functionResponse p); simpl; [| discriminate].
  intros Hall. now rewrite IH.
Qed.

(** isFunctionResponse holds exactly for a user turn all of whose parts
    carry a function response. Such a turn with at least one part and no
    function call is converted to one tool-result message per part and to no
    user message; the user turn without any part also passes the predicate,
    and is converted to one user message with an empty body. *)
Theorem isFunctionResponse_turns (draws : nat -> string) (c : Content) (k : nat) :
  (isFunctionResponse c = true <->
   role c = "user" /\ Forall (fun part => functionResponse part <> None) (parts c)) /\
  (isFunctionResponse c = true ->
   parts c <> [] ->
   functionCalls_of (parts c) = [] ->
   fst (convertContent draws c k)
   = List.map (tool_result draws) (numbered k (functionResponses_of (parts c))) /\
   List.length (fst (convertContent draws c k)) = List.length (parts c)) /\
  (role c = "user" ->
   parts c = [] ->
   isFunctionResponse c = true /\
   convertContent draws c k = ([Message "user" ""], k)).
Proof.
  split; [| split].
  - unfold isFunctionResponse. rewrite Bool.andb_true_iff, String.eqb_eq, forallb_forall,
      Forall_forall.
    split; intros [Hrole Hparts]; (split; [exact Hrole |]); intros part Hin;
      specialize (Hparts part Hin); destruct (functionResponse part); simpl in *;
        congruence.
  - unfold isFunctionResponse. intros His Hne Hcalls.
    apply Bool.andb_true_iff in His as [_ Hall].
    pose proof (isFunctionResponse_all _ Hall) as Hlen.
    rewrite convertContent_cases, Hcalls.
    destruct (functionResponses_of (parts c)) as [| fr frs].
    + destruct (parts c); [congruence | discriminate].
    + cbn [fst]. split; [reflexivity |].
      now rewrite List.length_map, length_numbered.
  - intros Hrole Hparts. unfold isFunctionResponse.
    rewrite convertContent_cases, Hrole, Hparts. split; reflexivity.
Qed.

Lemma isFunctionResponse_turns_witness :
  (fst (convertContent varying_draws
          {| role := "user"; parts := [response "lookup" (JObject [])] |} 0)
   = List.map (tool_result varying_draws)
       (numbered 0 (functionResponses_of [response "lookup" (JObject [])])) /\
   List.length (fst (convertContent varying_draws
                       {| role := "user"; parts := [response "lookup" (JObject [])] |} 0))
   = 1) /\
  (isFunctionResponse {| role := "user"; parts := [] |} = true /\
   convertContent varying_draws {| role := "user"; parts := [] |} 0
   = ([Message "user" ""], 0)).
Proof.
  split.
  - apply (proj1 (proj2 (isFunctionResponse_turns varying_draws
                           {| role := "user";
                              parts := [response "lookup" (JObject [])] |} 0)));
      [reflexivity | discriminate | reflexivity].
  - apply (proj2 (proj2 (isFunctionResponse_turns varying_draws
                           {| role := "user"; parts := [] |} 0)));
      reflexivity.
Defined.

End HelperFacts.

Module GeneratorFacts.

Import Js Models ModelCheck Adapter ContentGenerator Examples Observations MoreExamples.

(** The three ways the resolver ends. *)
Lemma resolve_cases (host : Host) (key m : string) :
  (m <> DEFAULT_OPENAI_MODEL /\ getEffectiveModel host key m = (Ok m, [])) \/
  (m = DEFAULT_OPENAI_MODEL /\
   exists trace,
     getEffectiveModel host key m = (Ok DEFAULT_OPENAI_MODEL, trace) /\
     probes trace = [probe_request host key]) \/
  (m = DEFAULT_OPENAI_MODEL /\
   exists trace,
     getEffectiveModel host key m = (Ok DEFAULT_OPENAI_FLASH_MODEL, trace) /\
     probes trace = [probe_request host key]).
Proof.
  unfold getEffectiveModel.
  destruct (String.eqb_spec m DEFAULT_OPENAI_MODEL) as [-> | Hne]; simpl; [| auto].
  right.
  destruct (fetch host (probe_request host key)) as [status | reason].
  - destruct (Z.eqb status 429); [right | left]; split; eauto.
  - left. split; eauto.
Qed.

Lemma requested_is (config_ : option RuntimeConfig) (model_ : option string) :
  requested_model config_ model_
  = (runtime <- call_getModel config_ ;;
     Ok match or_opt (or_opt runtime model_) (Some DEFAULT_OPENAI_MODEL) with
        | Some m => m
        | None => DEFAULT_OPENAI_MODEL
        end).
Proof.
  unfold requested_model, call_getModel, or_opt.
  destruct config_ as [[[[[| c r] | e] |]] |]; cbn;
    destruct model_ as [[| c' r'] |]; reflexivity.
Qed.

Lemma requested_nonempty (config_ : option RuntimeConfig) (model_ : option string) :
  requested_model config_ model_ <> Ok "".
Proof.
  unfold requested_model.
  destruct config_ as [[[[[| c r] | e] |]] |];
    destruct model_ as [[| c' r'] |]; discriminate.
Qed.

(** When [getModel] throws, its error is the outcome and nothing is sent. *)
Lemma requested_throw (host : Host) (process : Process) (model_ : option string)
  (authType : option AuthType) (config_ : option RuntimeConfig) (e : JsError) :
  requested_model config_ model_ = Throw e ->
  createContentGeneratorConfig host process model_ authType config_ = (Throw e, []).
Proof.
  rewrite requested_is. unfold createContentGeneratorConfig.
  destruct (call_getModel config_) as [runtime | e']; cbn; [discriminate |].
  now intros [= ->].
Qed.

Lemma authType_eqb_eq (a b : AuthType) : authType_eqb a b = true <-> a = b.
Proof. destruct a, b; cbn; split; intros H; congruence. Qed.

(** The configuration, by the branch that builds it. *)
Lemma config_cases (host : Host) (process : Process) (model_ : option string)
  (authType : option AuthType) (config_ : option RuntimeConfig) (requested : string) :
  requested_model config_ model_ = Ok requested ->
  let bare := {| cg_model := requested; cg_apiKey := None; cg_baseURL := None;
                 cg_vertexai := None; cg_authType := authType |} in
  let run := createContentGeneratorConfig host process model_ authType config_ in
  (run = (Ok bare, []) /\
   (authType = Some USE_OPENAI -> truthy_opt (OPENAI_API_KEY process) = false) /\
   (authType = Some USE_VERTEX_AI ->
    truthy_opt (GOOGLE_API_KEY process) && truthy_opt (GOOGLE_CLOUD_PROJECT process)
    && truthy_opt (GOOGLE_CLOUD_LOCATION process) = false)) \/
  (exists key,
     authType = Some USE_OPENAI /\ OPENAI_API_KEY process = Some key /\ key <> "" /\
     run = (m <- fst (getEffectiveModel host key requested) ;;
            Ok {| cg_model := m; cg_apiKey := Some key;
                  cg_baseURL := OPENAI_BASE_URL host;
                  cg_vertexai := None; cg_authType := authType |},
            snd (getEffectiveModel host key requested))) \/
  (exists key,
     authType = Some USE_VERTEX_AI /\ GOOGLE_API_KEY process = Some key /\ key <> "" /\
     truthy_opt (GOOGLE_CLOUD_PROJECT process) = true /\
     truthy_opt (GOOGLE_CLOUD_LOCATION process) = true /\
     run = (m <- fst (getEffectiveModel host key requested) ;;
            Ok {| cg_model := m; cg_apiKey := Some key;
                  cg_baseURL := None;
                  cg_vertexai := Some true; cg_authType := authType |},
            snd (getEffectiveModel host key requested))).
Proof.
  intros Hreq bare run. subst run bare.
  rewrite requested_is in Hreq.
  unfold createContentGeneratorConfig. cbv zeta.
  destruct (call_getModel config_) as [runtime | e]; cbn [bind] in Hreq;
    [| discriminate].
  injection Hreq as Hreq. rewrite Hreq.
  destruct authType as [[| |] |]; cbn [authType_eqb authType_value String.eqb
                                        Ascii.eqb Bool.eqb andb].
  - left. repeat split; discriminate.
  - destruct (OPENAI_API_KEY process) as [[| c key] |]; cbn [truthy_opt truthy andb].
    + left. repeat split; discriminate.
    + right. left. exists (String c key).
      repeat split; try discriminate.
      now destruct (getEffectiveModel host (String c key) requested).
    + left. repeat split; discriminate.
  - destruct (GOOGLE_API_KEY process) as [[| c key] |]; cbn [truthy_opt truthy andb].
    + left. repeat split; discriminate.
    + destruct (truthy_opt (GOOGLE_CLOUD_PROJECT process)) eqn:Hp; cbn [andb].
      * destruct (truthy_opt (GOOGLE_CLOUD_LOCATION process)) eqn:Hl.
        -- right. right. exists (String c key).
           repeat split; try discriminate.
           now destruct (getEffectiveModel host (String c key) requested).
        -- left. repeat split; discriminate.
      * left. repeat split; discriminate.
    + left. repeat split; discriminate.
  - left. repeat split; discriminate.
Qed.

(** createContentGeneratorConfig throws exactly when the call of getModel
    throws: then the error is the one of getModel, and nothing is sent.
    Otherwise it returns a configuration that keeps the auth type as given
    and whose model is never empty: it is the model asked for (the one that
    getModel returns, else the argument, else the primary model, an empty
    string counting as absent), or the fallback model when the primary model
    was asked for. *)
Theorem config_model (host : Host) (process : Process) (model_ : option string)
  (authType : option AuthType) (config_ : option RuntimeConfig) :
  let run := createContentGeneratorConfig host process model_ authType config_ in
  (forall e,
     fst run = Throw e <-> config_ = Some {| getModel := Some (Throw e) |}) /\
  (forall e,
     config_ = Some {| getModel := Some (Throw e) |} -> run = (Throw e, [])) /\
  (forall requested,
     requested_model config_ model_ = Ok requested ->
     exists c,
       fst run = Ok c /\
       cg_authType c = authType /\
       cg_model c <> "" /\
       (cg_model c = requested \/
        (requested = DEFAULT_OPENAI_MODEL /\
         cg_model c = DEFAULT_OPENAI_FLASH_MODEL))) /\
  (forall e, config_ = Some {| getModel := Some (Throw e) |} ->
             requested_model config_ model_ = Throw e) /\
  (forall r, config_ = Some {| getModel := Some (Ok r) |} -> r <> "" ->
             requested_model config_ model_ = Ok r) /\
  (forall m, (config_ = None \/ config_ = Some {| getModel := None |}
              \/ config_ = Some {| getModel := Some (Ok "") |}) ->
             model_ = Some m -> m <> "" ->
             requested_model config_ model_ = Ok m) /\
  ((config_ = None \/ config_ = Some {| getModel := None |}
    \/ config_ = Some {| getModel := Some (Ok "") |}) ->
   (model_ = None \/ model_ = Some "") ->
   requested_model config_ model_ = Ok DEFAULT_OPENAI_MODEL).
Proof.
  intros run. subst run.
  assert (Hreturns : forall requested,
     requested_model config_ model_ = Ok requested ->
     exists c,
       fst (createContentGeneratorConfig host process model_ authType config_) = Ok c /\
       cg_authType c = authType /\
       cg_model c <> "" /\
       (cg_model c = requested \/
        (requested = DEFAULT_OPENAI_MODEL /\
         cg_model c = DEFAULT_OPENAI_FLASH_MODEL))).
  { intros requested Hreq.
    assert (Hne : requested <> "").
    { intros ->. exact (requested_nonempty _ _ Hreq). }
    destruct (config_cases host process model_ authType config_ requested Hreq)
      as [(-> & _) | [(key & _ & _ & _ & ->) | (key & _ & _ & _ & _ & _ & ->)]].
    - eexists. split; [reflexivity |]. cbn. repeat apply conj; auto.
    - cbn [fst].
      destruct (resolve_cases host key requested)
        as [(_ & ->) | [(Hp & trace & -> & _) | (Hp & trace & -> & _)]];
        cbn; eexists; (split; [reflexivity |]); cbn;
          repeat apply conj; auto; try discriminate.
    - cbn [fst].
      destruct (resolve_cases host key requested)
        as [(_ & ->) | [(Hp & trace & -> & _) | (Hp & trace & -> & _)]];
        cbn; eexists; (split; [reflexivity |]); cbn;
          repeat apply conj; auto; try discriminate. }
  assert (Hthrows : forall e,
     config_ = Some {| getModel := Some (Throw e) |} ->
     requested_model config_ model_ = Throw e).
  { intros e ->. reflexivity. }
  repeat apply conj.
  - intros e. split.
    + intros Hrun.
      destruct (requested_model config_ model_) as [requested | e'] eqn:Hreq.
      * destruct (Hreturns requested eq_refl) as (c & Hc & _). congruence.
      * rewrite (requested_throw host process model_ authType config_ e' Hreq) in Hrun.
        cbn in Hrun. injection Hrun as ->.
        unfold requested_model in Hreq.
        destruct config_ as [[[[[| ch r] | e''] |]] |];
          destruct model_ as [[| ch' r'] |]; try discriminate Hreq;
            now injection Hreq as ->.
    + intros Hc. now rewrite (requested_throw _ _ _ _ _ e (Hthrows e Hc)).
  - intros e Hc. exact (requested_throw _ _ _ _ _ e (Hthrows e Hc)).
  - exact Hreturns.
  - exact Hthrows.
  - intros r -> Hr. destruct r; [congruence | reflexivity].
  - intros m Hc -> Hm. destruct m; [congruence |].
    destruct Hc as [-> | [-> | ->]]; reflexivity.
  - intros Hc Hm.
    destruct Hc as [-> | [-> | ->]]; destruct Hm as [-> | ->]; reflexivity.
Qed.

Lemma config_model_witness :
  createContentGeneratorConfig rate_limited_host openai_process (Some "gpt-4o")
    (Some USE_OPENAI) (Some broken_runtime)
  = (Throw (TypeError "settings are not loaded"), []) /\
  requested_model (Some {| getModel := Some (Ok "o3") |}) (Some "gpt-4o") = Ok "o3" /\
  requested_model (Some {| getModel := Some (Ok "") |}) (Some "gpt-4.1")
  = Ok "gpt-4.1".
Proof.
  repeat apply conj.
  - destruct (config_model rate_limited_host openai_process (Some "gpt-4o")
                (Some USE_OPENAI) (Some broken_runtime))
      as (_ & Hthrow & _).
    now apply Hthrow.
  - destruct (config_model rate_limited_host openai_process (Some "gpt-4o")
                (Some USE_OPENAI) (Some {| getModel := Some (Ok "o3") |}))
      as (_ & _ & _ & _ & Hruntime & _).
    apply Hruntime; [reflexivity | discriminate].
  - destruct (config_model rate_limited_host openai_process (Some "gpt-4.1")
                (Some USE_OPENAI) (Some {| getModel := Some (Ok "") |}))
      as (_ & _ & _ & _ & _ & Hargument & _).
    apply Hargument; [auto | reflexivity | discriminate].
Defined.

(** At most one probe is sent, and only with a key: with the key of
    OpenAI for the OpenAI auth types, with the key of Google when all three
    variables of Vertex AI are set, and only when the primary model is asked
    for. That key is the one stored in the configuration. Without auth type,
    with the personal login, or without the key of its auth type, nothing is
    sent, and the configuration holds the model asked for and no key, no base
    URL and no Vertex flag; when there is no model asked for, getModel having
    thrown, its error is the outcome. *)
Theorem config_probes (host : Host) (process : Process) (model_ : option string)
  (authType : option AuthType) (config_ : option RuntimeConfig) :
  let run := createContentGeneratorConfig host process model_ authType config_ in
  (probes (snd run) = [] \/
   exists key c,
     probes (snd run) = [probe_request host key] /\
     fst run = Ok c /\ cg_apiKey c = Some key /\ key <> "" /\
     requested_model config_ model_ = Ok DEFAULT_OPENAI_MODEL /\
     (authType = Some USE_OPENAI /\ OPENAI_API_KEY process = Some key \/
      authType = Some USE_VERTEX_AI /\ GOOGLE_API_KEY process = Some key)) /\
  ((authType = None \/ authType = Some LOGIN_WITH_GOOGLE_PERSONAL \/
    (authType = Some USE_GEMINI /\ truthy_opt (OPENAI_API_KEY process) = false)) ->
   run = (requested <- requested_model config_ model_ ;;
          Ok {| cg_model := requested; cg_apiKey := None;
                cg_baseURL := None; cg_vertexai := None; cg_authType := authType |},
          [])).
Proof.
  intros run. subst run.
  destruct (requested_model config_ model_) as [requested | e] eqn:Hreq.
  2:{ rewrite (requested_throw host process model_ authType config_ e Hreq).
      split; [now left | reflexivity]. }
  split.
  - destruct (config_cases host process model_ authType config_ requested Hreq)
      as [(-> & _) | [(key & Ha & Hk & Hne & ->) | (key & Ha & Hk & Hne & _ & _ & ->)]].
    + now left.
    + cbn [fst snd].
      destruct (resolve_cases host key requested)
        as [(_ & ->) | [(Hp & trace & -> & Hprobes) | (Hp & trace & -> & Hprobes)]];
        cbn [fst snd bind]; [now left | right | right];
          eexists; eexists; repeat apply conj; eauto; congruence.
    + cbn [fst snd].
      destruct (resolve_cases host key requested)
        as [(_ & ->) | [(Hp & trace & -> & Hprobes) | (Hp & trace & -> & Hprobes)]];
        cbn [fst snd bind]; [now left | right | right];
          eexists; eexists; repeat apply conj; eauto; congruence.
  - intros Hcase. cbn [bind].
    destruct (config_cases host process model_ authType config_ requested Hreq)
      as [(-> & _) | [(key & Ha & Hk & Hne & _) | (key & Ha & _)]];
      [reflexivity | |].
    + destruct Hcase as [-> | [-> | [_ Hkey]]]; try discriminate.
      rewrite Hk in Hkey. destruct key; [congruence | discriminate].
    + destruct Hcase as [-> | [-> | [Hg _]]]; try discriminate.
      rewrite Hg in Ha. discriminate.
Qed.

Lemma config_probes_witness :
  createContentGeneratorConfig rate_limited_host vertex_process (Some "gpt-4o")
    (Some USE_GEMINI) None
  = (Ok {| cg_model := "gpt-4o"; cg_apiKey := None; cg_baseURL := None;
           cg_vertexai := None; cg_authType := Some USE_OPENAI |}, []).
Proof.
  apply (proj2 (config_probes rate_limited_host vertex_process (Some "gpt-4o")
                  (Some USE_GEMINI) None)).
  right. right. split; reflexivity.
Defined.

(** With Vertex AI set up and the primary model asked for, the probe goes
    to the endpoint of OpenAI, the default one unless OPENAI_BASE_URL is set,
    with the key of Google as its bearer token. *)
Theorem vertex_probe (host : Host) (process : Process) (model_ : option string)
  (config_ : option RuntimeConfig) (key : string) :
  GOOGLE_API_KEY process = Some key -> key <> "" ->
  truthy_opt (GOOGLE_CLOUD_PROJECT process) = true ->
  truthy_opt (GOOGLE_CLOUD_LOCATION process) = true ->
  requested_model config_ model_ = Ok DEFAULT_OPENAI_MODEL ->
  let run := createContentGeneratorConfig host process model_ (Some USE_VERTEX_AI)
               config_ in
  probes (snd run) = [probe_request host key] /\
  In ("Authorization", "Bearer " ++ key) (headers (probe_request host key)) /\
  (truthy_opt (OPENAI_BASE_URL host) = false ->
   endpoint (probe_request host key) = "https://api.openai.com/v1/chat/completions") /\
  exists c,
    fst run = Ok c /\ cg_apiKey c = Some key /\ cg_vertexai c = Some true /\
    cg_baseURL c = None.
Proof.
  intros Hk Hne Hp Hl Hreq run. subst run.
  destruct (config_cases host process model_ (Some USE_VERTEX_AI) config_ _ Hreq)
    as [(_ & _ & Hoff) | [(key' & Ha & _) | (key' & _ & Hk' & _ & _ & _ & ->)]].
  - specialize (Hoff eq_refl). rewrite Hk, Hp, Hl in Hoff.
    destruct key; [congruence | discriminate].
  - discriminate.
  - rewrite Hk in Hk'. injection Hk' as <-. cbn [fst snd].
    repeat apply conj.
    + destruct (resolve_cases host key DEFAULT_OPENAI_MODEL)
        as [(Hn & _) | [(_ & trace & -> & Hprobes) | (_ & trace & -> & Hprobes)]];
        [congruence | exact Hprobes | exact Hprobes].
    + simpl. right. left. reflexivity.
    + intros Hbase. unfold probe_request. cbn [endpoint].
      destruct (OPENAI_BASE_URL host) as [[| c u] |]; try reflexivity.
      discriminate.
    + destruct (resolve_cases host key DEFAULT_OPENAI_MODEL)
        as [(Hn & _) | [(_ & trace & -> & _) | (_ & trace & -> & _)]];
        [congruence | |]; cbn; eexists; repeat split.
Qed.

Lemma vertex_probe_witness :
  probes (snd (createContentGeneratorConfig failing_host vertex_process None
                 (Some USE_VERTEX_AI) None))
  = [probe_request failing_host "AIza-test"] /\
  In ("Authorization", "Bearer AIza-test")
     (headers (probe_request failing_host "AIza-test")) /\
  (truthy_opt (OPENAI_BASE_URL failing_host) = false ->
   endpoint (probe_request failing_host "AIza-test")
   = "https://api.openai.com/v1/chat/completions") /\
  exists c,
    fst (createContentGeneratorConfig failing_host vertex_process None
           (Some USE_VERTEX_AI) None) = Ok c /\
    cg_apiKey c = Some "AIza-test" /\ cg_vertexai c = Some true /\
    cg_baseURL c = None.
Proof.
  apply (vertex_probe failing_host vertex_process None None "AIza-test");
    try reflexivity.
  discriminate.
Defined.

Lemma or_opt_same (a : option string) : or_opt a a = a.
Proof. unfold or_opt. now destruct (truthy_opt a). Qed.

Lemma or_opt_none (a : option string) : or_opt None a = a.
Proof. reflexivity. Qed.

(** The generator made from the configuration that
    createContentGeneratorConfig returns: none without auth type, the call
    throws; the one of the personal login for that auth type; for the OpenAI
    auth types the client constructed with the key and the base URL of the
    environment, whether or not the configuration took them; for Vertex AI
    the client constructed with the base URL of Google, and with the key of
    Google when the configuration holds it, else the key of OpenAI of the
    environment. The client is constructed once, with the header of the
    user agent; when its constructor throws, as it may for a missing key, the
    creation fails with that error. *)
Theorem generator_of_config {OpenAI : Type} (new_OpenAI : ClientOptions -> Result OpenAI)
  (host : Host) (process : Process)
  (model_ : option string) (authType : option AuthType)
  (config_ : option RuntimeConfig) (c : ContentGeneratorConfig) :
  fst (createContentGeneratorConfig host process model_ authType config_) = Ok c ->
  createContentGenerator new_OpenAI host process c
  = match authType with
    | None =>
        Unsupported "Error creating contentGenerator: Unsupported authType: undefined"
    | Some LOGIN_WITH_GOOGLE_PERSONAL =>
        CodeAssist (httpOptions_headers process) LOGIN_WITH_GOOGLE_PERSONAL
    | Some USE_OPENAI =>
        constructed
          (new_OpenAI {| apiKey := OPENAI_API_KEY process;
                         baseURL := OPENAI_BASE_URL host;
                         defaultHeaders := httpOptions_headers process |})
    | Some USE_VERTEX_AI =>
        constructed
          (new_OpenAI
             {| apiKey := or_opt (cg_apiKey c) (OPENAI_API_KEY process);
                baseURL := Some "https://generativelanguage.googleapis.com/v1beta";
                defaultHeaders := httpOptions_headers process |})
    end.
Proof.
  intros Hc.
  destruct (requested_model config_ model_) as [requested | e] eqn:Hreq.
  2:{ rewrite (requested_throw host process model_ authType config_ e Hreq) in Hc.
      discriminate Hc. }
  assert (Hshape :
    cg_authType c = authType /\
    (authType = Some USE_OPENAI ->
     (cg_apiKey c = None /\ cg_baseURL c = None
      /\ truthy_opt (OPENAI_API_KEY process) = false) \/
     (cg_apiKey c = OPENAI_API_KEY process /\ cg_baseURL c = OPENAI_BASE_URL host
      /\ truthy_opt (OPENAI_API_KEY process) = true)) /\
    (authType = Some USE_VERTEX_AI ->
     cg_baseURL c = None /\ (cg_apiKey c = None \/ truthy_opt (cg_apiKey c) = true))).
  { destruct (config_cases host process model_ authType config_ requested Hreq)
      as [(Hrun & Hoff & _) | [(key & Ha & Hk & Hne & Hrun)
                               | (key & Ha & Hk & Hne & _ & _ & Hrun)]];
      rewrite Hrun in Hc; cbn [fst] in Hc.
    - injection Hc as <-. cbn. split; [reflexivity |]. split.
      + intros Ha. left. auto.
      + intros _. auto.
    - destruct (fst (getEffectiveModel host key requested));
        [| discriminate].
      cbn in Hc. injection Hc as <-. subst authType. cbn. rewrite Hk.
      split; [reflexivity |]. split; [| discriminate].
      intros _. right. repeat split. destruct key; [congruence | reflexivity].
    - destruct (fst (getEffectiveModel host key requested));
        [| discriminate].
      cbn in Hc. injection Hc as <-. subst authType. cbn.
      split; [reflexivity |]. split; [discriminate |].
      intros _. split; [reflexivity |].
      right. destruct key; [congruence | reflexivity]. }
  destruct Hshape as (Hauth & Hopenai & Hvertex).
  unfold createContentGenerator. rewrite Hauth.
  destruct authType as [[| |] |]; cbn [authType_eqb authType_value String.eqb
                                        Ascii.eqb Bool.eqb andb].
  - reflexivity.
  - unfold OpenAIContentGenerator, constructed.
    assert (Hoptions :
      {| apiKey := or_opt (unless_empty (cg_apiKey c)) (OPENAI_API_KEY process);
         baseURL := or_opt (cg_baseURL c) (OPENAI_BASE_URL host);
         defaultHeaders := httpOptions_headers process |}
      = {| apiKey := OPENAI_API_KEY process;
           baseURL := OPENAI_BASE_URL host;
           defaultHeaders := httpOptions_headers process |}).
    { destruct (Hopenai eq_refl) as [(-> & -> & Hkey) | (-> & -> & Hkey)]; cbn.
      - reflexivity.
      - f_equal.
        + destruct (OPENAI_API_KEY process) as [[| ch k] |]; try discriminate.
          reflexivity.
        + apply or_opt_same. }
    now rewrite Hoptions.
  - unfold OpenAIContentGenerator, constructed.
    assert (Hoptions :
      {| apiKey := or_opt (unless_empty (cg_apiKey c)) (OPENAI_API_KEY process);
         baseURL := or_opt (or_opt (cg_baseURL c)
                              (Some "https://generativelanguage.googleapis.com/v1beta"))
                           (OPENAI_BASE_URL host);
         defaultHeaders := httpOptions_headers process |}
      = {| apiKey := or_opt (cg_apiKey c) (OPENAI_API_KEY process);
           baseURL := Some "https://generativelanguage.googleapis.com/v1beta";
           defaultHeaders := httpOptions_headers process |}).
    { destruct (Hvertex eq_refl) as (-> & Hkey). cbn. f_equal.
      destruct Hkey as [-> | Hkey]; [reflexivity |].
      destruct (cg_apiKey c) as [[| ch k] |]; try discriminate. reflexivity. }
    now rewrite Hoptions.
  - reflexivity.
Qed.

Lemma generator_of_config_witness :
  createContentGenerator keyed_client rate_limited_host openai_process
    {| cg_model := "gpt-4o-mini"; cg_apiKey := Some "sk-test";
       cg_baseURL := None; cg_vertexai := None; cg_authType := Some USE_OPENAI |}
  = OpenAIGenerator {| apiKey := Some "sk-test";
                       baseURL := None;
                       defaultHeaders :=
                         [("User-Agent", "GeminiCLI/v20.11.0 (linux; x64)")] |} /\
  createContentGenerator keyed_client rate_limited_host vertex_process
    {| cg_model := "gpt-4o"; cg_apiKey := None;
       cg_baseURL := None; cg_vertexai := None; cg_authType := Some USE_OPENAI |}
  = Rejected (BackendError "no API key").
Proof.
  split.
  - apply (generator_of_config keyed_client rate_limited_host openai_process
             (Some "gpt-4o") (Some USE_OPENAI) None).
    reflexivity.
  - apply (generator_of_config keyed_client rate_limited_host vertex_process
             (Some "gpt-4o") (Some USE_OPENAI) None).
    reflexivity.
Defined.

End GeneratorFacts.
